(** * AlertMatrix detection services: alert gate, normaliser, streaming

    A shallow embedding of the Python services under [Yolo5/]:
    - [enhanced_detection_service.py]  (modules [Enhanced], [EnhancedProcess],
                                        [EnhancedStream], [EnhancedRun])
    - [gun_detection_service.py]       (modules [GunService], [GunProcess])
    - [working_video_stream.py]        (modules [VideoStream], [VideoApi])

    Conventions of the embedding.
    - Python floats (confidences, coordinates, [time.time()] readings) are
      rationals [Q]; comparisons are the exact ones, rounding is not modelled.
      Every float is finite: NaN and the infinities, on which [int(x)]
      raises, are not values of the embedding, and a statement about every
      table is a statement about every table of finite entries.
    - A frame (a NumPy pixel buffer) is the captured image it started from
      plus the list of OpenCV drawing calls applied to it, in order.  Its
      height and width are those of an image buffer, so a position computed
      from them alone is one OpenCV accepts.
    - A drawing call whose position is computed from detector output can
      fail: OpenCV converts each coordinate to a C [int] and raises
      [cv2.error] when it does not fit ([draw_all]).  What was drawn and posted
      before the failing call stays.
    - Everything the code obtains from outside (clock readings, the
      outcome of [requests.post], whether a capture device opens, what
      [cv2.imencode] returns) is an explicit argument.
    - Python exceptions are values of [PyExn]; a [try/except] is a match. *)

From Stdlib Require Import QArith Lqa ZArith Lia Ascii String.
From stdpp Require Import gmap strings list pretty.

(** ** Numbers *)

(** [x < y] on floats. *)
Definition Qltb (x y : Q) : bool := negb (Qle_bool y x).

(** [x >= y] on floats. *)
Definition Qgeb (x y : Q) : bool := Qle_bool y x.

(** Python's [int(x)] on a float: truncation toward zero. *)
Definition py_int (x : Q) : Z := Z.quot (Qnum x) (Zpos (Qden x)).

(** ** Strings *)

Definition CRLF : string := String "013" (String "010" "").

(** [str.lower()] on ASCII text. *)
Definition lower_ascii (c : ascii) : ascii :=
  let n := nat_of_ascii c in
  if (65 <=? n)%nat && (n <=? 90)%nat then ascii_of_nat (n + 32) else c.

Fixpoint lower (s : string) : string :=
  match s with
  | EmptyString => EmptyString
  | String c t => String (lower_ascii c) (lower t)
  end.

Fixpoint starts_with (p s : string) : bool :=
  match p, s with
  | EmptyString, _ => true
  | String a p', String b s' => if Ascii.eqb a b then starts_with p' s' else false
  | String _ _, EmptyString => false
  end.

(** Python's [needle in hay] on strings. *)
Fixpoint str_in (needle hay : string) : bool :=
  if starts_with needle hay then true
  else match hay with
       | EmptyString => false
       | String _ t => str_in needle t
       end.

(** [s.rstrip('/')] *)
Fixpoint rstrip_slash (s : string) : string :=
  match s with
  | EmptyString => EmptyString
  | String c t =>
      match rstrip_slash t with
      | EmptyString => if Ascii.eqb c "/" then EmptyString else String c EmptyString
      | t' => String c t'
      end
  end.

(** ** Frames and drawing *)

Definition Point : Type := Z * Z.
Definition Color : Type := Z * Z * Z.

(** The texts the services render; formatted numbers are kept as numbers. *)
Inductive Text :=
| WarningText (weapon_type : string) (conf : Q)  (* '{TYPE} DETECTED! {conf:.1%}' *)
| LabelText (class_name : string) (conf : Q)     (* '{class_name}: {conf:.2%}' *)
| SummaryText (count : nat) (threshold : Q)      (* 'Detections: n | Threshold: t' *)
| PlainText (s : string).

Inductive DrawOp :=
| Rectangle (p1 p2 : Point) (color : Color) (thickness : Z)
| PutText (text : Text) (org : Point) (scale : Q) (color : Color) (thickness : Z)
| Circle (center : Point) (radius : Z) (color : Color) (thickness : Z).

Inductive Pixels :=
| Captured (id : nat)        (* what cap.read() delivered *)
| Zeros.                     (* np.zeros(...) *)

Record Frame := mkFrame {
  f_height : Z;              (* frame.shape[0] *)
  f_width : Z;               (* frame.shape[1] *)
  f_pixels : Pixels;
  f_drawn : list DrawOp      (* drawing calls applied so far, oldest first *)
}.

Definition draw (op : DrawOp) (f : Frame) : Frame :=
  mkFrame (f_height f) (f_width f) (f_pixels f) (f_drawn f ++ [op]).

(** Frame buffers live in a store; a Python variable holding a frame is a
    reference into it, so that drawing through one name is seen through
    every other name of the same buffer. *)
Definition FrameRef := positive.
Definition draw_at (r : FrameRef) (op : DrawOp) (h : gmap FrameRef Frame)
  : gmap FrameRef Frame := alter (draw op) r h.

(** ** The OpenCV functions the services call *)

Class Cv2 := {
  (* cv2.getTextSize(label, FONT_HERSHEY_SIMPLEX, 0.5, 2)[0] *)
  getTextSize : Text -> Z * Z;
  (* cv2.imencode('.jpg', frame, [IMWRITE_JPEG_QUALITY, q]): None when ret is false *)
  imencode : Frame -> Z -> option string
}.

(** ** The backend *)

(** What [requests.post(...)] does when it is called. *)
Inductive PostOutcome :=
| Response (status_code : Z)
| RequestException            (* requests.exceptions.RequestException *)
| OtherException.             (* any other exception raised in the try block *)

(** The JSON body of [POST /api/alert].  The [timestamp] field, which comes
    from a clock call of its own ([datetime.now()]), is left out. *)
Record AlertData := mkAlertData {
  ad_camera_id : string;
  ad_confidence : Q;
  ad_detection_type : string;
  ad_image : option Frame      (* the frame handed to encode_image_to_base64 *)
}.

(** ** enhanced_detection_service.py: the alert gate and dispatcher *)

Module Enhanced.

Record Service := mkService {
  confidence_threshold : Q;
  alert_threshold : Q;
  backend_url : string;
  camera_id : string;
  cooldown_seconds : Z;
  detection_count : nat;
  last_gun_alert : Q;
  last_knife_alert : Q
}.

(** [EnhancedDetectionService.__init__] (the Flask set-up and the
    best-effort camera registration do not touch these fields). *)
Definition init (confidence_threshold : Q) (backend_url camera_id : string)
    (cooldown_seconds : Z) : Service :=
  {| confidence_threshold := confidence_threshold;
     alert_threshold := 7 # 10;
     backend_url := rstrip_slash backend_url;
     camera_id := camera_id;
     cooldown_seconds := cooldown_seconds;
     detection_count := 0;
     last_gun_alert := 0;
     last_knife_alert := 0 |}.

(** [main]: the only validation of [--confidence] is the range check. *)
Definition main (confidence : Q) (backend_url camera_id : string) (cooldown : Z)
  : option Service :=
  if negb (Qle_bool 0 confidence && Qle_bool confidence 1) then None
  else Some (init confidence backend_url camera_id cooldown).

Definition set_last_gun_alert (t : Q) (s : Service) : Service :=
  mkService (confidence_threshold s) (alert_threshold s) (backend_url s) (camera_id s)
    (cooldown_seconds s) (detection_count s) t (last_knife_alert s).

Definition set_last_knife_alert (t : Q) (s : Service) : Service :=
  mkService (confidence_threshold s) (alert_threshold s) (backend_url s) (camera_id s)
    (cooldown_seconds s) (detection_count s) (last_gun_alert s) t.

Definition incr_detection_count (s : Service) : Service :=
  mkService (confidence_threshold s) (alert_threshold s) (backend_url s) (camera_id s)
    (cooldown_seconds s) (S (detection_count s)) (last_gun_alert s) (last_knife_alert s).

(** What one call of [send_alert] leaves behind. *)
Record Sent := mkSent {
  service : Service;            (* self after the call *)
  returned : bool;              (* the return value *)
  posted : list AlertData       (* the bodies handed to requests.post *)
}.

(** [EnhancedDetectionService.send_alert].  [current_time] is what
    [time.time()] returns, [net] what [requests.post] does if it is reached. *)
Definition send_alert (s : Service) (detection_type : string) (confidence : Q)
    (frame : Frame) (current_time : Q) (net : PostOutcome) : Sent :=
  let last_alert_time :=
    if String.eqb detection_type "gun" then last_gun_alert s else last_knife_alert s in
  if Qltb (current_time - last_alert_time) (inject_Z (cooldown_seconds s)) then
    mkSent s false []
  else
    let alert_data :=
      {| ad_camera_id := camera_id s;
         ad_confidence := confidence;
         ad_detection_type := detection_type;
         ad_image := Some frame |} in
    match net with
    | Response status_code =>
        if (status_code =? 200)%Z then
          let s1 := if String.eqb detection_type "gun"
                    then set_last_gun_alert current_time s
                    else set_last_knife_alert current_time s in
          mkSent (incr_detection_count s1) true [alert_data]
        else mkSent s false [alert_data]
    | RequestException => mkSent s false [alert_data]
    | OtherException => mkSent s false [alert_data]
    end.

(** The cooldown clock [send_alert] consults for a detection type. *)
Definition clock_of (s : Service) (detection_type : string) : Q :=
  if String.eqb detection_type "gun" then last_gun_alert s else last_knife_alert s.

(** One alert attempt as the detection loop makes it. *)
Record Attempt := mkAttempt {
  a_type : string;
  a_confidence : Q;
  a_frame : Frame;
  a_time : Q;
  a_net : PostOutcome
}.

Definition attempt (s : Service) (a : Attempt) : Sent :=
  send_alert s (a_type a) (a_confidence a) (a_frame a) (a_time a) (a_net a).

(** A sequence of attempts, each starting from the state the previous one
    left; returns the final state and the return value of every call. *)
Fixpoint run_alerts (s : Service) (l : list Attempt) : Service * list bool :=
  match l with
  | [] => (s, [])
  | a :: l' =>
      let r := attempt s a in
      let '(s', rs) := run_alerts (service r) l' in
      (s', returned r :: rs)
  end.

End Enhanced.

(** ** gun_detection_service.py: the alert gate and dispatcher *)

Module GunService.

Record Service := mkService {
  model_path : string;
  backend_url : string;
  camera_id : string;
  confidence_threshold : Q;
  cooldown_seconds : Z;
  capture_snapshots : bool;
  last_alert_time : Q;
  detection_count : nat
}.

(** [GunDetectionService.__init__] *)
Definition init (model_path backend_url camera_id : string) (confidence_threshold : Q)
    (cooldown_seconds : Z) (capture_snapshots : bool) : Service :=
  {| model_path := model_path;
     backend_url := rstrip_slash backend_url;
     camera_id := camera_id;
     confidence_threshold := confidence_threshold;
     cooldown_seconds := cooldown_seconds;
     capture_snapshots := capture_snapshots;
     last_alert_time := 0;
     detection_count := 0 |}.

Definition mark_sent (t : Q) (s : Service) : Service :=
  mkService (model_path s) (backend_url s) (camera_id s) (confidence_threshold s)
    (cooldown_seconds s) (capture_snapshots s) t (S (detection_count s)).

Record Sent := mkSent {
  service : Service;
  returned : bool;
  posted : list AlertData
}.

(** [GunDetectionService.send_alert]; [frame] is [None] when the caller
    passes no frame. *)
Definition send_alert (s : Service) (detection_type : string) (confidence : Q)
    (frame : option Frame) (current_time : Q) (net : PostOutcome) : Sent :=
  if Qltb (current_time - last_alert_time s) (inject_Z (cooldown_seconds s)) then
    mkSent s false []
  else
    let alert_data :=
      {| ad_camera_id := camera_id s;
         ad_confidence := confidence;
         ad_detection_type := detection_type;
         ad_image := if capture_snapshots s then frame else None |} in
    match net with
    | Response status_code =>
        if (status_code =? 200)%Z then
          mkSent (mark_sent current_time s) true [alert_data]
        else mkSent s false [alert_data]
    | RequestException => mkSent s false [alert_data]
    | OtherException => mkSent s false [alert_data]
    end.

End GunService.

(** ** Raw detector output *)

Inductive PyExn :=
| ValueError
| KeyError
| TypeError
| Cv2Error.                   (* cv2.error *)

(** A NumPy array of floats of dimension one or two.  In [Array2 ncols rows]
    every row has [ncols] entries ([nd_wf]). *)
Inductive NDArray :=
| Array1 (l : list Q)
| Array2 (ncols : nat) (rows : list (list Q)).

Definition nd_wf (a : NDArray) : Prop :=
  match a with
  | Array1 _ => True
  | Array2 ncols rows => Forall (fun r => length r = ncols) rows
  end.

(** [pred.size] *)
Definition nd_size (a : NDArray) : nat :=
  match a with
  | Array1 l => length l
  | Array2 ncols rows => length rows * ncols
  end.

(** [len(pred)] *)
Definition nd_len (a : NDArray) : nat :=
  match a with
  | Array1 l => length l
  | Array2 _ rows => length rows
  end.

(** [np.empty((0, 6))] *)
Definition nd_empty : NDArray := Array2 6 [].

(** One entry of an ultralytics [Boxes]: row [i] of [xyxy], [conf], [cls]. *)
Record BoxRow := mkBoxRow {
  b_x1 : Q; b_y1 : Q; b_x2 : Q; b_y2 : Q; b_conf : Q; b_cls : Q
}.

(** [np.hstack([xyxy, conf, cls])] *)
Definition hstack (boxes : list BoxRow) : NDArray :=
  Array2 6 (map (fun b => [b_x1 b; b_y1 b; b_x2 b; b_y2 b; b_conf b; b_cls b]) boxes).

(** The attributes of a result object that [process_detections] inspects:
    [boxes] (absent, [None], or a [Boxes]) and [xyxy] (absent, or the
    per-image list of tables, of which the first is read). *)
Record PyObject := mkPyObject {
  attr_boxes : option (option (list BoxRow));
  attr_xyxy : option NDArray
}.

(** What the detector call returns: a Python list, or any other object. *)
Inductive Raw :=
| RawList (l : list PyObject)
| RawObject (o : PyObject).

(** A normalised detection: [(class_name, conf, [x1, y1, x2, y2])]. *)
Record Detection := mkDetection {
  d_class_name : string;
  d_conf : Q;
  d_box : list Q
}.

#[global] Instance Frame_inhabited : Inhabited Frame := populate (mkFrame 0 0 Zeros []).

(** What a call that may raise leaves behind: the value it returns, or the
    exception that escapes it. *)
Inductive Outcome (A : Type) :=
| Returned (a : A)
| Raised (e : PyExn).
Arguments Returned {A} a.
Arguments Raised {A} e.

(** ** Drawing calls on detector output

    OpenCV's Python binding converts the coordinates of a point to C [int]s;
    a Python integer outside [-2^31, 2^31 - 1] makes the call raise
    [cv2.error] before anything is drawn. *)
Definition c_int (z : Z) : bool := (-2147483648 <=? z)%Z && (z <=? 2147483647)%Z.

Definition point_ok (p : Point) : bool := c_int (fst p) && c_int (snd p).

(** Whether OpenCV accepts the positions of a drawing call. *)
Definition op_ok (op : DrawOp) : bool :=
  match op with
  | Rectangle p1 p2 _ _ => point_ok p1 && point_ok p2
  | PutText _ org _ _ _ => point_ok org
  | Circle center _ _ _ => point_ok center
  end.

(** Consecutive drawing calls on one buffer: the first call OpenCV refuses
    raises, and the calls after it do not happen. *)
Fixpoint draw_all (frame : FrameRef) (ops : list DrawOp) (h : gmap FrameRef Frame)
  : gmap FrameRef Frame * option PyExn :=
  match ops with
  | [] => (h, None)
  | op :: ops' =>
      if op_ok op then draw_all frame ops' (draw_at frame op h)
      else (h, Some Cv2Error)
  end.

(** The world outside an [EnhancedDetectionService] during one call of
    [process_detections]: the [n]-th call of [send_alert] (counting from 0)
    reads the clock [fst (env n)] and, if it posts, meets [snd (env n)]. *)
Definition Env := nat -> Q * PostOutcome.

Module EnhancedProcess.
Import Enhanced.

Section WithCv2.
Context `{Cv2}.
Local Open Scope Z_scope.

(** The variables of [process_detections] that change while it runs. *)
Record Loop := mkLoop {
  detections : list Detection;
  frame_detection_count : nat;
  heap : gmap FrameRef Frame;
  svc : Service;
  alert_calls : nat;                 (* calls of send_alert so far *)
  outbox : list AlertData            (* bodies handed to requests.post so far *)
}.

(** The first part of [process_detections]: from the raw result to [pred],
    including the reset of a malformed array to [np.empty((0, 6))]. *)
Definition boxes_pred (o : PyObject) : option NDArray :=
  match attr_boxes o with
  | Some (Some boxes) =>
      Some (if (0 <? length boxes)%nat then hstack boxes else nd_empty)
  | _ => None
  end.

Definition raw_pred (results : Raw) : NDArray :=
  match results with
  | RawList (result :: _) =>
      match boxes_pred result with
      | Some pred => pred
      | None => nd_empty
      end
  | RawList [] => nd_empty
  | RawObject o =>
      match boxes_pred o with
      | Some pred => pred
      | None =>
          match attr_xyxy o with
          | Some table => table
          | None => nd_empty
          end
      end
  end.

Definition validate_pred (pred : NDArray) : NDArray :=
  if (0 <? nd_size pred)%nat then
    match pred with
    | Array1 _ => nd_empty
    | Array2 ncols _ => if (ncols <? 6)%nat then nd_empty else pred
    end
  else pred.

(** The elements [for i, detection in enumerate(pred)] visits.  After
    [validate_pred] a one-dimensional array is empty. *)
Definition nd_iter (pred : NDArray) : list (list Q) :=
  match pred with
  | Array1 _ => []
  | Array2 _ rows => rows
  end.

Definition weapon_classes : list string := ["gun"; "knife"; "guns"; "knives"].
Definition gun_types : list string := ["gun"; "guns"].

(** [any(w in class_name.lower() for w in ws)] *)
Definition any_in (ws : list string) (class_name : string) : bool :=
  existsb (fun w => str_in w (lower class_name)) ws.

(** The drawing calls at the end of the loop body, in order: box, label
    background, label text and centre dot. *)
Definition box_ops (class_name : string) (conf : Q) (x1 y1 x2 y2 : Z)
    (color : Color) (thickness : Z) : list DrawOp :=
  let label := LabelText class_name conf in
  let label_size := getTextSize label in
  [ Rectangle (x1, y1) (x2, y2) color thickness;
    Rectangle (x1, y1 - snd label_size - 10) (x1 + fst label_size, y1) color (-1);
    PutText label (x1, y1 - 5) (1 # 2)%Q (255, 255, 255) 2;
    Circle ((x1 + x2) / 2, (y1 + y2) / 2) 3 color (-1) ].

(** One pass through the body of [for i, detection in enumerate(pred)]: the
    variables after the pass, and the exception that ended it, if any.  The
    branches on the class and the confidence choose the colour and the
    thickness; the alert branch also calls [send_alert] and then draws the
    warning text, before the drawing calls shared by all branches. *)
Definition loop_body (names : gmap Z string) (send_alerts : bool) (env : Env)
    (frame : FrameRef) (st : Loop) (detection : list Q) : Loop * option PyExn :=
  if (length detection <? 6)%nat then (st, None)            (* continue *)
  else
    match detection with
    | [x1; y1; x2; y2; conf; cls] =>
        let class_id := py_int cls in
        match names !! class_id with
        | None => (st, None)                                (* KeyError: continue *)
        | Some class_name =>
            if Qgeb conf (confidence_threshold (svc st)) then
              let count := S (frame_detection_count st) in
              let dets := detections st ++ [mkDetection class_name conf [x1; y1; x2; y2]] in
              let '(ix1, iy1, ix2, iy2) := (py_int x1, py_int y1, py_int x2, py_int y2) in
              let is_weapon := any_in weapon_classes class_name in
              let unsent := (svc st, alert_calls st, outbox st) in
              let '(color, thickness, (svc', calls', outbox'), warning) :=
                if is_weapon then
                  if Qgeb conf (alert_threshold (svc st)) then
                    let is_gun := any_in gun_types class_name in
                    let color : Color := if is_gun then (0, 0, 255) else (0, 165, 255) in
                    let weapon_type := if is_gun then "gun" else "knife" in
                    let sent :=
                      if send_alerts then
                        let '(now, net) := env (alert_calls st) in
                        let r := send_alert (svc st) weapon_type conf (heap st !!! frame) now net in
                        (service r, S (alert_calls st), outbox st ++ posted r)
                      else unsent in
                    (color, 3, sent,
                     [PutText (WarningText weapon_type conf)
                        (10, 60 + 20 * Z.of_nat count) (7 # 10)%Q color 2])
                  else
                    let color : Color :=
                      if any_in gun_types class_name then (0, 0, 180) else (0, 140, 220) in
                    (color, 2, unsent, [])
                else ((128, 128, 128), 1, unsent, []) in
              let '(h, exn) :=
                draw_all frame
                  (warning ++ box_ops class_name conf ix1 iy1 ix2 iy2 color thickness)
                  (heap st) in
              (mkLoop dets count h svc' calls' outbox', exn)
            else (st, None)
        end
    | _ => (st, Some ValueError)                            (* too many values to unpack *)
    end.

(** The [for] loop: it stops at the first exception, keeping what was done
    until then. *)
Fixpoint loop (names : gmap Z string) (send_alerts : bool) (env : Env)
    (frame : FrameRef) (st : Loop) (rows : list (list Q)) : Loop * option PyExn :=
  match rows with
  | [] => (st, None)
  | detection :: rows' =>
      match loop_body names send_alerts env frame st detection with
      | (st', None) => loop names send_alerts env frame st' rows'
      | (st', Some e) => (st', Some e)
      end
  end.

(** What [process_detections] leaves behind. *)
Record Processed := mkProcessed {
  result : Outcome (list Detection);   (* the return value, or the exception *)
  heap_after : gmap FrameRef Frame;    (* the frame buffers after the call *)
  service_after : Service;             (* self after the call *)
  posts : list AlertData               (* bodies handed to requests.post *)
}.

(** The summary line drawn after the loop. *)
Definition draw_summary (count : nat) (threshold : Q) (f : Frame) : Frame :=
  draw (PutText (SummaryText count threshold) (10, f_height f - 40) (1 # 2)%Q (255, 255, 255) 2) f.

(** [EnhancedDetectionService.process_detections(results, frame, model, send_alerts)];
    [names] is [model.names]. *)
Definition process_detections (s : Service) (h : gmap FrameRef Frame) (env : Env)
    (results : Raw) (frame : FrameRef) (names : gmap Z string) (send_alerts : bool)
  : Processed :=
  let pred := validate_pred (raw_pred results) in
  let '(st, exn) := loop names send_alerts env frame (mkLoop [] 0%nat h s 0%nat []) (nd_iter pred) in
  match exn with
  | Some e => mkProcessed (Raised e) (heap st) (svc st) (outbox st)
  | None =>
      let h' := alter (draw_summary (frame_detection_count st) (confidence_threshold (svc st)))
                  frame (heap st) in
      mkProcessed (Returned (detections st)) h' (svc st) (outbox st)
  end.

End WithCv2.
End EnhancedProcess.

(** ** The multipart stream *)

(** One part of the [multipart/x-mixed-replace; boundary=frame] response:
    [b'--frame\r\nContent-Type: image/jpeg\r\n\r\n' + frame + b'\r\n']. *)
Definition part (frame_bytes : string) : string :=
  "--frame" +:+ CRLF +:+ "Content-Type: image/jpeg" +:+ CRLF +:+ CRLF +:+ frame_bytes +:+ CRLF.

Module EnhancedStream.
Section WithCv2.
Context `{Cv2}.

(** One pass through the [while True] of
    [EnhancedDetectionService.generate_frames]; [current_frame] is
    [self.current_frame] as read under the lock in this pass.  The result is
    what the pass yields. *)
Definition generate_frames_pass (current_frame : option Frame) : list string :=
  match current_frame with
  | Some f =>
      match imencode f 85 with
      | Some buffer => [part buffer]
      | None => []
      end
  | None => []
  end.

(** The generator run for as many passes as [reads] is long; [reads] lists
    what each pass finds in [self.current_frame]. *)
Definition generate_frames (reads : list (option Frame)) : list string :=
  flat_map generate_frames_pass reads.

End WithCv2.
End EnhancedStream.

(** ** gun_detection_service.py: detections and the main loop *)

Module GunProcess.
Import GunService.
Local Open Scope Z_scope.

Record Loop := mkLoop {
  detections : list (string * Q);
  heap : gmap FrameRef Frame
}.

(** One pass through [for *box, conf, cls in results.xyxy[0].cpu().numpy()]:
    the variables after the pass, and the exception that ended it, if any. *)
Definition loop_body (s : Service) (names : gmap Z string) (frame : FrameRef)
    (st : Loop) (row : list Q) : Loop * option PyExn :=
  match rev row with
  | cls :: conf :: rbox =>
      let box := rev rbox in
      if Qgeb conf (confidence_threshold s) then
        match names !! py_int cls with
        | None => (st, Some KeyError)
        | Some class_name =>
            if String.eqb class_name "gun" || String.eqb class_name "knife" then
              let dets := detections st ++ [(class_name, conf)] in
              match box with
              | [x1; y1; x2; y2] =>
                  let '(ix1, iy1, ix2, iy2) := (py_int x1, py_int y1, py_int x2, py_int y2) in
                  let color : Color :=
                    if String.eqb class_name "gun" then (0, 0, 255) else (0, 165, 255) in
                  let '(h, exn) :=
                    draw_all frame
                      [ Rectangle (ix1, iy1) (ix2, iy2) color 2;
                        PutText (LabelText class_name conf) (ix1, iy1 - 10) (1 # 2)%Q color 2 ]
                      (heap st) in
                  (mkLoop dets h, exn)
              | _ => (mkLoop dets (heap st), Some ValueError)
              end
            else (st, None)
        end
      else (st, None)
  | _ => (st, Some ValueError)                  (* not enough values to unpack *)
  end.

Fixpoint loop (s : Service) (names : gmap Z string) (frame : FrameRef)
    (st : Loop) (rows : list (list Q)) : Loop * option PyExn :=
  match rows with
  | [] => (st, None)
  | row :: rows' =>
      match loop_body s names frame st row with
      | (st', None) => loop s names frame st' rows'
      | (st', Some e) => (st', Some e)
      end
  end.

Record Processed := mkProcessed {
  result : Outcome (list (string * Q));
  heap_after : gmap FrameRef Frame
}.

(** [GunDetectionService.process_detections(results, frame)]; [table] is
    [results.xyxy[0]] and [names] is [self.model.names]. *)
Definition process_detections (s : Service) (h : gmap FrameRef Frame)
    (table : NDArray) (frame : FrameRef) (names : gmap Z string) : Processed :=
  match table with
  | Array1 [] => mkProcessed (Returned []) h
  | Array1 (_ :: _) => mkProcessed (Raised TypeError) h   (* a scalar cannot be unpacked *)
  | Array2 _ rows =>
      let '(st, exn) := loop s names frame (mkLoop [] h) rows in
      match exn with
      | Some e => mkProcessed (Raised e) (heap st)
      | None => mkProcessed (Returned (detections st)) (heap st)
      end
  end.

(** [for detection_type, confidence in detections: self.send_alert(...)];
    the [n]-th call reads [env n]. *)
Fixpoint send_alerts (s : Service) (env : Env) (n : nat) (frame : Frame)
    (dets : list (string * Q)) : Service * list bool * list AlertData :=
  match dets with
  | [] => (s, [], [])
  | (detection_type, confidence) :: dets' =>
      let '(now, net) := env n in
      let r := send_alert s detection_type confidence (Some frame) now net in
      let '(s', rets, out) := send_alerts (service r) env (S n) frame dets' in
      (s', returned r :: rets, posted r ++ out)
  end.

Record Cycle := mkCycle {
  cy_service : Service;
  cy_heap : gmap FrameRef Frame;
  cy_returns : list bool;              (* what each send_alert returned *)
  cy_posts : list AlertData;
  cy_raised : option PyExn
}.

(** One iteration of the [while True] in [GunDetectionService.run], from the
    inference result to the end of the alert loop. *)
Definition run_cycle (s : Service) (h : gmap FrameRef Frame) (env : Env)
    (table : NDArray) (frame : FrameRef) (names : gmap Z string) : Cycle :=
  let p := process_detections s h table frame names in
  match result p with
  | Raised e => mkCycle s (heap_after p) [] [] (Some e)
  | Returned dets =>
      let '(s', rets, out) := send_alerts s env 0%nat (heap_after p !!! frame) dets in
      mkCycle s' (heap_after p) rets out None
  end.

End GunProcess.

(** ** working_video_stream.py *)

Module VideoStream.
Local Open Scope Z_scope.

(** A [cv2.VideoCapture] object: the device index it was created for and
    what [isOpened()] answers. *)
Record VideoCapture := mkCapture {
  vc_index : Z;
  vc_opened : bool
}.

Record VideoStreamer := mkStreamer {
  cap : option VideoCapture;
  running : bool;
  camera_index : Z;
  fallback_indexes : list Z
}.

(** [VideoStreamer.__init__] *)
Definition init : VideoStreamer :=
  {| cap := None; running := false; camera_index := 0; fallback_indexes := [0; 1; 2] |}.

(** What [cv2.VideoCapture(idx)] does: an opened capture, a capture that is
    not opened, or an exception. *)
Inductive OpenOutcome := Opens | StaysClosed | OpenRaises.

Definition Devices := Z -> OpenOutcome.

Definition set_cap (c : VideoCapture) (s : VideoStreamer) : VideoStreamer :=
  mkStreamer (Some c) (running s) (camera_index s) (fallback_indexes s).

Definition set_camera_index (idx : Z) (s : VideoStreamer) : VideoStreamer :=
  mkStreamer (cap s) (running s) idx (fallback_indexes s).

(** [self.cap is not None and self.cap.isOpened()] *)
Definition is_open (s : VideoStreamer) : bool :=
  match cap s with
  | Some c => vc_opened c
  | None => false
  end.

(** What a call of [initialize_camera] leaves behind. *)
Record Initialized := mkInitialized {
  streamer : VideoStreamer;
  ok : bool;                    (* the return value *)
  tried : list Z                (* the indexes handed to cv2.VideoCapture, in order *)
}.

(** [for idx in self.fallback_indexes: ...] *)
Fixpoint try_fallbacks (dev : Devices) (s : VideoStreamer) (idxs : list Z)
    (tried : list Z) : Initialized :=
  match idxs with
  | [] => mkInitialized s false tried
  | idx :: rest =>
      if idx =? camera_index s then try_fallbacks dev s rest tried
      else
        match dev idx with
        | Opens =>
            mkInitialized (set_camera_index idx (set_cap (mkCapture idx true) s)) true
              (tried ++ [idx])
        | StaysClosed =>
            try_fallbacks dev (set_cap (mkCapture idx false) s) rest (tried ++ [idx])
        | OpenRaises => try_fallbacks dev s rest (tried ++ [idx])
        end
  end.

(** [VideoStreamer.initialize_camera(try_alternatives)] *)
Definition initialize_camera (dev : Devices) (s : VideoStreamer)
    (try_alternatives : bool) : Initialized :=
  if is_open s then mkInitialized s true []
  else
    let primary := camera_index s in
    match dev primary with
    | Opens => mkInitialized (set_cap (mkCapture primary true) s) true [primary]
    | StaysClosed =>
        let s1 := set_cap (mkCapture primary false) s in
        if try_alternatives then try_fallbacks dev s1 (fallback_indexes s1) [primary]
        else mkInitialized s1 false [primary]
    | OpenRaises =>
        if try_alternatives then try_fallbacks dev s (fallback_indexes s) [primary]
        else mkInitialized s false [primary]
    end.

(** The capture device going away: [isOpened()] turns false. *)
Definition connection_lost (s : VideoStreamer) : VideoStreamer :=
  mkStreamer (option_map (fun c => mkCapture (vc_index c) false) (cap s))
    (running s) (camera_index s) (fallback_indexes s).

(** The module's globals shared between the capture thread and the
    streaming responses. *)
Record Shared := mkShared {
  current_frame : option Frame;
  camera_active : bool;
  frame_count : nat
}.

Definition shared_init : Shared := mkShared None false 0%nat.

(** One pass through the [while self.running] of [_capture_loop].
    [read] is what [self.cap.read()] delivers ([None] when [ret] is false),
    [timestamp] what [time.strftime] gives.  Returns the streamer, the
    globals and the indexes tried by a reconnect. *)
Definition capture_pass (dev : Devices) (read : option Frame) (timestamp : string)
    (s : VideoStreamer) (g : Shared) : VideoStreamer * Shared * list Z :=
  let r := if negb (is_open s) then initialize_camera dev s true
           else mkInitialized s true [] in
  if negb (ok r) then (streamer r, g, tried r)
  else
    match read with
    | None => (streamer r, g, tried r)
    | Some frame =>
        let frame := draw (PutText (PlainText ("AlertMatrix Live Feed - " +:+ timestamp))
                             (10, 30) (6 # 10)%Q (0, 255, 0) 2) frame in
        let frame := draw (Circle (620, 20) 8 (0, 255, 0) (-1)) frame in
        let frame := draw (PutText (PlainText "LIVE") (580, 50) (1 # 2)%Q (0, 255, 0) 2) frame in
        (streamer r, mkShared (Some frame) true (S (frame_count g)), tried r)
    end.

(** [create_placeholder_frame] *)
Definition create_placeholder_frame (timestamp : string) : Frame :=
  let text_lines :=
    ["AlertMatrix Video Stream"; "Camera Not Available";
     "Please check camera connection"; timestamp]%string in
  fold_left
    (fun frame '(i, line) =>
       draw (PutText (PlainText line) (50, 180 + Z.of_nat i * 40) (8 # 10)%Q (128, 128, 128) 2)
         frame)
    (imap (fun i line => (i, line)) text_lines)
    (mkFrame 480 640 Zeros []).

Definition jpeg_quality (quality : string) : Z :=
  if String.eqb quality "low" then 50
  else if String.eqb quality "medium" then 70
  else if String.eqb quality "high" then 90
  else 85.

Section WithCv2.
Context `{Cv2}.

(** One pass through the [while True] of [generate_frames]: [g] is the
    globals as read under the lock, [quality] the request's query parameter
    if present. *)
Definition generate_frames_pass (quality : option string) (timestamp : string)
    (g : Shared) : list string :=
  match current_frame g with
  | Some f =>
      match imencode f (jpeg_quality (default "auto"%string quality)) with
      | Some buffer => [part buffer]
      | None => []
      end
  | None =>
      match imencode (create_placeholder_frame timestamp) 85 with
      | Some buffer => [part buffer]
      | None => []
      end
  end.

(** The generator run for as many passes as [reads] is long; each entry is
    the clock text and the globals that pass finds. *)
Definition generate_frames (quality : option string) (reads : list (string * Shared))
  : list string :=
  flat_map (fun '(timestamp, g) => generate_frames_pass quality timestamp g) reads.

End WithCv2.
End VideoStream.

(** ** Stand-ins used in the worked examples *)

(** An OpenCV whose text boxes are 100 by 12 and whose JPEG encoder always
    succeeds. *)
Definition example_cv2 : Cv2 :=
  {| getTextSize := fun _ => (100%Z, 12%Z);
     imencode := fun _ _ => Some "JPEG"%string |}.

Definition example_frame : Frame := mkFrame 480 640 (Captured 0) [].

(** A backend that accepts everything, with the clock standing at [t]. *)
Definition accepting_at (t : Q) : Env := fun _ => (t, Response 200).

(** A gun detection at confidence [conf] whose alert attempt is made at
    clock reading [t] and is answered with 200. *)
Definition gun_at (conf t : Q) : Enhanced.Attempt :=
  Enhanced.mkAttempt "gun" conf example_frame t (Response 200).

(** The three detections of the cooldown scenario, the first at clock
    reading [T]: confidences 0.9, 0.95 and 0.8 at [T], [T + 5], [T + 11]. *)
Definition cooldown_scenario (T : Q) : list Enhanced.Attempt :=
  [gun_at (9 # 10) T; gun_at (95 # 100) (T + 5)%Q; gun_at (8 # 10) (T + 11)%Q].

(** Clock readings that never go back. *)
Definition nondecreasing (l : list Enhanced.Attempt) : Prop :=
  forall i j a b, (i <= j)%nat -> l !! i = Some a -> l !! j = Some b ->
                  (Enhanced.a_time a <= Enhanced.a_time b)%Q.

(** [model.names] of the gun and knife model. *)
Definition example_names : gmap Z string :=
  {[ 0%Z := "gun"%string; 1%Z := "knife"%string ]}.

(** A store holding one captured frame, under reference 1. *)
Definition example_heap : gmap FrameRef Frame := {[ 1%positive := example_frame ]}.

(** A detector table with a gun and a knife, both at confidence 0.9. *)
Definition gun_and_knife : NDArray :=
  Array2 6 [[10; 20; 110; 220; 9 # 10; 0]; [30; 40; 130; 240; 9 # 10; 1]]%Q.

(** A fresh gun detection service with the defaults of its [main]. *)
Definition example_gun_service : GunService.Service :=
  GunService.init "best.pt" "http://localhost:4000" "webcam-01" (1 # 2) 10 true.

(** A fresh enhanced service with the defaults of its constructor. *)
Definition example_service : Enhanced.Service :=
  Enhanced.init (1 # 2) "http://localhost:8000" "webcam-01" 10.

(** ** Drawing in place *)

(** The frame [f] after the drawing calls [ops]. *)
Definition draw_ops (ops : list DrawOp) (f : Frame) : Frame :=
  mkFrame (f_height f) (f_width f) (f_pixels f) (f_drawn f ++ ops).

(** [h'] is the store [h] after the drawing calls [ops] on the buffer
    [frame]: the same buffers, all but [frame] untouched. *)
Definition drawn_with (frame : FrameRef) (ops : list DrawOp)
    (h h' : gmap FrameRef Frame) : Prop :=
  h' = alter (draw_ops ops) frame h.

(** An alert body that respects both thresholds of the service and names
    one of the two weapon types. *)
Definition confident_alert (s : Enhanced.Service) (a : AlertData) : Prop :=
  (Enhanced.alert_threshold s <= ad_confidence a)%Q
  /\ (Enhanced.confidence_threshold s <= ad_confidence a)%Q
  /\ (ad_detection_type a = "gun"%string \/ ad_detection_type a = "knife"%string).

(** The settings of an enhanced service, which no call changes. *)
Definition same_settings (s s' : Enhanced.Service) : Prop :=
  Enhanced.cooldown_seconds s' = Enhanced.cooldown_seconds s
  /\ Enhanced.confidence_threshold s' = Enhanced.confidence_threshold s
  /\ Enhanced.alert_threshold s' = Enhanced.alert_threshold s
  /\ Enhanced.camera_id s' = Enhanced.camera_id s.

(** A row the normaliser drops as malformed: fewer than six fields, or a
    class index that is not a key of [model.names]. *)
Definition dropped_row (names : gmap Z string) (row : list Q) : Prop :=
  (length row < 6)%nat
  \/ exists cls, row !! 5%nat = Some cls /\ names !! py_int cls = None.

(** A coordinate at most a billion pixels from the origin: a box corner
    there leaves every position the loop body computes from it (label
    background, label text, centre) inside the C [int] range. *)
Definition near (z : Z) : bool := (-1000000000 <=? z)%Z && (z <=? 1000000000)%Z.

(** A row with at most six fields whose box corners, when it has six, are
    [near]. *)
Definition drawable_row (row : list Q) : bool :=
  match row with
  | [x1; y1; x2; y2; _; _] =>
      near (py_int x1) && near (py_int y1) && near (py_int x2) && near (py_int y2)
  | _ => (length row <? 6)%nat
  end.

(** [cv2.getTextSize] reports widths and heights between zero and a billion
    pixels. *)
Definition modest_labels `{Cv2} : Prop :=
  forall t, (0 <= fst (getTextSize t) <= 1000000000)%Z
            /\ (0 <= snd (getTextSize t) <= 1000000000)%Z.

(** A torch.hub style result whose first table is [table]. *)
Definition hub_result (table : NDArray) : Raw :=
  RawObject (mkPyObject None (Some table)).

(** A detector table with one gun at confidence [conf]. *)
Definition gun_table (conf : Q) : NDArray :=
  Array2 6 [[10; 20; 110; 220; conf; 0]]%Q.

(** The cooldown scenario through the detection loop's own call: three
    captured frames, each with one gun (0.9, 0.95, 0.8), processed with
    [send_alerts=True] at clock readings [T], [T + 5], [T + 11] against a
    backend that answers 200.  Gives the service at the end and the number
    of requests made for each frame. *)
Definition three_frames (T : Q) : Enhanced.Service * list nat :=
  let run s t conf :=
    EnhancedProcess.process_detections (H := example_cv2) s example_heap (accepting_at t)
      (hub_result (gun_table conf)) 1%positive example_names true in
  let p1 := run example_service T (9 # 10) in
  let p2 := run (EnhancedProcess.service_after p1) (T + 5)%Q (95 # 100) in
  let p3 := run (EnhancedProcess.service_after p2) (T + 11)%Q (8 # 10) in
  (EnhancedProcess.service_after p3,
   [length (EnhancedProcess.posts p1); length (EnhancedProcess.posts p2);
    length (EnhancedProcess.posts p3)]).

(** A table whose single row carries a seventh field. *)
Definition seven_columns : NDArray :=
  Array2 7 [[10; 20; 110; 220; 9 # 10; 0; 0]]%Q.

(** A table of four rows: a gun at 0.9, a row of class 7 (not a key of
    [example_names]), a knife at 0.6 and a knife at 0.4. *)
Definition mixed_table : NDArray :=
  Array2 6 [[10; 20; 110; 220; 9 # 10; 0]; [10; 20; 110; 220; 9 # 10; 7];
            [30; 40; 130; 240; 6 # 10; 1]; [30; 40; 130; 240; 4 # 10; 1]]%Q.

(** ** The order of camera indexes, in the words of the specification *)

(** Whether [cv2.VideoCapture(idx)] gives an opened capture. *)
Definition opens (dev : VideoStream.Devices) (idx : Z) : bool :=
  match dev idx with
  | VideoStream.Opens => true
  | _ => false
  end.

(** The preferred index first, then each fallback in order (the preferred
    one is not tried twice). *)
Definition candidates (s : VideoStream.VideoStreamer) : list Z :=
  VideoStream.camera_index s
  :: filter (fun idx => idx <> VideoStream.camera_index s) (VideoStream.fallback_indexes s).

(** The indexes of [l] up to and including the first that opens. *)
Fixpoint upto_first_open (dev : VideoStream.Devices) (l : list Z) : list Z :=
  match l with
  | [] => []
  | idx :: l' => idx :: (if opens dev idx then [] else upto_first_open dev l')
  end.

(** The first index of [l] that opens. *)
Fixpoint first_open (dev : VideoStream.Devices) (l : list Z) : option Z :=
  match l with
  | [] => None
  | idx :: l' => if opens dev idx then Some idx else first_open dev l'
  end.

(** Only the device with index 2 can be opened. *)
Definition only_index_2 : VideoStream.Devices :=
  fun idx => if (idx =? 2)%Z then VideoStream.Opens else VideoStream.StaysClosed.

(** No device can be opened. *)
Definition no_camera : VideoStream.Devices := fun _ => VideoStream.StaysClosed.

(** ** The normaliser row by row *)

(** What the loop of the enhanced [process_detections] keeps of one row:
    a row of six fields whose class index is a key of [model.names] and
    whose confidence reaches the display threshold. *)
Definition normalize_row (names : gmap Z string) (threshold : Q) (row : list Q)
  : option Detection :=
  match row with
  | [x1; y1; x2; y2; conf; cls] =>
      match names !! py_int cls with
      | Some class_name =>
          if Qgeb conf threshold then Some (mkDetection class_name conf [x1; y1; x2; y2])
          else None
      | None => None
      end
  | _ => None
  end.

(** [validate_model]: [weapon_model] is [None] when no model is loaded,
    otherwise what calling the model on the test image does. *)
Definition validate_model (weapon_model : option (Outcome Raw)) : bool :=
  match weapon_model with
  | None => false
  | Some (Raised _) => false
  | Some (Returned (RawList (result :: _))) =>
      match attr_boxes result with
      | Some (Some _) => true
      | _ => false
      end
  | Some (Returned _) => false
  end.

(** A table with at least one row and more than six columns. *)
Definition too_wide (pred : NDArray) : bool :=
  match pred with
  | Array2 ncols (_ :: _) => (6 <? ncols)%nat
  | _ => false
  end.

(** A detector table with one gun at confidence 0.9 whose box starts three
    billion pixels to the right, beyond the C [int] range. *)
Definition far_gun_table : NDArray :=
  Array2 6 [[3000000000; 20; 110; 220; 9 # 10; 0]]%Q.

(** ** Runs of alert attempts on the gun detection service *)

(** One call of [GunDetectionService.send_alert] as the main loop makes it. *)
Record GunAttempt := mkGunAttempt {
  ga_type : string;
  ga_confidence : Q;
  ga_frame : option Frame;
  ga_time : Q;
  ga_net : PostOutcome
}.

Definition gun_attempt (s : GunService.Service) (a : GunAttempt) : GunService.Sent :=
  GunService.send_alert s (ga_type a) (ga_confidence a) (ga_frame a) (ga_time a) (ga_net a).

(** A sequence of calls, each starting from the state the previous one
    left; returns the final state and the return value of every call. *)
Fixpoint gun_run_alerts (s : GunService.Service) (l : list GunAttempt)
  : GunService.Service * list bool :=
  match l with
  | [] => (s, [])
  | a :: l' =>
      let r := gun_attempt s a in
      let '(s', rs) := gun_run_alerts (GunService.service r) l' in
      (s', GunService.returned r :: rs)
  end.

(** Clock readings that never go back. *)
Definition gun_nondecreasing (l : list GunAttempt) : Prop :=
  forall i j a b, (i <= j)%nat -> l !! i = Some a -> l !! j = Some b ->
                  (ga_time a <= ga_time b)%Q.

(** A gun alert at 100, a knife alert at 105 and a knife alert at 111, all
    answered with 200. *)
Definition gun_then_knives : list GunAttempt :=
  [mkGunAttempt "gun" (9 # 10) (Some example_frame) 100 (Response 200);
   mkGunAttempt "knife" (9 # 10) (Some example_frame) 105 (Response 200);
   mkGunAttempt "knife" (9 # 10) (Some example_frame) 111 (Response 200)].

(** What the loop of the gun detection service's [process_detections]
    keeps of one row: the last two fields are the confidence and the class
    index; the row is kept when the confidence reaches the threshold and
    the class is ['gun'] or ['knife']. *)
Definition gun_keep (names : gmap Z string) (threshold : Q) (row : list Q)
  : option (string * Q) :=
  match rev row with
  | cls :: conf :: _ =>
      if Qgeb conf threshold then
        match names !! py_int cls with
        | Some class_name =>
            if String.eqb class_name "gun" || String.eqb class_name "knife"
            then Some (class_name, conf) else None
        | None => None
        end
      else None
  | _ => None
  end.

(** A row whose confidence, the last field but one, is below [threshold]. *)
Definition below_threshold (threshold : Q) (row : list Q) : Prop :=
  exists cls conf rbox, rev row = cls :: conf :: rbox /\ Qgeb conf threshold = false.

(** A row at or above [threshold] whose class index is not a key of
    [model.names]. *)
Definition unknown_class_row (names : gmap Z string) (threshold : Q) (row : list Q) : Prop :=
  exists cls conf rbox,
    rev row = cls :: conf :: rbox /\ Qgeb conf threshold = true
    /\ names !! py_int cls = None.

(** A table with a gun at 0.9 followed by a row of class 7 at 0.9. *)
Definition gun_then_unknown : NDArray :=
  Array2 6 [[10; 20; 110; 220; 9 # 10; 0]; [10; 20; 110; 220; 9 # 10; 7]]%Q.

(** A table whose rows are all below 0.5; the classes are not keys of
    [example_names] and the rows have three fields only. *)
Definition faint_table : NDArray :=
  Array2 3 [[10; 4 # 10; 7]; [20; 1 # 10; 9]]%Q.

(** ** working_video_stream.py: the remaining routes and the capture thread *)

Module VideoApi.
Import VideoStream.
Local Open Scope Z_scope.

(** [VideoStreamer.start_capture]: the streamer afterwards and the return
    value (starting the thread is the caller's business here). *)
Definition start_capture (dev : Devices) (s : VideoStreamer) : VideoStreamer * bool * list Z :=
  let r := initialize_camera dev s true in
  if negb (ok r) then (streamer r, false, tried r)
  else (mkStreamer (cap (streamer r)) true (camera_index (streamer r))
          (fallback_indexes (streamer r)), true, tried r).

(** [VideoStreamer.stop_capture] *)
Definition stop_capture (s : VideoStreamer) : VideoStreamer :=
  mkStreamer None false (camera_index s) (fallback_indexes s).

(** The status code of [/api/health]. *)
Definition health (g : Shared) : Z := if camera_active g then 200 else 503.

(** [f"{n:02d}"] *)
Definition format_02d (n : Z) : string :=
  let digits := pretty n in
  if (String.length digits <? 2)%nat then "0" +:+ digits else digits.

(** The [divmod]s of [status]: hours, minutes, seconds. *)
Definition uptime_parts (uptime : Z) : Z * Z * Z :=
  let hours := uptime / 3600 in
  let remainder := uptime mod 3600 in
  let minutes := remainder / 60 in
  let seconds := remainder mod 60 in
  (hours, minutes, seconds).

(** The fields of the [/api/status] answer that come from the service. *)
Record Status := mkStatus {
  st_status : string;
  st_streaming : bool;
  st_frames_processed : nat;
  st_uptime : string
}.

(** [status]: [now] is [time.time()] and [start] is [service_start_time]. *)
Definition status (g : Shared) (now start : Q) : Status :=
  let uptime := py_int (now - start) in
  let '(hours, minutes, seconds) := uptime_parts uptime in
  {| st_status := if camera_active g then "active" else "inactive";
     st_streaming := camera_active g;
     st_frames_processed := frame_count g;
     st_uptime := format_02d hours +:+ ":" +:+ format_02d minutes +:+ ":"
                  +:+ format_02d seconds |}.

(** What happens to the capture thread between two looks at it: a pass
    through its loop, or the device going away. *)
Inductive CaptureEvent :=
| Pass (dev : Devices) (read : option Frame) (timestamp : string)
| Lost.

(** The streamer and the globals after a sequence of events. *)
Fixpoint capture_run (s : VideoStreamer) (g : Shared) (events : list CaptureEvent)
  : VideoStreamer * Shared :=
  match events with
  | [] => (s, g)
  | Pass dev read timestamp :: rest =>
      let '(s', g', _) := capture_pass dev read timestamp s g in
      capture_run s' g' rest
  | Lost :: rest => capture_run (connection_lost s) g rest
  end.

End VideoApi.

(** The camera works for one pass, then goes away for good. *)
Definition camera_then_nothing : list VideoApi.CaptureEvent :=
  [VideoApi.Pass (fun _ => VideoStream.Opens) (Some example_frame) "2025-01-01 00:00:00";
   VideoApi.Lost;
   VideoApi.Pass no_camera None "2025-01-01 00:00:05";
   VideoApi.Pass no_camera None "2025-01-01 00:00:10"].

(** ** Strings *)

(** [n] slashes. *)
Fixpoint slashes (n : nat) : string :=
  match n with
  | O => EmptyString
  | S n' => String "/" (slashes n')
  end.

(** [w] occurs in the lower-cased [class_name]. *)
Definition names_a (w class_name : string) : Prop :=
  exists pre post, lower class_name = (pre +:+ w +:+ post)%string.

(** ** The alerts of one frame *)

(** A detection for which the loop of the enhanced [process_detections]
    calls [send_alert]: a weapon class at or above the alert threshold. *)
Definition alert_level (s : Enhanced.Service) (d : Detection) : bool :=
  EnhancedProcess.any_in EnhancedProcess.weapon_classes (d_class_name d)
  && Qgeb (d_conf d) (Enhanced.alert_threshold s).

(** The detection type the loop passes to [send_alert]. *)
Definition alert_type (d : Detection) : string :=
  if EnhancedProcess.any_in EnhancedProcess.gun_types (d_class_name d) then "gun" else "knife".

(** One attempt per detection of [ds], the first reading [env n]; [fr i]
    stands for the frame handed over in call [i]. *)
Fixpoint attempts_from (fr : nat -> Frame) (env : Env) (n : nat) (ds : list Detection)
  : list Enhanced.Attempt :=
  match ds with
  | [] => []
  | d :: ds' =>
      Enhanced.mkAttempt (alert_type d) (d_conf d) (fr n) (fst (env n)) (snd (env n))
      :: attempts_from fr env (S n) ds'
  end.

(** ** enhanced_detection_service.py: the detection loop *)

Module EnhancedRun.
Import Enhanced EnhancedProcess.
Local Open Scope Z_scope.

(** What the loop of [run_detection] carries from pass to pass. *)
Record Run := mkRun {
  r_service : Service;
  current_frame : option Frame;        (* self.current_frame *)
  frame_count : nat;
  total_detections : nat
}.

(** [run_detection] enters its loop with a fresh counter and whatever the
    constructor left in [self.current_frame], which is [None]. *)
Definition start (s : Service) : Run := mkRun s None 0 0.

(** What one pass through the loop meets.  The two overlay texts that
    format timings are given as the strings they come out as. *)
Record Tick := mkTick {
  t_read : option Frame;               (* self.cap.read(): None when ret is false *)
  t_inference : Outcome Raw;           (* self.weapon_model(frame) *)
  t_env : Env;                         (* the clock and the backend during the pass *)
  t_perf_text : string;                (* f"Inference: ...ms | Processing: ...ms" *)
  t_fps_text : string                  (* f"FPS: ..." *)
}.

Inductive Control := Continue | Break.

(** [f"Weapon Detection | Frame: {frame_count} | Alerts: {self.detection_count}"] *)
Definition status_text (frame_count alerts : nat) : string :=
  "Weapon Detection | Frame: " +:+ pretty frame_count +:+ " | Alerts: " +:+ pretty alerts.

(** The three overlays drawn after [process_detections] has returned. *)
Definition overlays (frame_count : nat) (alerts : nat) (perf_text fps_text : string)
    (f : Frame) : Frame :=
  let f := draw (PutText (PlainText (status_text frame_count alerts)) (10, 30) (6 # 10)%Q
                   (0, 255, 0) 2) f in
  let f := draw (PutText (PlainText perf_text) (10, f_height f - 60) (4 # 10)%Q
                   (200, 200, 200) 1) f in
  if (0 <? frame_count)%nat then
    draw (PutText (PlainText fps_text) (10, f_height f - 20) (1 # 2)%Q (255, 255, 0) 2) f
  else f.

Section WithCv2.
Context `{Cv2}.

(** One pass through the [while True] of [run_detection]; [names] is
    [self.weapon_model.names].  The captured frame is a buffer of its own,
    here under reference 1.  Returns the loop state, whether the loop goes
    on, and the request bodies handed to [requests.post] in this pass. *)
Definition pass (names : gmap Z string) (r : Run) (t : Tick)
  : Run * Control * list AlertData :=
  match t_read t with
  | None => (r, Break, [])
  | Some frame =>
      let frame_count := S (frame_count r) in
      match t_inference t with
      | Raised _ =>
          (mkRun (r_service r) (current_frame r) frame_count (total_detections r),
           Continue, [])
      | Returned results_weapon =>
          let p := process_detections (r_service r) {[ 1%positive := frame ]} (t_env t)
                     results_weapon 1%positive names true in
          match result p with
          | Raised _ =>
              (mkRun (service_after p) (current_frame r) frame_count (total_detections r),
               Continue, posts p)
          | Returned det_weapon =>
              let annotated :=
                overlays frame_count (detection_count (service_after p))
                  (t_perf_text t) (t_fps_text t) (heap_after p !!! 1%positive) in
              (mkRun (service_after p) (Some annotated) frame_count
                 (total_detections r + length det_weapon),
               Continue, posts p)
          end
      end
  end.

(** The loop over the passes [ticks] offers; it ends at the first failed
    read. *)
Fixpoint run_detection (names : gmap Z string) (r : Run) (ticks : list Tick) : Run :=
  match ticks with
  | [] => r
  | t :: rest =>
      match pass names r t with
      | (r', Continue, _) => run_detection names r' rest
      | (r', Break, _) => r'
      end
  end.

End WithCv2.
End EnhancedRun.

(** A frame is fully annotated when the last four drawing calls on it are
    the summary line of [process_detections] and the three overlays of the
    detection loop. *)
Definition fully_annotated (f : Frame) : Prop :=
  exists ops count threshold status perf fps,
    f_drawn f
    = ops ++ [PutText (SummaryText count threshold) (10, f_height f - 40)%Z (1 # 2)%Q
                (255, 255, 255)%Z 2%Z;
              PutText (PlainText status) (10, 30)%Z (6 # 10)%Q (0, 255, 0)%Z 2%Z;
              PutText (PlainText perf) (10, f_height f - 60)%Z (4 # 10)%Q
                (200, 200, 200)%Z 1%Z;
              PutText (PlainText fps) (10, f_height f - 20)%Z (1 # 2)%Q (255, 255, 0)%Z 2%Z].

(** A pass that reads a frame with a gun at confidence [conf] at clock
    reading [t], against a backend that answers 200. *)
Definition gun_tick (conf t : Q) : EnhancedRun.Tick :=
  EnhancedRun.mkTick (Some example_frame) (Returned (hub_result (gun_table conf)))
    (accepting_at t) "Inference: 20.0ms | Processing: 1.0ms" "FPS: 30.0".

(** A pass whose inference result makes [process_detections] raise. *)
Definition bad_tick : EnhancedRun.Tick :=
  EnhancedRun.mkTick (Some example_frame) (Returned (hub_result seven_columns))
    (accepting_at 100) "Inference: 20.0ms | Processing: 1.0ms" "FPS: 30.0".

(** A pass whose read fails. *)
Definition failed_read : EnhancedRun.Tick :=
  EnhancedRun.mkTick None (Raised ValueError) (accepting_at 100) "" "".

(** The number of passes that read a frame before the first failed read. *)
Fixpoint frames_read (ticks : list EnhancedRun.Tick) : nat :=
  match ticks with
  | [] => 0
  | t :: rest =>
      match EnhancedRun.t_read t with
      | Some _ => S (frames_read rest)
      | None => 0
      end
  end.

(** * Properties *)

(** ** Comparisons *)

Lemma Qltb_true x y : Qltb x y = true <-> (x < y)%Q.
Proof.
  unfold Qltb. rewrite negb_true_iff. split.
  - intros E. apply Qnot_le_lt. intros L. apply Qle_bool_iff in L. congruence.
  - intros L. destruct (Qle_bool y x) eqn:E; [|reflexivity].
    apply Qle_bool_iff in E. lra.
Qed.

Lemma Qltb_false x y : Qltb x y = false <-> (y <= x)%Q.
Proof.
  unfold Qltb. rewrite negb_false_iff. apply Qle_bool_iff.
Qed.

Lemma Qgeb_true x y : Qgeb x y = true <-> (y <= x)%Q.
Proof. apply Qle_bool_iff. Qed.

(** ** The alert gate of the enhanced service *)

Section EnhancedGate.
Import Enhanced.

Lemma clock_of_gun s : clock_of s "gun" = last_gun_alert s.
Proof. reflexivity. Qed.

Lemma clock_of_other s ty : ty <> "gun"%string -> clock_of s ty = last_knife_alert s.
Proof.
  intros Hne. unfold clock_of. destruct (String.eqb_spec ty "gun"); congruence.
Qed.

(** Inside the window nothing happens at all. *)
Lemma send_alert_suppressed s ty conf f t net :
  (t - clock_of s ty < inject_Z (cooldown_seconds s))%Q ->
  send_alert s ty conf f t net = mkSent s false [].
Proof.
  intros Hlt. unfold send_alert. fold (clock_of s ty).
  apply Qltb_true in Hlt. rewrite Hlt. reflexivity.
Qed.

(** Outside the window the request is made, whatever comes of it. *)
Lemma send_alert_posts s ty conf f t net :
  (inject_Z (cooldown_seconds s) <= t - clock_of s ty)%Q ->
  posted (send_alert s ty conf f t net) = [mkAlertData (camera_id s) conf ty (Some f)].
Proof.
  intros Hge. unfold send_alert. fold (clock_of s ty).
  apply Qltb_false in Hge. rewrite Hge.
  destruct net as [c| |]; [destruct (c =? 200)%Z|..]; reflexivity.
Qed.

(** Outside the window a 200 response commits the clock and the counter. *)
Lemma send_alert_accepted s ty conf f t :
  (inject_Z (cooldown_seconds s) <= t - clock_of s ty)%Q ->
  let r := send_alert s ty conf f t (Response 200) in
  returned r = true /\ clock_of (service r) ty = t
  /\ detection_count (service r) = S (detection_count s)
  /\ cooldown_seconds (service r) = cooldown_seconds s.
Proof.
  intros Hge. unfold send_alert. fold (clock_of s ty).
  apply Qltb_false in Hge. rewrite Hge. cbn.
  unfold clock_of. destruct (String.eqb ty "gun"); cbn; auto.
Qed.

(** Anything but a 200 response leaves the service as it was. *)
Lemma send_alert_not_200 s ty conf f t net :
  net <> Response 200 ->
  service (send_alert s ty conf f t net) = s
  /\ returned (send_alert s ty conf f t net) = false.
Proof.
  intros Hnet. unfold send_alert.
  destruct (Qltb _ _); [auto|].
  destruct net as [c| |]; cbn; auto.
  destruct (Z.eqb_spec c 200); [subst; congruence | auto].
Qed.

(** The return value is [True] exactly for a 200 response outside the window. *)
Lemma send_alert_returned s ty conf f t net :
  returned (send_alert s ty conf f t net) = true <->
  (inject_Z (cooldown_seconds s) <= t - clock_of s ty)%Q /\ net = Response 200.
Proof.
  unfold send_alert. fold (clock_of s ty).
  destruct (Qltb _ _) eqn:E.
  - apply Qltb_true in E. cbn. split; [discriminate|]. intros [L _]. lra.
  - apply Qltb_false in E.
    destruct net as [c| |]; cbn; try (split; [discriminate | intros [_ ?]; discriminate]).
    destruct (Z.eqb_spec c 200); cbn.
    + subst. tauto.
    + split; [discriminate|]. intros [_ Hc]. congruence.
Qed.

(** A call that returns [False] has changed nothing. *)
Lemma send_alert_false_unchanged s ty conf f t net :
  returned (send_alert s ty conf f t net) = false ->
  service (send_alert s ty conf f t net) = s.
Proof.
  unfold send_alert. destruct (Qltb _ _); [reflexivity|].
  destruct net as [c| |]; cbn; try reflexivity.
  destruct (c =? 200)%Z; cbn; [discriminate | reflexivity].
Qed.

(** The settings never change. *)
Lemma send_alert_settings s ty conf f t net :
  let s' := service (send_alert s ty conf f t net) in
  cooldown_seconds s' = cooldown_seconds s
  /\ confidence_threshold s' = confidence_threshold s
  /\ alert_threshold s' = alert_threshold s
  /\ camera_id s' = camera_id s.
Proof.
  unfold send_alert. destruct (Qltb _ _); [cbn; auto|].
  destruct net as [c| |]; cbn; auto.
  destruct (c =? 200)%Z; cbn; auto.
  destruct (String.eqb ty "gun"); cbn; auto.
Qed.

(** After a call a clock shows either what it showed before or the time of
    the call. *)
Lemma send_alert_clock s ty conf f t net ty' :
  let s' := service (send_alert s ty conf f t net) in
  clock_of s' ty' = clock_of s ty' \/ clock_of s' ty' = t.
Proof.
  unfold send_alert. destruct (Qltb _ _); [cbn; auto|].
  destruct net as [c| |]; cbn; auto.
  destruct (c =? 200)%Z; cbn; auto.
  unfold clock_of.
  destruct (String.eqb ty "gun"), (String.eqb ty' "gun"); cbn; auto.
Qed.

End EnhancedGate.

(** ** Runs of alert attempts *)

Section EnhancedRuns.
Import Enhanced.

Lemma run_alerts_cons s a l :
  run_alerts s (a :: l) =
  (fst (run_alerts (service (attempt s a)) l),
   returned (attempt s a) :: snd (run_alerts (service (attempt s a)) l)).
Proof. cbn. destruct (run_alerts _ l). reflexivity. Qed.

(** While every attempt is made at or after [lo] and the clock of [ty] shows
    at least [lo], an attempt of type [ty] that gets through is made at least
    a cooldown after [lo]. *)
Lemma run_alerts_after l : forall s ty lo j b,
  Forall (fun a => (lo <= a_time a)%Q) l ->
  (lo <= clock_of s ty)%Q ->
  l !! j = Some b -> a_type b = ty ->
  snd (run_alerts s l) !! j = Some true ->
  (inject_Z (cooldown_seconds s) <= a_time b - lo)%Q.
Proof.
  induction l as [|a l IH]; intros s ty lo j b Hall Hclk Hj Hty Hret; [discriminate|].
  rewrite run_alerts_cons in Hret. inversion Hall as [|? ? Ha Hl]; subst.
  destruct j as [|j]; cbn in Hj, Hret.
  - injection Hj as ->. injection Hret as Hret.
    apply send_alert_returned in Hret. destruct Hret as [Hge _]. lra.
  - pose proof (send_alert_settings s (a_type a) (a_confidence a) (a_frame a)
                  (a_time a) (a_net a)) as (Hcd & _).
    pose proof (send_alert_clock s (a_type a) (a_confidence a) (a_frame a)
                  (a_time a) (a_net a) (a_type b)) as Hc.
    cbn in Hcd, Hc. rewrite <- Hcd.
    eapply (IH (service (attempt s a)) (a_type b) lo j b); eauto.
    unfold attempt. destruct Hc as [-> | ->]; lra.
Qed.

(** Two attempts of one type that both get through are at least a cooldown
    apart, provided the clock never goes back. *)
Lemma run_alerts_window l : forall s i j a b,
  nondecreasing l ->
  (i < j)%nat -> l !! i = Some a -> l !! j = Some b -> a_type a = a_type b ->
  snd (run_alerts s l) !! i = Some true ->
  snd (run_alerts s l) !! j = Some true ->
  (inject_Z (cooldown_seconds s) <= a_time b - a_time a)%Q.
Proof.
  induction l as [|x l IH]; intros s i j a b Hmono Hij Hi Hj Hty Hri Hrj; [discriminate|].
  rewrite run_alerts_cons in Hri, Hrj.
  destruct j as [|j]; [lia|]. cbn in Hj, Hrj.
  assert (Htail : nondecreasing l).
  { intros i' j' a' b' Hle Hi' Hj'. apply (Hmono (S i') (S j') a' b'); [lia|exact Hi'|exact Hj']. }
  destruct i as [|i]; cbn in Hi, Hri.
  - injection Hi as ->. injection Hri as Hri.
    apply send_alert_returned in Hri. destruct Hri as [Hge Hnet].
    pose proof (send_alert_accepted s (a_type a) (a_confidence a) (a_frame a) (a_time a) Hge)
      as (_ & Hclk & _ & Hcd).
    rewrite <- Hnet in Hclk, Hcd. fold (attempt s a) in Hclk, Hcd.
    rewrite <- Hcd.
    apply (run_alerts_after l (service (attempt s a)) (a_type a) (a_time a) j b); auto.
    + apply Forall_forall. intros c Hc.
      apply list_elem_of_lookup in Hc as [k Hk].
      apply (Hmono 0%nat (S k) a c); [lia|reflexivity|exact Hk].
    + rewrite Hclk. lra.
  - pose proof (send_alert_settings s (a_type x) (a_confidence x) (a_frame x)
                  (a_time x) (a_net x)) as (Hcd & _).
    cbn in Hcd. rewrite <- Hcd.
    apply (IH (service (attempt s x)) i j a b); auto. lia.
Qed.

(** The scenario on a fresh service whose clock reads at least the cooldown. *)
Lemma cooldown_scenario_run T threshold url cam :
  (10 <= T)%Q ->
  let s0 := init threshold url cam 10 in
  let r1 := attempt s0 (gun_at (9 # 10) T) in
  let r2 := attempt (service r1) (gun_at (95 # 100) (T + 5)%Q) in
  let r3 := attempt (service r2) (gun_at (8 # 10) (T + 11)%Q) in
  (returned r1 = true /\ last_gun_alert (service r1) = T)
  /\ (returned r2 = false /\ posted r2 = [] /\ service r2 = service r1)
  /\ (returned r3 = true /\ last_gun_alert (service r3) = (T + 11)%Q)
  /\ snd (run_alerts s0 (cooldown_scenario T)) = [true; false; true].
Proof.
  intros HT s0 r1 r2 r3.
  assert (H1 : (inject_Z (cooldown_seconds s0) <= T - clock_of s0 "gun")%Q)
    by (change (10 <= T - 0)%Q; lra).
  pose proof (send_alert_accepted s0 "gun" (9 # 10) example_frame T H1) as (R1 & C1 & _ & D1).
  change (send_alert s0 "gun" (9 # 10) example_frame T (Response 200)) with r1 in R1, C1, D1.
  change (cooldown_seconds s0) with 10%Z in D1.
  rewrite clock_of_gun in C1.
  assert (H2 : ((T + 5) - clock_of (service r1) "gun"
                < inject_Z (cooldown_seconds (service r1)))%Q).
  { rewrite clock_of_gun, C1, D1. change (T + 5 - T < 10)%Q. lra. }
  pose proof (send_alert_suppressed (service r1) "gun" (95 # 100) example_frame (T + 5)
                (Response 200) H2) as E2.
  change (send_alert (service r1) "gun" (95 # 100) example_frame (T + 5) (Response 200))
    with r2 in E2.
  assert (H3 : (inject_Z (cooldown_seconds (service r2))
                <= (T + 11) - clock_of (service r2) "gun")%Q).
  { rewrite E2. cbn [service]. rewrite clock_of_gun, C1, D1.
    change (10 <= T + 11 - T)%Q. lra. }
  pose proof (send_alert_accepted (service r2) "gun" (8 # 10) example_frame (T + 11) H3)
    as (R3 & C3 & _).
  change (send_alert (service r2) "gun" (8 # 10) example_frame (T + 11) (Response 200))
    with r3 in R3, C3.
  rewrite clock_of_gun in C3.
  assert (E2r : returned r2 = false) by (rewrite E2; reflexivity).
  assert (E2p : posted r2 = []) by (rewrite E2; reflexivity).
  assert (E2s : service r2 = service r1) by (rewrite E2; reflexivity).
  repeat split; auto.
  unfold cooldown_scenario. rewrite !run_alerts_cons. cbn [snd run_alerts].
  fold r1. fold r2. fold r3. rewrite R1, R3, E2r. reflexivity.
Qed.

End EnhancedRuns.

(** ** The alert gate of the gun detection service *)

Section GunGate.
Import GunService.

Lemma gun_send_alert_suppressed s ty conf f t net :
  (t - last_alert_time s < inject_Z (cooldown_seconds s))%Q ->
  send_alert s ty conf f t net = mkSent s false [].
Proof.
  intros Hlt. unfold send_alert. apply Qltb_true in Hlt. rewrite Hlt. reflexivity.
Qed.

Lemma gun_send_alert_not_200 s ty conf f t net :
  net <> Response 200 ->
  service (send_alert s ty conf f t net) = s
  /\ returned (send_alert s ty conf f t net) = false.
Proof.
  intros Hnet. unfold send_alert.
  destruct (Qltb _ _); [auto|].
  destruct net as [c| |]; cbn; auto.
  destruct (Z.eqb_spec c 200); [subst; congruence | auto].
Qed.

Lemma gun_send_alert_true s ty conf f t net :
  returned (send_alert s ty conf f t net) = true ->
  last_alert_time (service (send_alert s ty conf f t net)) = t
  /\ cooldown_seconds (service (send_alert s ty conf f t net)) = cooldown_seconds s.
Proof.
  unfold send_alert. destruct (Qltb _ _); [discriminate|].
  destruct net as [c| |]; cbn; try discriminate.
  destruct (c =? 200)%Z; cbn; [auto | discriminate].
Qed.

End GunGate.

(** ** Cooldown (claims C1, C2, C3) *)

(** Claim C1, read on the clock: a fresh service has both clocks at 0, so
    at clock reading 0 the first detection of the scenario is inside the
    window and is suppressed; the run gives suppressed, suppressed, sent. *)
Lemma cooldown_scenario_at_clock_zero :
  Enhanced.posted (Enhanced.attempt example_service (gun_at (9 # 10) 0)) = []
  /\ snd (Enhanced.run_alerts example_service (cooldown_scenario 0)) = [false; false; true]
  /\ snd (Enhanced.run_alerts example_service (cooldown_scenario 0)) <> [true; false; true]
  /\ snd (three_frames 0) = [0; 0; 1]%nat.
Proof.
  split; [|split; [|split]].
  - vm_compute. reflexivity.
  - vm_compute. reflexivity.
  - vm_compute. discriminate.
  - vm_compute. reflexivity.
Qed.

(** The same three frames with the clock at 100, 105, 111: one request for
    the first frame, none for the second, one for the third, and the gun
    clock ends at 111. *)
Lemma cooldown_scenario_through_the_loop :
  snd (three_frames 100) = [1; 0; 1]%nat
  /\ Enhanced.last_gun_alert (fst (three_frames 100)) = (100 + 11)%Q
  /\ Enhanced.detection_count (fst (three_frames 100)) = 2%nat.
Proof. split; [|split]; vm_compute; reflexivity. Qed.

(** Claim C1, amended.  For every detection type of the enhanced service:
    after an attempt that was sent at time [t], every attempt of that type
    at [t'] with [t' - t < cooldown_seconds] is suppressed without a request
    and without a change of state; an attempt at [t'] with
    [t' - t >= cooldown_seconds] is posted and, when answered with 200, sets
    the clock to [t']; in any run whose clock readings never go back, two
    sent alerts of one type are at least [cooldown_seconds] apart.  On a
    fresh service with cooldown 10 and clock readings [T], [T + 5], [T + 11]
    for any [T >= 10], gun detections of confidence 0.9, 0.95, 0.8 give:
    sent with clock [T], suppressed, sent with clock [T + 11]. *)
Theorem cooldown_one_alert_per_window :
  (forall s ty conf f t net,
      Enhanced.returned (Enhanced.send_alert s ty conf f t net) = true ->
      let s1 := Enhanced.service (Enhanced.send_alert s ty conf f t net) in
      (forall conf' f' t' net',
          (t' - t < inject_Z (Enhanced.cooldown_seconds s))%Q ->
          Enhanced.send_alert s1 ty conf' f' t' net' = Enhanced.mkSent s1 false [])
      /\ (forall conf' f' t',
          (inject_Z (Enhanced.cooldown_seconds s) <= t' - t)%Q ->
          (forall net', Enhanced.posted (Enhanced.send_alert s1 ty conf' f' t' net')
                        = [mkAlertData (Enhanced.camera_id s) conf' ty (Some f')])
          /\ Enhanced.returned (Enhanced.send_alert s1 ty conf' f' t' (Response 200)) = true
          /\ Enhanced.clock_of
               (Enhanced.service (Enhanced.send_alert s1 ty conf' f' t' (Response 200))) ty = t'))
  /\ (forall s l i j a b,
      nondecreasing l ->
      (i < j)%nat -> l !! i = Some a -> l !! j = Some b ->
      Enhanced.a_type a = Enhanced.a_type b ->
      snd (Enhanced.run_alerts s l) !! i = Some true ->
      snd (Enhanced.run_alerts s l) !! j = Some true ->
      (inject_Z (Enhanced.cooldown_seconds s) <= Enhanced.a_time b - Enhanced.a_time a)%Q)
  /\ (forall T threshold url cam,
      (10 <= T)%Q ->
      let s0 := Enhanced.init threshold url cam 10 in
      let r1 := Enhanced.attempt s0 (gun_at (9 # 10) T) in
      let r2 := Enhanced.attempt (Enhanced.service r1) (gun_at (95 # 100) (T + 5)%Q) in
      let r3 := Enhanced.attempt (Enhanced.service r2) (gun_at (8 # 10) (T + 11)%Q) in
      (Enhanced.returned r1 = true /\ Enhanced.last_gun_alert (Enhanced.service r1) = T)
      /\ (Enhanced.returned r2 = false /\ Enhanced.posted r2 = []
          /\ Enhanced.service r2 = Enhanced.service r1)
      /\ (Enhanced.returned r3 = true
          /\ Enhanced.last_gun_alert (Enhanced.service r3) = (T + 11)%Q)
      /\ snd (Enhanced.run_alerts s0 (cooldown_scenario T)) = [true; false; true]).
Proof.
  split; [|split].
  - intros s ty conf f t net Hret s1.
    apply send_alert_returned in Hret. destruct Hret as [Hge ->].
    pose proof (send_alert_accepted s ty conf f t Hge) as (_ & Hclk & _ & Hcd).
    pose proof (send_alert_settings s ty conf f t (Response 200)) as (_ & _ & _ & Hcam).
    fold s1 in Hclk, Hcd, Hcam. split.
    + intros conf' f' t' net' Hlt. apply send_alert_suppressed.
      rewrite Hclk, Hcd. exact Hlt.
    + intros conf' f' t' Hle.
      assert (Hopen : (inject_Z (Enhanced.cooldown_seconds s1)
                       <= t' - Enhanced.clock_of s1 ty)%Q) by (rewrite Hclk, Hcd; exact Hle).
      split; [|split].
      * intros net'. rewrite <- Hcam. apply send_alert_posts. exact Hopen.
      * apply (send_alert_accepted s1 ty conf' f' t' Hopen).
      * apply (send_alert_accepted s1 ty conf' f' t' Hopen).
  - intros s l i j a b. apply run_alerts_window.
  - intros T threshold url cam HT. apply cooldown_scenario_run. exact HT.
Qed.

(** Claim C1, amended, at clock reading 100. *)
Lemma cooldown_one_alert_per_window_witness :
  (10 <= 100)%Q
  /\ snd (Enhanced.run_alerts example_service (cooldown_scenario 100)) = [true; false; true].
Proof.
  assert (H : (10 <= 100)%Q) by (unfold Qle; simpl; lia).
  split; [exact H|].
  apply (proj2 (proj2 cooldown_one_alert_per_window) 100%Q (1 # 2)%Q
           "http://localhost:8000"%string "webcam-01"%string H).
Defined.

(** Claim C2.  In both services an attempt whose request is answered with
    anything but 200, or ends in a transport or any other exception, returns
    [False] and leaves the whole service state, the cooldown clocks
    included, exactly as it was; every later attempt therefore behaves as if
    the failed one had not been made. *)
Theorem failed_dispatch_keeps_clock net :
  net <> Response 200 ->
  (forall s ty conf f t,
      let r := Enhanced.send_alert s ty conf f t net in
      Enhanced.returned r = false
      /\ Enhanced.service r = s
      /\ Enhanced.last_gun_alert (Enhanced.service r) = Enhanced.last_gun_alert s
      /\ Enhanced.last_knife_alert (Enhanced.service r) = Enhanced.last_knife_alert s
      /\ forall ty' conf' f' t' net',
          Enhanced.send_alert (Enhanced.service r) ty' conf' f' t' net'
          = Enhanced.send_alert s ty' conf' f' t' net')
  /\ (forall s ty conf f t,
      let r := GunService.send_alert s ty conf f t net in
      GunService.returned r = false
      /\ GunService.service r = s
      /\ GunService.last_alert_time (GunService.service r) = GunService.last_alert_time s
      /\ forall ty' conf' f' t' net',
          GunService.send_alert (GunService.service r) ty' conf' f' t' net'
          = GunService.send_alert s ty' conf' f' t' net').
Proof.
  intros Hnet. split.
  - intros s ty conf f t r.
    destruct (send_alert_not_200 s ty conf f t net Hnet) as [Hs Hr].
    fold r in Hs, Hr. rewrite Hs. auto.
  - intros s ty conf f t r.
    destruct (gun_send_alert_not_200 s ty conf f t net Hnet) as [Hs Hr].
    fold r in Hs, Hr. rewrite Hs. auto.
Qed.

(** Claim C2 at a 503 response: the gun clock of a service that last sent
    at 100 still shows 100 after a rejected attempt at 200. *)
Lemma failed_dispatch_keeps_clock_witness :
  Response 503 <> Response 200
  /\ Enhanced.last_gun_alert
       (Enhanced.service
          (Enhanced.send_alert (Enhanced.set_last_gun_alert 100 example_service)
             "gun" (9 # 10) example_frame 200 (Response 503)))
     = Enhanced.last_gun_alert (Enhanced.set_last_gun_alert 100 example_service).
Proof.
  assert (H : Response 503 <> Response 200) by discriminate.
  split; [exact H|].
  apply (proj1 (failed_dispatch_keeps_clock (Response 503) H)
           (Enhanced.set_last_gun_alert 100 example_service) "gun"%string
           (9 # 10)%Q example_frame 200%Q).
Defined.

(** Claim C3 on the gun detection service: it keeps one clock for all
    types.  A gun alert sent at 100 suppresses a knife alert at 101, and a
    frame showing a gun and a knife sends the gun alert only. *)
Lemma gun_service_clock_is_shared :
  (let r1 := GunService.send_alert example_gun_service "gun" (9 # 10)
               (Some example_frame) 100 (Response 200) in
   let r2 := GunService.send_alert (GunService.service r1) "knife" (9 # 10)
               (Some example_frame) 101 (Response 200) in
   GunService.returned r1 = true
   /\ GunService.returned r2 = false /\ GunService.posted r2 = [])
  /\ GunProcess.cy_returns
       (GunProcess.run_cycle example_gun_service example_heap (accepting_at 100)
          gun_and_knife 1%positive example_names) = [true; false].
Proof.
  split; [split; [|split]|]; vm_compute; reflexivity.
Qed.

(** Claim C3, amended.  In the enhanced service the gun clock and the knife
    clock are separate: a gun attempt never changes [last_knife_alert], an
    attempt of another type never changes [last_gun_alert], and the outcome
    of an attempt depends on the service only through the clock of its own
    type, the cooldown and the camera id.  So a knife attempt made after a
    gun attempt, at any time, returns and posts what it would have without
    the gun attempt, and conversely.  The gun detection service has a single
    clock: there an alert of any type that was sent at [t] suppresses every
    attempt of every type at [t'] with [t' - t < cooldown_seconds]. *)
Theorem enhanced_clocks_independent :
  (forall s conf f t net,
      Enhanced.last_knife_alert (Enhanced.service (Enhanced.send_alert s "gun" conf f t net))
      = Enhanced.last_knife_alert s)
  /\ (forall s ty conf f t net,
      ty <> "gun"%string ->
      Enhanced.last_gun_alert (Enhanced.service (Enhanced.send_alert s ty conf f t net))
      = Enhanced.last_gun_alert s)
  /\ (forall s1 s2 ty conf f t net,
      Enhanced.clock_of s1 ty = Enhanced.clock_of s2 ty ->
      Enhanced.cooldown_seconds s1 = Enhanced.cooldown_seconds s2 ->
      Enhanced.camera_id s1 = Enhanced.camera_id s2 ->
      Enhanced.returned (Enhanced.send_alert s1 ty conf f t net)
      = Enhanced.returned (Enhanced.send_alert s2 ty conf f t net)
      /\ Enhanced.posted (Enhanced.send_alert s1 ty conf f t net)
         = Enhanced.posted (Enhanced.send_alert s2 ty conf f t net))
  /\ (forall s conf f t net conf' f' t' net',
      let after_gun := Enhanced.service (Enhanced.send_alert s "gun" conf f t net) in
      let after_knife := Enhanced.service (Enhanced.send_alert s "knife" conf f t net) in
      (Enhanced.returned (Enhanced.send_alert after_gun "knife" conf' f' t' net')
       = Enhanced.returned (Enhanced.send_alert s "knife" conf' f' t' net')
       /\ Enhanced.posted (Enhanced.send_alert after_gun "knife" conf' f' t' net')
          = Enhanced.posted (Enhanced.send_alert s "knife" conf' f' t' net'))
      /\ (Enhanced.returned (Enhanced.send_alert after_knife "gun" conf' f' t' net')
          = Enhanced.returned (Enhanced.send_alert s "gun" conf' f' t' net')
          /\ Enhanced.posted (Enhanced.send_alert after_knife "gun" conf' f' t' net')
             = Enhanced.posted (Enhanced.send_alert s "gun" conf' f' t' net')))
  /\ (forall s ty conf f t net,
      GunService.returned (GunService.send_alert s ty conf f t net) = true ->
      let s1 := GunService.service (GunService.send_alert s ty conf f t net) in
      forall ty' conf' f' t' net',
        (t' - t < inject_Z (GunService.cooldown_seconds s))%Q ->
        GunService.send_alert s1 ty' conf' f' t' net' = GunService.mkSent s1 false []).
Proof.
  assert (Hgun : forall s conf f t net,
             Enhanced.last_knife_alert
               (Enhanced.service (Enhanced.send_alert s "gun" conf f t net))
             = Enhanced.last_knife_alert s).
  { intros s conf f t net. unfold Enhanced.send_alert. cbn [String.eqb Ascii.eqb Bool.eqb].
    destruct (Qltb _ _); [reflexivity|].
    destruct net as [c| |]; try reflexivity. destruct (c =? 200)%Z; reflexivity. }
  assert (Hother : forall s ty conf f t net,
             ty <> "gun"%string ->
             Enhanced.last_gun_alert
               (Enhanced.service (Enhanced.send_alert s ty conf f t net))
             = Enhanced.last_gun_alert s).
  { intros s ty conf f t net Hne. unfold Enhanced.send_alert.
    destruct (String.eqb_spec ty "gun"); [congruence|].
    destruct (Qltb _ _); [reflexivity|].
    destruct net as [c| |]; try reflexivity. destruct (c =? 200)%Z; reflexivity. }
  assert (Hdep : forall s1 s2 ty conf f t net,
             Enhanced.clock_of s1 ty = Enhanced.clock_of s2 ty ->
             Enhanced.cooldown_seconds s1 = Enhanced.cooldown_seconds s2 ->
             Enhanced.camera_id s1 = Enhanced.camera_id s2 ->
             Enhanced.returned (Enhanced.send_alert s1 ty conf f t net)
             = Enhanced.returned (Enhanced.send_alert s2 ty conf f t net)
             /\ Enhanced.posted (Enhanced.send_alert s1 ty conf f t net)
                = Enhanced.posted (Enhanced.send_alert s2 ty conf f t net)).
  { intros s1 s2 ty conf f t net Hclk Hcd Hcam. unfold Enhanced.send_alert.
    fold (Enhanced.clock_of s1 ty). fold (Enhanced.clock_of s2 ty).
    rewrite Hclk, Hcd, Hcam.
    destruct (Qltb _ _); [auto|].
    destruct net as [c| |]; auto. destruct (c =? 200)%Z; auto. }
  split; [exact Hgun|]. split; [exact Hother|]. split; [exact Hdep|]. split.
  - intros s conf f t net conf' f' t' net' after_gun after_knife.
    pose proof (send_alert_settings s "gun" conf f t net) as (Hcd & _ & _ & Hcam).
    pose proof (send_alert_settings s "knife" conf f t net) as (Hcd' & _ & _ & Hcam').
    split; apply Hdep; auto.
    + rewrite !clock_of_other by discriminate. apply Hgun.
    + rewrite !clock_of_gun. apply Hother. discriminate.
  - intros s ty conf f t net Hret s1 ty' conf' f' t' net' Hlt.
    destruct (gun_send_alert_true s ty conf f t net Hret) as [Hclk Hcd].
    fold s1 in Hclk, Hcd. apply gun_send_alert_suppressed. rewrite Hclk, Hcd. exact Hlt.
Qed.

(** Claim C3, amended, on a fresh enhanced service: after a gun alert sent
    at 100, the knife clock is untouched and a knife alert at 101 goes out. *)
Lemma enhanced_clocks_independent_witness :
  "knife"%string <> "gun"%string
  /\ Enhanced.last_gun_alert
       (Enhanced.service
          (Enhanced.send_alert example_service "knife" (9 # 10) example_frame 100
             (Response 200)))
     = Enhanced.last_gun_alert example_service.
Proof.
  assert (H : "knife"%string <> "gun"%string) by discriminate.
  split; [exact H|].
  apply (proj1 (proj2 enhanced_clocks_independent) example_service "knife"%string
           (9 # 10)%Q example_frame 100%Q (Response 200) H).
Defined.

(** ** Dispatch outcome and the alert counter (claims C9, C10) *)

(** Claim C9 at a 201 response: the request is made, the response is in the
    2xx range, and [send_alert] reports failure and leaves the clock alone. *)
Lemma created_response_is_rejected :
  let r := Enhanced.send_alert example_service "gun" (9 # 10) example_frame 100
             (Response 201) in
  Enhanced.posted r <> [] /\ Enhanced.returned r = false
  /\ Enhanced.service r = example_service.
Proof.
  split; [|split]; vm_compute; [discriminate | reflexivity | reflexivity].
Qed.

(** Claim C9, amended.  Once the cooldown gate lets an attempt through,
    [send_alert] returns [True] if and only if the response status is
    exactly 200.  Every other response (the other 2xx codes included) and
    every exception, transport or otherwise, makes it return [False] with
    the service unchanged; no exception leaves [send_alert]. *)
Theorem dispatch_success_iff_200 s ty conf f t net :
  (inject_Z (Enhanced.cooldown_seconds s) <= t - Enhanced.clock_of s ty)%Q ->
  let r := Enhanced.send_alert s ty conf f t net in
  Enhanced.posted r = [mkAlertData (Enhanced.camera_id s) conf ty (Some f)]
  /\ (Enhanced.returned r = true <-> net = Response 200)
  /\ (net <> Response 200 -> Enhanced.returned r = false /\ Enhanced.service r = s).
Proof.
  intros Hopen r. split; [|split].
  - apply send_alert_posts. exact Hopen.
  - unfold r. rewrite send_alert_returned. tauto.
  - intros Hnet. destruct (send_alert_not_200 s ty conf f t net Hnet). auto.
Qed.

(** Claim C9, amended, at a 404 response on a fresh service at clock 100. *)
Lemma dispatch_success_iff_200_witness :
  (inject_Z (Enhanced.cooldown_seconds example_service)
   <= 100 - Enhanced.clock_of example_service "gun")%Q
  /\ (Enhanced.returned
        (Enhanced.send_alert example_service "gun" (9 # 10) example_frame 100 (Response 404))
      = true <-> Response 404 = Response 200).
Proof.
  assert (H : (inject_Z (Enhanced.cooldown_seconds example_service)
               <= 100 - Enhanced.clock_of example_service "gun")%Q)
    by (vm_compute; discriminate).
  split; [exact H|].
  apply (dispatch_success_iff_200 example_service "gun"%string (9 # 10)%Q example_frame
           100%Q (Response 404) H).
Defined.

(** Claim C10 at responses 201 and 204: two alerts are delivered (both
    requests are made and answered in the 2xx range) and [detection_count]
    still shows the constructor's 0. *)
Lemma accepted_alerts_are_not_counted :
  let r1 := Enhanced.send_alert example_service "gun" (9 # 10) example_frame 100
              (Response 201) in
  let r2 := Enhanced.send_alert (Enhanced.service r1) "knife" (9 # 10) example_frame 101
              (Response 204) in
  Enhanced.posted r1 <> [] /\ Enhanced.posted r2 <> []
  /\ Enhanced.detection_count example_service = 0%nat
  /\ Enhanced.detection_count (Enhanced.service r2) = 0%nat.
Proof.
  split; [|split; [|split]]; vm_compute; [discriminate | discriminate | reflexivity | reflexivity].
Qed.

(** Claim C10, amended.  [detection_count], the value [/api/status]
    reports, goes up by one in a call of [send_alert] that returns [True],
    which is a call made outside the cooldown window and answered with
    status exactly 200, and stays put in every other call (suppressed by
    the cooldown, answered with any other status, the other 2xx codes
    included, or ended by an exception); starting from the constructor's 0,
    after any sequence of attempts it equals the number of calls that
    returned [True]. *)
Theorem detection_count_counts_sent_alerts :
  (forall s ty conf f t net,
      let r := Enhanced.send_alert s ty conf f t net in
      Enhanced.detection_count (Enhanced.service r)
      = (Enhanced.detection_count s + if Enhanced.returned r then 1 else 0)%nat)
  /\ (forall s ty conf f t net,
      Enhanced.returned (Enhanced.send_alert s ty conf f t net) = true <->
      (inject_Z (Enhanced.cooldown_seconds s) <= t - Enhanced.clock_of s ty)%Q
      /\ net = Response 200)
  /\ (forall s l,
      Enhanced.detection_count (fst (Enhanced.run_alerts s l))
      = (Enhanced.detection_count s
         + length (filter (fun b => b = true) (snd (Enhanced.run_alerts s l))))%nat)
  /\ (forall threshold url cam cooldown l,
      Enhanced.detection_count
        (fst (Enhanced.run_alerts (Enhanced.init threshold url cam cooldown) l))
      = length (filter (fun b => b = true)
                  (snd (Enhanced.run_alerts (Enhanced.init threshold url cam cooldown) l)))).
Proof.
  assert (Hstep : forall s ty conf f t net,
             let r := Enhanced.send_alert s ty conf f t net in
             Enhanced.detection_count (Enhanced.service r)
             = (Enhanced.detection_count s + if Enhanced.returned r then 1 else 0)%nat).
  { intros s ty conf f t net. unfold Enhanced.send_alert.
    destruct (Qltb _ _); [cbn; lia|].
    destruct net as [c| |]; cbn; try lia.
    destruct (c =? 200)%Z; cbn; [|lia].
    destruct (String.eqb ty "gun"); cbn; lia. }
  assert (Hrun : forall l s,
             Enhanced.detection_count (fst (Enhanced.run_alerts s l))
             = (Enhanced.detection_count s
                + length (filter (fun b => b = true) (snd (Enhanced.run_alerts s l))))%nat).
  { induction l as [|a l IH]; intros s; [cbn; lia|].
    rewrite run_alerts_cons. cbn [fst snd]. rewrite IH.
    unfold Enhanced.attempt at 1 3. rewrite Hstep. fold (Enhanced.attempt s a).
    destruct (Enhanced.returned (Enhanced.attempt s a)) eqn:E.
    - rewrite filter_cons_True by reflexivity. cbn [length]. lia.
    - rewrite filter_cons_False by discriminate. lia. }
  split; [exact Hstep|]. split; [apply send_alert_returned|]. split; [intros; apply Hrun|].
  intros threshold url cam cooldown l. rewrite Hrun. reflexivity.
Qed.

(** ** Drawing in place *)

Lemma draw_ops_nil f : draw_ops [] f = f.
Proof. destruct f. unfold draw_ops. cbn. rewrite app_nil_r. reflexivity. Qed.

Lemma draw_ops_app ops1 ops2 f : draw_ops ops2 (draw_ops ops1 f) = draw_ops (ops1 ++ ops2) f.
Proof. unfold draw_ops. cbn. rewrite app_assoc. reflexivity. Qed.

Lemma drawn_with_refl frame h : drawn_with frame [] h h.
Proof.
  unfold drawn_with. apply map_eq. intros r.
  destruct (decide (frame = r)) as [->|Hne];
    [rewrite lookup_alter_eq | rewrite lookup_alter_ne by exact Hne; reflexivity].
  destruct (h !! r) as [f|]; cbn; [|reflexivity].
  f_equal. symmetry. apply draw_ops_nil.
Qed.

Lemma drawn_with_trans frame ops1 ops2 h1 h2 h3 :
  drawn_with frame ops1 h1 h2 -> drawn_with frame ops2 h2 h3 ->
  drawn_with frame (ops1 ++ ops2) h1 h3.
Proof.
  unfold drawn_with. intros -> ->. apply map_eq. intros r.
  destruct (decide (frame = r)) as [->|Hne];
    [rewrite !lookup_alter_eq | rewrite !lookup_alter_ne by exact Hne; reflexivity].
  destruct (h1 !! r) as [f|]; cbn; [|reflexivity].
  f_equal. unfold draw_ops. cbn. rewrite app_assoc. reflexivity.
Qed.

Lemma draw_at_drawn_with frame op h : drawn_with frame [op] h (draw_at frame op h).
Proof. reflexivity. Qed.

(** Drawing in place creates no buffer and touches no other buffer. *)
Lemma drawn_with_dom frame ops h h' : drawn_with frame ops h h' -> dom h' = dom h.
Proof. intros ->. apply dom_alter_L. Qed.

Lemma drawn_with_other frame ops h h' r :
  drawn_with frame ops h h' -> r <> frame -> h' !! r = h !! r.
Proof. intros -> Hne. apply lookup_alter_ne. congruence. Qed.

Lemma drawn_with_frame frame ops h h' f :
  drawn_with frame ops h h' -> h !! frame = Some f -> h' !! frame = Some (draw_ops ops f).
Proof. intros -> Hf. rewrite lookup_alter_eq, Hf. reflexivity. Qed.

(** A buffer that was drawn on differs from what it was. *)
Lemma draw_ops_changes ops f : ops <> [] -> draw_ops ops f <> f.
Proof.
  intros Hne Heq. apply Hne. destruct f as [hh ww px dr]. unfold draw_ops in Heq. cbn in Heq.
  injection Heq as Heq. rewrite <- (app_nil_r dr) in Heq at 2.
  apply app_inv_head in Heq. exact Heq.
Qed.

(** ** The loop body of the enhanced [process_detections] *)

Section EnhancedBody.
Import Enhanced EnhancedProcess.
Context `{Cv2}.

Lemma send_alert_posted_shape s ty conf f t net :
  posted (send_alert s ty conf f t net) = []
  \/ posted (send_alert s ty conf f t net) = [mkAlertData (camera_id s) conf ty (Some f)].
Proof.
  unfold send_alert. destruct (Qltb _ _); [auto|].
  destruct net as [c| |]; cbn; auto. destruct (c =? 200)%Z; cbn; auto.
Qed.

(** A run of drawing calls draws a prefix of them, all of them unless one
    raises [cv2.error], which happens exactly when OpenCV refuses one of the
    positions. *)
Lemma draw_all_spec frame ops : forall h h' exn,
  draw_all frame ops h = (h', exn) ->
  exists done, drawn_with frame done h h'
    /\ (exn = None -> done = ops)
    /\ (exn = None \/ exn = Some Cv2Error)
    /\ (forallb op_ok ops = true -> exn = None)
    /\ (forallb op_ok ops = false -> exn = Some Cv2Error).
Proof.
  induction ops as [|op ops IH]; intros h h' exn Hd; cbn in Hd.
  - injection Hd as <- <-. exists []. split; [apply drawn_with_refl|].
    split; [auto|]. split; [auto|]. split; [auto | discriminate].
  - destruct (op_ok op) eqn:Hok.
    + destruct (IH _ _ _ Hd) as (done & Hdr & Hall & Hexn & Hfits & Hbad).
      exists (op :: done). split.
      { change (op :: done) with ([op] ++ done).
        eapply drawn_with_trans; [apply draw_at_drawn_with | exact Hdr]. }
      split; [intros E; rewrite (Hall E); reflexivity|]. split; [exact Hexn|].
      cbn. rewrite Hok. split; [exact Hfits | exact Hbad].
    + injection Hd as <- <-. exists []. split; [apply drawn_with_refl|].
      split; [discriminate|]. split; [auto|]. cbn. rewrite Hok.
      split; [discriminate | reflexivity].
Qed.

Lemma near_bounds z : near z = true -> (-1000000000 <= z <= 1000000000)%Z.
Proof. unfold near. rewrite andb_true_iff, !Z.leb_le. auto. Qed.

Lemma c_int_bounds z : (-2147483648 <= z <= 2147483647)%Z -> c_int z = true.
Proof. unfold c_int. rewrite andb_true_iff, !Z.leb_le. auto. Qed.

(** With box corners [near] the origin and labels of modest size, OpenCV
    accepts every position of the box drawing. *)
Lemma box_ops_ok cn conf x1 y1 x2 y2 color th :
  modest_labels ->
  near x1 = true -> near y1 = true -> near x2 = true -> near y2 = true ->
  forallb op_ok (box_ops cn conf x1 y1 x2 y2 color th) = true.
Proof.
  intros Hlab Hx1 Hy1 Hx2 Hy2.
  apply near_bounds in Hx1, Hy1, Hx2, Hy2.
  destruct (Hlab (LabelText cn conf)) as [Hw Hh].
  assert (Hcx : (-1000000000 <= (x1 + x2) / 2 <= 1000000000)%Z).
  { split; [apply Z.div_le_lower_bound | apply Z.div_le_upper_bound]; lia. }
  assert (Hcy : (-1000000000 <= (y1 + y2) / 2 <= 1000000000)%Z).
  { split; [apply Z.div_le_lower_bound | apply Z.div_le_upper_bound]; lia. }
  unfold box_ops. cbn [forallb]. unfold op_ok, point_ok. cbn [fst snd].
  rewrite !andb_true_iff. repeat split; apply c_int_bounds; lia.
Qed.

(** A row with fewer than six fields is skipped. *)
Lemma loop_body_short names sa env frame st row :
  (length row < 6)%nat -> loop_body names sa env frame st row = (st, None).
Proof.
  intros Hlen. unfold loop_body.
  destruct (Nat.ltb_spec (length row) 6); [reflexivity | lia].
Qed.

(** A row with more than six fields makes the unpacking raise. *)
Lemma loop_body_long names sa env frame st row :
  (6 < length row)%nat -> loop_body names sa env frame st row = (st, Some ValueError).
Proof.
  intros Hlen. unfold loop_body.
  destruct (Nat.ltb_spec (length row) 6); [lia|].
  do 7 (destruct row as [|? row]; [cbn in Hlen; lia|]). reflexivity.
Qed.

(** A row whose class index is not a key of [model.names] is skipped. *)
Lemma loop_body_unknown_class names sa env frame st x1 y1 x2 y2 conf cls :
  names !! py_int cls = None ->
  loop_body names sa env frame st [x1; y1; x2; y2; conf; cls] = (st, None).
Proof. intros Hn. unfold loop_body. cbn. rewrite Hn. reflexivity. Qed.

(** A row below the display threshold is skipped. *)
Lemma loop_body_below names sa env frame st x1 y1 x2 y2 conf cls :
  Qgeb conf (confidence_threshold (svc st)) = false ->
  loop_body names sa env frame st [x1; y1; x2; y2; conf; cls] = (st, None).
Proof.
  intros Hc. unfold loop_body. cbn.
  destruct (names !! py_int cls); [rewrite Hc|]; reflexivity.
Qed.

(** A row of six fields with a known class at or above the display
    threshold is kept; it is sent exactly when [send_alerts] is set, the
    class is a weapon and the confidence reaches the alert threshold.  The
    drawing comes last: it is complete unless a drawing call raises
    [cv2.error], which none does on a box [near] the origin. *)
Lemma loop_body_kept names sa env frame st x1 y1 x2 y2 conf cls cn :
  names !! py_int cls = Some cn ->
  Qgeb conf (confidence_threshold (svc st)) = true ->
  exists st' exn,
    loop_body names sa env frame st [x1; y1; x2; y2; conf; cls] = (st', exn)
    /\ detections st' = detections st ++ [mkDetection cn conf [x1; y1; x2; y2]]
    /\ frame_detection_count st' = S (frame_detection_count st)
    /\ (exists ops, drawn_with frame ops (heap st) (heap st') /\ (exn = None -> ops <> []))
    /\ (if any_in weapon_classes cn && Qgeb conf (alert_threshold (svc st)) && sa
        then
          let r := send_alert (svc st) (if any_in gun_types cn then "gun" else "knife") conf
                     (heap st !!! frame) (fst (env (alert_calls st)))
                     (snd (env (alert_calls st))) in
          svc st' = service r /\ alert_calls st' = S (alert_calls st)
          /\ outbox st' = outbox st ++ posted r
        else svc st' = svc st /\ alert_calls st' = alert_calls st
             /\ outbox st' = outbox st)
    /\ (exn = None \/ exn = Some Cv2Error)
    /\ (modest_labels -> drawable_row [x1; y1; x2; y2; conf; cls] = true ->
        (Z.of_nat (frame_detection_count st) < 10000000)%Z -> exn = None)
    /\ (c_int (py_int x1) = false -> exn = Some Cv2Error).
Proof.
  intros Hn Hc. unfold loop_body. cbn [length Nat.ltb Nat.leb].
  rewrite Hn, Hc.
  assert (Hfar : forall warning color th,
            c_int (py_int x1) = false ->
            forallb op_ok
              (warning ++ box_ops cn conf (py_int x1) (py_int y1) (py_int x2) (py_int y2) color th)
            = false).
  { intros warning color th Hx. rewrite forallb_app. unfold box_ops. cbn [forallb].
    unfold op_ok at 2. unfold point_ok at 1. cbn [fst snd]. rewrite Hx.
    apply andb_false_r. }
  assert (Hfit : forall warning color th,
            (warning = []
             \/ exists text scale c t,
                  warning = [PutText text (10, 60 + 20 * Z.of_nat (S (frame_detection_count st)))%Z
                               scale c t]) ->
            modest_labels -> drawable_row [x1; y1; x2; y2; conf; cls] = true ->
            (Z.of_nat (frame_detection_count st) < 10000000)%Z ->
            forallb op_ok
              (warning ++ box_ops cn conf (py_int x1) (py_int y1) (py_int x2) (py_int y2) color th)
            = true).
  { intros warning color th Hwarn Hlab Hrow Hcount. cbn [drawable_row] in Hrow.
    rewrite !andb_true_iff in Hrow. destruct Hrow as [[[Hx1 Hy1] Hx2] Hy2].
    rewrite forallb_app, (box_ops_ok _ _ _ _ _ _ _ _ Hlab Hx1 Hy1 Hx2 Hy2), andb_true_r.
    destruct Hwarn as [-> | (text & scale & c & t & ->)]; [reflexivity|].
    cbn [forallb]. unfold op_ok, point_ok. cbn [fst snd].
    rewrite andb_true_r, andb_true_iff.
    split; apply c_int_bounds; lia. }
  destruct (any_in weapon_classes cn) eqn:Hw; cbn [andb];
    [destruct (Qgeb conf (alert_threshold (svc st))) eqn:Ha; cbn [andb];
     [destruct sa; [destruct (env (alert_calls st)) as [now net] eqn:He; cbn [fst snd]|]|]|];
    cbv beta iota zeta;
    (match goal with
     | |- context [draw_all ?f ?o ?h0] => destruct (draw_all f o h0) as [h' exn] eqn:Hd
     end);
    destruct (draw_all_spec _ _ _ _ _ Hd) as (done & Hdr & Hall & Hexn & Hfits & Hbad);
    eexists; exists exn; (split; [reflexivity|]);
    cbn [detections frame_detection_count heap svc alert_calls outbox];
    (split; [reflexivity|]); (split; [reflexivity|]);
    (split; [exists done; split; [exact Hdr|]; intros E; rewrite (Hall E);
             unfold box_ops; try discriminate;
             apply not_eq_sym, app_cons_not_nil |]);
    (split; [auto|]); (split; [exact Hexn|]);
    (split; [intros Hlab Hrow Hcount; apply Hfits, Hfit; eauto 10
            | intros Hx; apply Hbad, Hfar; exact Hx]).
Qed.

End EnhancedBody.

(** ** The loop of the enhanced [process_detections] *)

Section EnhancedLoop.
Import Enhanced EnhancedProcess.
Context `{Cv2}.

Lemma same_settings_refl s : same_settings s s.
Proof. unfold same_settings. auto. Qed.

Lemma same_settings_trans s1 s2 s3 :
  same_settings s1 s2 -> same_settings s2 s3 -> same_settings s1 s3.
Proof. unfold same_settings. intros (-> & -> & -> & ->) (-> & -> & -> & ->). auto. Qed.

Lemma confident_alert_settings s s' a :
  same_settings s s' -> confident_alert s' a -> confident_alert s a.
Proof.
  unfold same_settings, confident_alert. intros (_ & -> & -> & _). auto.
Qed.

Lemma loop_body_step_skip names sa frame st row :
  same_settings (svc st) (svc st)
  /\ (exists new, outbox st = outbox st ++ new
                  /\ Forall (confident_alert (svc st)) new
                  /\ (sa = false -> new = []))
  /\ (sa = false -> svc st = svc st)
  /\ (exists ops, drawn_with frame ops (heap st) (heap st))
  /\ (length (detections st) <= S (length (detections st)))%nat
  /\ (dropped_row names row -> detections st = detections st).
Proof.
  split; [apply same_settings_refl|].
  split; [exists []; rewrite app_nil_r; auto|].
  split; [auto|].
  split; [exists []; apply drawn_with_refl|].
  split; [lia|auto].
Qed.

(** What one pass of the body may do, whether or not it raises. *)
Lemma loop_body_step names sa env frame st row st' exn :
  loop_body names sa env frame st row = (st', exn) ->
  same_settings (svc st) (svc st')
  /\ (exists new, outbox st' = outbox st ++ new
                  /\ Forall (confident_alert (svc st)) new
                  /\ (sa = false -> new = []))
  /\ (sa = false -> svc st' = svc st)
  /\ (exists ops, drawn_with frame ops (heap st) (heap st'))
  /\ (length (detections st') <= S (length (detections st)))%nat
  /\ (dropped_row names row -> detections st' = detections st).
Proof.
  intros Hbody.
  destruct (Nat.lt_ge_cases (length row) 6) as [Hlt|Hge].
  { rewrite loop_body_short in Hbody by exact Hlt. injection Hbody as <- <-.
    apply loop_body_step_skip. }
  destruct (Nat.lt_ge_cases 6 (length row)) as [Hgt|Hle].
  { rewrite loop_body_long in Hbody by exact Hgt. injection Hbody as <- <-.
    apply loop_body_step_skip. }
  destruct row as [|x1 [|y1 [|x2 [|y2 [|conf [|cls [|extra row]]]]]]];
    cbn in Hge, Hle; try lia.
  destruct (names !! py_int cls) as [cn|] eqn:Hn; cycle 1.
  { rewrite loop_body_unknown_class in Hbody by exact Hn. injection Hbody as <- <-.
    apply loop_body_step_skip. }
  destruct (Qgeb conf (confidence_threshold (svc st))) eqn:Hc; cycle 1.
  { rewrite loop_body_below in Hbody by exact Hc. injection Hbody as <- <-.
    apply loop_body_step_skip. }
  destruct (loop_body_kept names sa env frame st x1 y1 x2 y2 conf cls cn Hn Hc)
    as (st1 & exn1 & Hst1 & Hdets & _ & (ops & Hdraw & _) & Hsend & _).
  rewrite Hst1 in Hbody. injection Hbody as <- <-.
  assert (Hnotdropped : dropped_row names [x1; y1; x2; y2; conf; cls] ->
                        detections st1 = detections st).
  { intros [Hshort | (cls' & Hcls & Hnone)]; [cbn in Hshort; lia|].
    cbn in Hcls. injection Hcls as <-. congruence. }
  assert (Hlen : (length (detections st1) <= S (length (detections st)))%nat).
  { rewrite Hdets, length_app. cbn. lia. }
  destruct (any_in weapon_classes cn && Qgeb conf (alert_threshold (svc st)) && sa) eqn:Hcond.
  - apply andb_prop in Hcond as [Hcond Hsa]. apply andb_prop in Hcond as [_ Ha].
    cbn zeta in Hsend. destruct Hsend as (Hsvc & _ & Hout).
    set (ty := if any_in gun_types cn then "gun"%string else "knife"%string) in *.
    set (r := send_alert (svc st) ty conf (heap st !!! frame) (fst (env (alert_calls st)))
                (snd (env (alert_calls st)))) in *.
    split.
    { rewrite Hsvc. apply (send_alert_settings (svc st) ty conf (heap st !!! frame)). }
    split.
    { exists (posted r). split; [exact Hout|]. split; [|subst sa; discriminate].
      destruct (send_alert_posted_shape (svc st) ty conf (heap st !!! frame)
                  (fst (env (alert_calls st))) (snd (env (alert_calls st)))) as [E|E];
        fold r in E; rewrite E; [constructor|].
      constructor; [|constructor]. unfold confident_alert. cbn.
      apply Qgeb_true in Ha. apply Qgeb_true in Hc.
      split; [exact Ha|]. split; [exact Hc|].
      unfold ty. destruct (any_in gun_types cn); auto. }
    split; [intros ->; discriminate|].
    split; [eauto|]. split; [exact Hlen | exact Hnotdropped].
  - destruct Hsend as (Hsvc & _ & Hout).
    split; [rewrite Hsvc; apply same_settings_refl|].
    split; [exists []; rewrite app_nil_r; auto|].
    split; [auto|].
    split; [eauto|]. split; [exact Hlen | exact Hnotdropped].
Qed.

(** The exceptions a pass of the body can end in: [ValueError] from the
    unpacking of a row of more than six fields, and [cv2.error] from a
    drawing call; the latter not on a row that is [drawable_row] while the
    frame's count is below ten million. *)
Lemma loop_body_exn names sa env frame st row st' exn :
  loop_body names sa env frame st row = (st', exn) ->
  (exn = None \/ exn = Some Cv2Error
   \/ (exn = Some ValueError /\ (6 < length row)%nat /\ st' = st))
  /\ (frame_detection_count st' <= S (frame_detection_count st))%nat
  /\ (modest_labels -> drawable_row row = true ->
      (Z.of_nat (frame_detection_count st) < 10000000)%Z -> exn = None).
Proof.
  intros Hbody.
  destruct (Nat.lt_ge_cases (length row) 6) as [Hlt|Hge].
  { rewrite loop_body_short in Hbody by exact Hlt. injection Hbody as <- <-. auto. }
  destruct (Nat.lt_ge_cases 6 (length row)) as [Hgt|Hle].
  { rewrite loop_body_long in Hbody by exact Hgt. injection Hbody as <- <-.
    split; [auto|]. split; [lia|]. intros _ Hrow _.
    do 7 (destruct row as [|? row]; [cbn in Hgt; lia|]). discriminate Hrow. }
  destruct row as [|x1 [|y1 [|x2 [|y2 [|conf [|cls [|extra row]]]]]]];
    cbn in Hge, Hle; try lia.
  destruct (names !! py_int cls) as [cn|] eqn:Hn; cycle 1.
  { rewrite loop_body_unknown_class in Hbody by exact Hn. injection Hbody as <- <-. auto. }
  destruct (Qgeb conf (confidence_threshold (svc st))) eqn:Hc; cycle 1.
  { rewrite loop_body_below in Hbody by exact Hc. injection Hbody as <- <-. auto. }
  destruct (loop_body_kept names sa env frame st x1 y1 x2 y2 conf cls cn Hn Hc)
    as (st1 & exn1 & Hst1 & _ & Hcount & _ & _ & Hexn & Hfits & _).
  rewrite Hst1 in Hbody. injection Hbody as <- <-.
  split; [destruct Hexn; auto|]. split; [lia | exact Hfits].
Qed.

End EnhancedLoop.

(** ** The enhanced [process_detections] as a whole *)

Section EnhancedProcessing.
Import Enhanced EnhancedProcess.
Context `{Cv2}.

Lemma loop_inv names sa env frame rows : forall st st' exn,
  loop names sa env frame st rows = (st', exn) ->
  same_settings (svc st) (svc st')
  /\ (exists new, outbox st' = outbox st ++ new
                  /\ Forall (confident_alert (svc st)) new
                  /\ (sa = false -> new = []))
  /\ (sa = false -> svc st' = svc st)
  /\ (exists ops, drawn_with frame ops (heap st) (heap st'))
  /\ (length (detections st') <= length (detections st) + length rows)%nat
  /\ (exn = None -> Exists (dropped_row names) rows ->
      (length (detections st') < length (detections st) + length rows)%nat)
  /\ (exn = None \/ exn = Some Cv2Error
      \/ (exn = Some ValueError /\ Exists (fun r => (6 < length r)%nat) rows)).
Proof.
  induction rows as [|row rows IH]; intros st st' exn Hloop; cbn in Hloop.
  - injection Hloop as <- <-.
    split; [apply same_settings_refl|].
    split; [exists []; rewrite app_nil_r; auto|].
    split; [auto|].
    split; [exists []; apply drawn_with_refl|].
    split; [cbn; lia|].
    split; [intros _ Hex; inversion Hex | auto].
  - destruct (loop_body names sa env frame st row) as [st1 exn1] eqn:Hbody.
    destruct (loop_body_step names sa env frame st row st1 exn1 Hbody)
      as (Hs1 & (new1 & Ho1 & Hc1 & Hq1) & Hsv1 & (ops1 & Hd1) & Hl1 & Hdrop1).
    destruct (loop_body_exn names sa env frame st row st1 exn1 Hbody) as (Hexn1 & _).
    destruct exn1 as [e|].
    + injection Hloop as <- <-.
      split; [exact Hs1|].
      split; [exists new1; auto|].
      split; [exact Hsv1|].
      split; [exists ops1; exact Hd1|].
      split; [cbn [length]; lia|].
      split; [discriminate|].
      destruct Hexn1 as [E | [E | (E & Hlong & _)]]; [discriminate | auto |].
      right. right. split; [exact E|]. constructor. exact Hlong.
    + destruct (IH st1 st' exn Hloop)
        as (Hs2 & (new2 & Ho2 & Hc2 & Hq2) & Hsv2 & (ops2 & Hd2) & Hl2 & Hstrict2 & Hexn2).
      split; [eapply same_settings_trans; eauto|].
      split.
      { exists (new1 ++ new2). split; [rewrite Ho2, Ho1, app_assoc; reflexivity|].
        split.
        - apply Forall_app. split; [exact Hc1|].
          eapply Forall_impl; [exact Hc2|]. intros a. apply confident_alert_settings. exact Hs1.
        - intros Hsa. rewrite (Hq1 Hsa), (Hq2 Hsa). reflexivity. }
      split; [intros Hsa; rewrite (Hsv2 Hsa); auto|].
      split; [exists (ops1 ++ ops2); eapply drawn_with_trans; eauto|].
      split; [cbn [length]; lia|].
      split.
      { intros Hexn Hex. cbn [length]. inversion Hex as [? ? Hhere | ? ? Hlater]; subst.
        - rewrite (Hdrop1 Hhere) in Hl2. lia.
        - specialize (Hstrict2 eq_refl Hlater). lia. }
      destruct Hexn2 as [E | [E | (E & Hlong)]]; [auto | auto |].
      right. right. split; [exact E|]. apply Exists_cons_tl. exact Hlong.
Qed.

(** The loop ends without an exception on rows that are [drawable_row],
    at most ten million of them. *)
Lemma loop_fits names sa env frame rows : forall st,
  modest_labels -> Forall (fun r => drawable_row r = true) rows ->
  (Z.of_nat (frame_detection_count st + length rows) <= 10000000)%Z ->
  snd (loop names sa env frame st rows) = None.
Proof.
  induction rows as [|row rows IH]; intros st Hlab Hall Hcount; [reflexivity|].
  inversion Hall as [|? ? Hrow Hrest]; subst. cbn [loop length] in *.
  destruct (loop_body names sa env frame st row) as [st1 exn1] eqn:Hbody.
  destruct (loop_body_exn names sa env frame st row st1 exn1 Hbody) as (_ & Hc1 & Hfits).
  rewrite (Hfits Hlab Hrow) by lia.
  apply IH; [exact Hlab | exact Hrest | lia].
Qed.

Lemma draw_summary_drawn frame n thr h :
  exists ops, (is_Some (h !! frame) -> ops <> [])
              /\ drawn_with frame ops h (alter (draw_summary n thr) frame h).
Proof.
  destruct (h !! frame) as [f|] eqn:Hf.
  - exists [PutText (SummaryText n thr) (10, f_height f - 40)%Z (1 # 2)%Q (255, 255, 255)%Z 2%Z].
    split; [discriminate|]. unfold drawn_with. apply map_eq. intros r.
    destruct (decide (frame = r)) as [<-|Hne];
      [rewrite !lookup_alter_eq, Hf | rewrite !lookup_alter_ne by exact Hne]; reflexivity.
  - exists []. split; [intros [? ?]; discriminate|].
    unfold drawn_with. apply map_eq. intros r.
    destruct (decide (frame = r)) as [<-|Hne];
      [rewrite !lookup_alter_eq, Hf | rewrite !lookup_alter_ne by exact Hne]; reflexivity.
Qed.

(** What a call of [process_detections] may do: it draws on the caller's
    buffer in place, it changes the service and posts only through
    [send_alert], only when [send_alerts] is set, and only for detections at
    or above both thresholds. *)
Lemma process_detections_effects s h env results frame names sa :
  let p := process_detections s h env results frame names sa in
  same_settings s (service_after p)
  /\ Forall (confident_alert s) (posts p)
  /\ (sa = false -> posts p = [] /\ service_after p = s)
  /\ (exists ops, drawn_with frame ops h (heap_after p)
                  /\ (forall dets, result p = Returned dets -> is_Some (h !! frame) ->
                                   ops <> [])).
Proof.
  unfold process_detections.
  destruct (loop names sa env frame (mkLoop [] 0 h s 0 [])
              (nd_iter (validate_pred (raw_pred results)))) as [st exn] eqn:Hloop.
  destruct (loop_inv _ _ _ _ _ _ _ _ Hloop)
    as (Hs & (new & Ho & Hc & Hq) & Hsv & (ops & Hd) & _).
  cbn [svc outbox heap app] in Hs, Ho, Hc, Hsv, Hd.
  destruct exn as [e|]; cbn [result heap_after service_after posts].
  - split; [exact Hs|]. split; [rewrite Ho; exact Hc|].
    split; [intros Hsa; rewrite Ho; auto|].
    exists ops. split; [exact Hd | discriminate].
  - split; [exact Hs|]. split; [rewrite Ho; exact Hc|].
    split; [intros Hsa; rewrite Ho; auto|].
    destruct (draw_summary_drawn frame (frame_detection_count st)
                (confidence_threshold (svc st)) (heap st)) as (ops' & Hne & Hd').
    exists (ops ++ ops'). split; [eapply drawn_with_trans; eauto|].
    intros dets _ Hsome Happ. apply app_eq_nil in Happ as [_ ->].
    apply Hne; [|reflexivity].
    destruct Hsome as [f Hf]. rewrite (drawn_with_frame _ _ _ _ _ Hd Hf). eauto.
Qed.

End EnhancedProcessing.

(** ** The gun detection service's [process_detections] *)

Section GunProcessing.
Import GunService GunProcess.

Lemma gun_loop_body_draws s names frame st row st' exn :
  loop_body s names frame st row = (st', exn) ->
  exists ops, drawn_with frame ops (heap st) (heap st').
Proof.
  unfold loop_body. intros Hbody.
  destruct (rev row) as [|cls [|conf rbox]];
    try (injection Hbody as <- <-; exists []; apply drawn_with_refl).
  destruct (Qgeb conf (confidence_threshold s)); cycle 1.
  { injection Hbody as <- <-. exists []. apply drawn_with_refl. }
  destruct (names !! py_int cls) as [cn|]; cycle 1.
  { injection Hbody as <- <-. exists []. apply drawn_with_refl. }
  destruct (String.eqb cn "gun" || String.eqb cn "knife"); cycle 1.
  { injection Hbody as <- <-. exists []. apply drawn_with_refl. }
  destruct (rev rbox) as [|x1 [|y1 [|x2 [|y2 [|extra box]]]]];
    try (injection Hbody as <- <-; exists []; apply drawn_with_refl).
  cbv beta iota zeta in Hbody.
  match type of Hbody with
  | context [draw_all ?f ?o ?h0] => destruct (draw_all f o h0) as [h' exn'] eqn:Hd
  end.
  injection Hbody as <- <-. cbn [heap].
  destruct (draw_all_spec _ _ _ _ _ Hd) as (done & Hdr & _). eauto.
Qed.

Lemma gun_loop_draws s names frame rows : forall st st' exn,
  loop s names frame st rows = (st', exn) ->
  exists ops, drawn_with frame ops (heap st) (heap st').
Proof.
  induction rows as [|row rows IH]; intros st st' exn Hloop; cbn in Hloop.
  - injection Hloop as <- <-. exists []. apply drawn_with_refl.
  - destruct (loop_body s names frame st row) as [st1 exn1] eqn:Hbody.
    destruct (gun_loop_body_draws _ _ _ _ _ _ _ Hbody) as [ops1 H1].
    destruct exn1 as [e|].
    + injection Hloop as <- <-. eauto.
    + destruct (IH _ _ _ Hloop) as [ops2 H2].
      exists (ops1 ++ ops2). eapply drawn_with_trans; eauto.
Qed.

(** The gun detection service's [process_detections] draws on the caller's
    buffer and does nothing else. *)
Lemma gun_process_detections_draws s h table frame names :
  exists ops, drawn_with frame ops h (heap_after (process_detections s h table frame names)).
Proof.
  unfold process_detections. destruct table as [[|x l]|ncols rows].
  - exists []. apply drawn_with_refl.
  - exists []. apply drawn_with_refl.
  - destruct (loop s names frame (mkLoop [] h) rows) as [st exn] eqn:Hloop.
    destruct (gun_loop_draws _ _ _ _ _ _ _ Hloop) as [ops Hd]. cbn [heap] in Hd.
    exists ops. destruct exn; exact Hd.
Qed.

End GunProcessing.

(** ** Thresholds (claim C4) *)

(** Claim C4 at [--confidence 0.9]: [main] accepts the value, the service
    it builds draws detections from 0.9 upward, and its alert threshold is
    the constant 0.7, below the display threshold. *)
Lemma alert_threshold_below_display_threshold :
  exists s, Enhanced.main (9 # 10) "http://localhost:8000" "webcam-01" 10 = Some s
            /\ Enhanced.confidence_threshold s = (9 # 10)%Q
            /\ Enhanced.alert_threshold s = (7 # 10)%Q
            /\ (Enhanced.alert_threshold s < Enhanced.confidence_threshold s)%Q.
Proof.
  eexists. split; [vm_compute; reflexivity|].
  split; [reflexivity|]. split; [reflexivity|]. vm_compute. reflexivity.
Qed.

(** The part of claim C4 that holds for every configuration: whatever
    [process_detections] posts has a confidence at or above the alert
    threshold and at or above the display threshold, and the alert threshold
    is the higher of the two whenever the display threshold is below 0.7. *)
Lemma alerts_reach_both_thresholds `{Cv2} threshold url cam cooldown h env results frame names sa :
  let s := Enhanced.init threshold url cam cooldown in
  Forall (confident_alert s)
    (EnhancedProcess.posts (EnhancedProcess.process_detections s h env results frame names sa))
  /\ ((threshold < 7 # 10)%Q ->
      (Enhanced.confidence_threshold s < Enhanced.alert_threshold s)%Q).
Proof.
  intros s. split.
  - apply (process_detections_effects s h env results frame names sa).
  - intros Hlt. exact Hlt.
Qed.

(** ** Normalisation (claim C5) *)

(** Claim C5 at a table whose row has seven fields: the shape check lets it
    through (it only rejects fewer than six columns), the length check in
    the loop lets it through for the same reason, and the unpacking into six
    names raises [ValueError] out of [process_detections]. *)
Lemma seven_column_row_raises :
  nd_wf seven_columns
  /\ EnhancedProcess.validate_pred seven_columns = seven_columns
  /\ EnhancedProcess.result
       (EnhancedProcess.process_detections (H := example_cv2) example_service example_heap
          (accepting_at 100) (hub_result seven_columns) 1%positive example_names false)
     = Raised ValueError.
Proof.
  split; [repeat constructor|]. split; vm_compute; reflexivity.
Qed.

(** A table of four rows, of which one names a class the model does not
    have and one is below the display threshold of 0.5: two detections come
    back, fewer than the table has rows. *)
Lemma mixed_table_is_filtered :
  let p := EnhancedProcess.process_detections (H := example_cv2) example_service
             example_heap (accepting_at 100) (hub_result mixed_table) 1%positive
             example_names false in
  EnhancedProcess.result p
  = Returned [mkDetection "gun" (9 # 10) [10; 20; 110; 220]%Q;
              mkDetection "knife" (6 # 10) [30; 40; 130; 240]%Q]
  /\ nd_len mixed_table = 4%nat.
Proof. split; vm_compute; reflexivity. Qed.

Section Normalisation.
Import Enhanced EnhancedProcess.
Context `{Cv2}.

(** The part of claim C5 that holds: when no row that reaches the loop has
    more than six fields, the unpacking cannot fail, and all that
    [process_detections] can raise is [cv2.error] from a drawing call; it
    returns when the rows are [drawable_row]; and what it returns has at
    most one detection per row, and fewer detections than rows as soon as
    one row is short or names a class that [model.names] does not have. *)
Lemma normalize_up_to_six_fields s h env results frame names sa :
  let rows := nd_iter (validate_pred (raw_pred results)) in
  let p := process_detections s h env results frame names sa in
  Forall (fun r => (length r <= 6)%nat) rows ->
  (forall e, result p = Raised e -> e = Cv2Error)
  /\ (modest_labels -> Forall (fun r => drawable_row r = true) rows ->
      (Z.of_nat (length rows) <= 10000000)%Z ->
      exists dets, result p = Returned dets)
  /\ (forall dets, result p = Returned dets ->
        (length dets <= length rows)%nat
        /\ (Exists (dropped_row names) rows -> (length dets < length rows)%nat)).
Proof.
  intros rows p Hall. subst p. unfold process_detections. fold rows.
  pose proof (loop_fits names sa env frame rows (mkLoop [] 0 h s 0 [])) as Hfits.
  destruct (loop names sa env frame (mkLoop [] 0 h s 0 []) rows) as [st exn] eqn:Hloop.
  destruct (loop_inv _ _ _ _ _ _ _ _ Hloop) as (_ & _ & _ & _ & Hlen & Hstrict & Hexn).
  cbn [detections length frame_detection_count snd] in Hlen, Hstrict, Hfits.
  split; [|split].
  - intros e He. destruct Hexn as [-> | [-> | (-> & Hlong)]]; cbn [result] in He.
    + discriminate.
    + congruence.
    + exfalso. apply Exists_exists in Hlong as (r & Hr & Hgt).
      rewrite Forall_forall in Hall. specialize (Hall r Hr). lia.
  - intros Hlab Hdraw Hmany. rewrite (Hfits Hlab Hdraw Hmany). cbn [result]. eauto.
  - intros dets Hres. destruct exn as [e|]; cbn [result] in Hres; [discriminate|].
    injection Hres as <-. split; [lia|].
    intros Hex. specialize (Hstrict eq_refl Hex). lia.
Qed.

(** Result objects with [boxes] always give rows of six fields. *)
Lemma boxes_rows_have_six_fields o pred :
  boxes_pred o = Some pred ->
  Forall (fun r => (length r <= 6)%nat) (nd_iter (validate_pred pred)).
Proof.
  unfold boxes_pred. destruct (attr_boxes o) as [[boxes|]|]; try discriminate.
  intros [= <-]. destruct (0 <? length boxes)%nat; [|constructor].
  unfold hstack, validate_pred.
  destruct (0 <? nd_size _)%nat; cbn; apply Forall_forall; intros r Hr;
    apply list_elem_of_fmap in Hr as (b & -> & _); cbn; lia.
Qed.

(** A non-empty table with fewer than six columns is reset: every row is
    dropped. *)
Lemma narrow_table_is_dropped s h env ncols rows frame names sa :
  (0 < ncols < 6)%nat -> rows <> [] ->
  result (process_detections s h env (hub_result (Array2 ncols rows)) frame names sa)
  = Returned [].
Proof.
  intros [Hpos Hlt] Hrows. unfold process_detections, hub_result, raw_pred, boxes_pred.
  cbn [attr_boxes attr_xyxy]. unfold validate_pred. cbn [nd_size].
  destruct rows as [|r rows]; [congruence|].
  destruct (Nat.ltb_spec 0 (length (r :: rows) * ncols)) as [_|Hz]; [|cbn in Hz; lia].
  destruct (Nat.ltb_spec ncols 6); [|lia]. reflexivity.
Qed.

(** A result of none of the known shapes (an empty list, a list whose first
    element has no usable [boxes], an object with neither [boxes] nor [xyxy])
    gives the empty sequence. *)
Lemma unknown_shape_gives_nothing s h env results frame names sa :
  (results = RawList []
   \/ (exists o rest, results = RawList (o :: rest) /\ boxes_pred o = None)
   \/ (exists o, results = RawObject o /\ boxes_pred o = None /\ attr_xyxy o = None)) ->
  result (process_detections s h env results frame names sa) = Returned [].
Proof.
  intros [-> | [(o & rest & -> & Hb) | (o & -> & Hb & Hx)]];
    unfold process_detections, raw_pred; [|rewrite Hb|rewrite Hb, Hx]; reflexivity.
Qed.

End Normalisation.

(** ** Annotation (claim C6) *)

(** Claim C6 on the enhanced service as its detection loop calls it
    ([send_alerts=True]): one call of [process_detections] on a frame showing
    a gun and a knife posts two alerts, moves both cooldown clocks and the
    alert counter, and draws on the caller's buffer itself. *)
Lemma annotation_posts_and_draws_in_place :
  let p := EnhancedProcess.process_detections (H := example_cv2) example_service
             example_heap (accepting_at 100) (hub_result gun_and_knife) 1%positive
             example_names true in
  length (EnhancedProcess.posts p) = 2%nat
  /\ Enhanced.last_gun_alert (EnhancedProcess.service_after p) = 100%Q
  /\ Enhanced.last_knife_alert (EnhancedProcess.service_after p) = 100%Q
  /\ Enhanced.detection_count (EnhancedProcess.service_after p) = 2%nat
  /\ EnhancedProcess.service_after p <> example_service
  /\ example_heap !! 1%positive = Some example_frame
  /\ EnhancedProcess.heap_after p !! 1%positive <> Some example_frame.
Proof.
  repeat (split; [vm_compute; first [reflexivity | discriminate]|]).
  vm_compute. discriminate.
Qed.

(** Claim C6, amended.  [process_detections] returns the list of detections
    and draws on the caller's frame buffer in place: after the call the
    store holds the same buffers, every other buffer is untouched, and the
    frame is what it was plus the drawing calls made (at least the summary
    line when the enhanced service returns).  The gun detection service's
    [process_detections] does nothing else.  The enhanced service's
    [process_detections] makes no request and leaves the service unchanged
    when [send_alerts] is false; when it is true it calls [send_alert], and
    every request made is for a gun or knife detection at or above both
    thresholds. *)
Theorem annotation_draws_in_place :
  (forall (cv2 : Cv2) s h env results frame names sa,
      let p := EnhancedProcess.process_detections s h env results frame names sa in
      (exists ops,
          drawn_with frame ops h (EnhancedProcess.heap_after p)
          /\ dom (EnhancedProcess.heap_after p) = dom h
          /\ (forall r, r <> frame -> EnhancedProcess.heap_after p !! r = h !! r)
          /\ (forall dets f,
                 EnhancedProcess.result p = Returned dets -> h !! frame = Some f ->
                 EnhancedProcess.heap_after p !! frame = Some (draw_ops ops f)
                 /\ draw_ops ops f <> f))
      /\ (sa = false ->
          EnhancedProcess.posts p = [] /\ EnhancedProcess.service_after p = s)
      /\ Forall (confident_alert s) (EnhancedProcess.posts p))
  /\ (forall s h table frame names,
      let p := GunProcess.process_detections s h table frame names in
      exists ops,
        drawn_with frame ops h (GunProcess.heap_after p)
        /\ dom (GunProcess.heap_after p) = dom h
        /\ (forall r, r <> frame -> GunProcess.heap_after p !! r = h !! r)).
Proof.
  split.
  - intros cv2 s h env results frame names sa p.
    destruct (process_detections_effects s h env results frame names sa)
      as (_ & Hconf & Hquiet & (ops & Hd & Hne)).
    fold p in Hconf, Hquiet, Hd, Hne.
    split; [|split; [exact Hquiet | exact Hconf]].
    exists ops. split; [exact Hd|]. split; [eapply drawn_with_dom; exact Hd|].
    split; [intros r Hr; eapply drawn_with_other; eauto|].
    intros dets f Hres Hf. split; [eapply drawn_with_frame; eauto|].
    apply draw_ops_changes. eapply Hne; eauto.
  - intros s h table frame names p.
    destruct (gun_process_detections_draws s h table frame names) as [ops Hd]. fold p in Hd.
    exists ops. split; [exact Hd|]. split; [eapply drawn_with_dom; exact Hd|].
    intros r Hr. eapply drawn_with_other; eauto.
Qed.

(** Claim C6, amended, with [send_alerts=False] on a frame showing a gun
    and a knife: nothing is posted. *)
Lemma annotation_draws_in_place_witness :
  false = false
  /\ EnhancedProcess.posts
       (EnhancedProcess.process_detections (H := example_cv2) example_service example_heap
          (accepting_at 100) (hub_result gun_and_knife) 1%positive example_names false)
     = [].
Proof.
  split; [reflexivity|].
  apply (proj1 (proj2 (proj1 annotation_draws_in_place example_cv2 example_service
                         example_heap (accepting_at 100) (hub_result gun_and_knife)
                         1%positive example_names false))
           eq_refl).
Defined.

(** ** The stream before the first frame (claim C7) *)

(** Claim C7 on the enhanced service: while [self.current_frame] is [None]
    its [generate_frames] yields nothing, pass after pass. *)
Lemma enhanced_stream_yields_nothing_before_first_frame :
  EnhancedStream.generate_frames (H := example_cv2) [None; None; None] = [].
Proof. reflexivity. Qed.

(** Claim C7, amended.  In [working_video_stream.py] a pass of
    [generate_frames] that finds no published frame yields one multipart
    part holding the JPEG of the placeholder (a 480 by 640 black frame with
    four lines of status text), provided the encoder succeeds; so a consumer
    started before any frame was published gets a part from its first pass.
    The enhanced service's [generate_frames] has no placeholder: it yields
    nothing until a frame has been published. *)
Theorem placeholder_before_first_frame :
  (forall (cv2 : Cv2) quality timestamp g rest buffer,
      VideoStream.current_frame g = None ->
      imencode (VideoStream.create_placeholder_frame timestamp) 85 = Some buffer ->
      VideoStream.generate_frames quality ((timestamp, g) :: rest)
      = part buffer :: VideoStream.generate_frames quality rest)
  /\ (forall timestamp,
      VideoStream.create_placeholder_frame timestamp
      = mkFrame 480 640 Zeros
          [PutText (PlainText "AlertMatrix Video Stream") (50, 180)%Z (8 # 10)%Q
             (128, 128, 128)%Z 2;
           PutText (PlainText "Camera Not Available") (50, 220)%Z (8 # 10)%Q
             (128, 128, 128)%Z 2;
           PutText (PlainText "Please check camera connection") (50, 260)%Z (8 # 10)%Q
             (128, 128, 128)%Z 2;
           PutText (PlainText timestamp) (50, 300)%Z (8 # 10)%Q (128, 128, 128)%Z 2])
  /\ (forall buffer,
      part buffer
      = ("--frame" +:+ CRLF +:+ "Content-Type: image/jpeg" +:+ CRLF +:+ CRLF
         +:+ buffer +:+ CRLF)%string)
  /\ (forall (cv2 : Cv2) n, EnhancedStream.generate_frames (repeat None n) = []).
Proof.
  split; [|split; [|split]].
  - intros cv2 quality timestamp g rest buffer Hnone Henc.
    unfold VideoStream.generate_frames. cbn [flat_map].
    unfold VideoStream.generate_frames_pass at 1. rewrite Hnone, Henc. reflexivity.
  - intros timestamp. reflexivity.
  - intros buffer. reflexivity.
  - intros cv2 n. induction n as [|n IH]; [reflexivity|]. cbn. exact IH.
Qed.

(** Claim C7, amended, for a consumer of [working_video_stream.py] started
    on the initial globals. *)
Lemma placeholder_before_first_frame_witness :
  VideoStream.current_frame VideoStream.shared_init = None
  /\ imencode (Cv2 := example_cv2) (VideoStream.create_placeholder_frame "2025-01-01 00:00:00") 85
     = Some "JPEG"%string
  /\ VideoStream.generate_frames (H := example_cv2) None
       [("2025-01-01 00:00:00"%string, VideoStream.shared_init)]
     = [part "JPEG"].
Proof.
  split; [reflexivity|]. split; [reflexivity|].
  apply (proj1 placeholder_before_first_frame example_cv2 None
           "2025-01-01 00:00:00"%string VideoStream.shared_init [] "JPEG"%string
           eq_refl eq_refl).
Defined.

(** ** Opening the camera (claim C8) *)

Section Camera.
Import VideoStream.
Local Open Scope Z_scope.

(** The fallback loop tries the fallbacks other than the preferred index in
    order and stops at the first that opens, which it remembers. *)
Lemma try_fallbacks_spec dev idxs : forall s acc,
  let r := try_fallbacks dev s idxs acc in
  let l := filter (fun idx => idx <> camera_index s) idxs in
  tried r = acc ++ upto_first_open dev l
  /\ fallback_indexes (streamer r) = fallback_indexes s
  /\ match first_open dev l with
     | Some idx =>
         ok r = true /\ camera_index (streamer r) = idx
         /\ cap (streamer r) = Some (mkCapture idx true)
     | None => ok r = false /\ camera_index (streamer r) = camera_index s
     end.
Proof.
  induction idxs as [|idx idxs IH]; intros s acc; cbn zeta.
  - cbn. rewrite app_nil_r. auto.
  - cbn [try_fallbacks]. destruct (Z.eqb_spec idx (camera_index s)) as [Heq|Hne].
    + rewrite filter_cons_False by (intros Hc; apply Hc; exact Heq). apply IH.
    + rewrite filter_cons_True by exact Hne. cbn [upto_first_open first_open].
      unfold opens. destruct (dev idx) eqn:Hdev.
      * cbn. auto.
      * specialize (IH (set_cap (mkCapture idx false) s) (acc ++ [idx])).
        cbn zeta in IH. cbn [camera_index set_cap fallback_indexes] in IH.
        destruct IH as (Ht & Hf & Hm). rewrite Ht, <- app_assoc. auto.
      * specialize (IH s (acc ++ [idx])). cbn zeta in IH.
        destruct IH as (Ht & Hf & Hm). rewrite Ht, <- app_assoc. auto.
Qed.

(** [initialize_camera] on a streamer without an open capture. *)
Lemma initialize_camera_spec dev s :
  is_open s = false ->
  let r := initialize_camera dev s true in
  tried r = upto_first_open dev (candidates s)
  /\ fallback_indexes (streamer r) = fallback_indexes s
  /\ match first_open dev (candidates s) with
     | Some idx =>
         ok r = true /\ camera_index (streamer r) = idx
         /\ cap (streamer r) = Some (mkCapture idx true)
     | None => ok r = false /\ camera_index (streamer r) = camera_index s
     end.
Proof.
  intros Hclosed. unfold initialize_camera, candidates. rewrite Hclosed.
  cbn [upto_first_open first_open]. unfold opens.
  destruct (dev (camera_index s)) eqn:Hdev.
  - cbn. auto.
  - pose proof (try_fallbacks_spec dev (fallback_indexes s)
                  (set_cap (mkCapture (camera_index s) false) s) [camera_index s]) as IH.
    cbn zeta in IH. cbn [camera_index set_cap fallback_indexes] in IH. exact IH.
  - pose proof (try_fallbacks_spec dev (fallback_indexes s) s [camera_index s]) as IH.
    cbn zeta in IH. exact IH.
Qed.

Lemma upto_first_open_head dev l idx : head l = Some idx -> head (upto_first_open dev l) = Some idx.
Proof. destruct l; cbn; congruence. Qed.

End Camera.

(** When no device opens, every candidate is tried once and the preferred
    index stays what it was. *)
Lemma no_camera_tries_all :
  let r := VideoStream.initialize_camera no_camera VideoStream.init true in
  VideoStream.tried r = [0; 1; 2]%Z /\ VideoStream.ok r = false
  /\ VideoStream.camera_index (VideoStream.streamer r) = 0%Z.
Proof. cbn zeta. split; [|split]; reflexivity. Qed.

(** Claim C8.  On a streamer without an open capture, [initialize_camera]
    hands to [cv2.VideoCapture] the preferred index first and then the
    fallback indexes in order, stopping at the first that opens; that index
    becomes [camera_index].  After the connection is lost, a reconnect (the
    capture loop's call of [initialize_camera]) tries the remembered index
    first, whatever the devices do by then.  From the constructor's state,
    when only index 2 can be opened: indexes 0, 1, 2 are tried, 2 is
    remembered, and every later reconnect starts with 2, not 0. *)
Theorem camera_fallback_is_remembered :
  (forall dev s,
      VideoStream.is_open s = false ->
      let r := VideoStream.initialize_camera dev s true in
      VideoStream.tried r = upto_first_open dev (candidates s)
      /\ match first_open dev (candidates s) with
         | Some idx =>
             VideoStream.ok r = true
             /\ VideoStream.camera_index (VideoStream.streamer r) = idx
             /\ VideoStream.cap (VideoStream.streamer r)
                = Some (VideoStream.mkCapture idx true)
         | None =>
             VideoStream.ok r = false
             /\ VideoStream.camera_index (VideoStream.streamer r)
                = VideoStream.camera_index s
         end)
  /\ (forall dev s dev' read timestamp g,
      VideoStream.is_open s = false ->
      let s1 := VideoStream.streamer (VideoStream.initialize_camera dev s true) in
      let lost := VideoStream.connection_lost s1 in
      head (VideoStream.tried (VideoStream.initialize_camera dev' lost true))
      = Some (VideoStream.camera_index s1)
      /\ head (snd (VideoStream.capture_pass dev' read timestamp lost g))
         = Some (VideoStream.camera_index s1))
  /\ (let r := VideoStream.initialize_camera only_index_2 VideoStream.init true in
      VideoStream.tried r = [0; 1; 2]%Z
      /\ VideoStream.ok r = true
      /\ VideoStream.camera_index (VideoStream.streamer r) = 2%Z
      /\ forall dev',
          head (VideoStream.tried
                  (VideoStream.initialize_camera dev'
                     (VideoStream.connection_lost (VideoStream.streamer r)) true))
          = Some 2%Z).
Proof.
  assert (Hlost : forall s, VideoStream.is_open (VideoStream.connection_lost s) = false).
  { intros s. unfold VideoStream.is_open, VideoStream.connection_lost. cbn.
    destruct (VideoStream.cap s); reflexivity. }
  assert (Hre : forall dev' s,
             head (VideoStream.tried
                     (VideoStream.initialize_camera dev' (VideoStream.connection_lost s) true))
             = Some (VideoStream.camera_index s)).
  { intros dev' s.
    destruct (initialize_camera_spec dev' (VideoStream.connection_lost s) (Hlost s))
      as (Ht & _). rewrite Ht. apply upto_first_open_head. reflexivity. }
  split; [|split].
  - intros dev s Hclosed r.
    destruct (initialize_camera_spec dev s Hclosed) as (Ht & _ & Hm). auto.
  - intros dev s dev' read timestamp g Hclosed s1 lost. split; [apply Hre|].
    assert (Hl : VideoStream.is_open lost = false) by apply Hlost.
    unfold VideoStream.capture_pass. rewrite Hl. cbn [negb].
    destruct (VideoStream.ok (VideoStream.initialize_camera dev' lost true));
      cbn [negb snd]; [destruct read; cbn [snd]|]; apply Hre.
  - cbn zeta. split; [reflexivity|]. split; [reflexivity|]. split; [reflexivity|].
    intros dev'. apply Hre.
Qed.

(** Claim C8 on a fresh streamer when only index 2 can be opened. *)
Lemma camera_fallback_is_remembered_witness :
  VideoStream.is_open VideoStream.init = false
  /\ VideoStream.tried (VideoStream.initialize_camera only_index_2 VideoStream.init true)
     = upto_first_open only_index_2 (candidates VideoStream.init).
Proof.
  split; [reflexivity|].
  apply (proj1 camera_fallback_is_remembered only_index_2 VideoStream.init eq_refl).
Defined.

(** * Further properties *)

(** ** The enhanced normaliser *)

Section EnhancedNormaliser.
Import Enhanced EnhancedProcess.
Context `{Cv2}.

Lemma normalize_row_short names thr row :
  (length row < 6)%nat -> normalize_row names thr row = None.
Proof.
  intros Hlen.
  destruct row as [|x1 [|y1 [|x2 [|y2 [|conf [|cls [|extra row]]]]]]];
    cbn in Hlen; try lia; reflexivity.
Qed.

Lemma normalize_row_long names thr row :
  (6 < length row)%nat -> normalize_row names thr row = None.
Proof.
  intros Hlen.
  destruct row as [|x1 [|y1 [|x2 [|y2 [|conf [|cls [|extra row]]]]]]];
    cbn in Hlen; try lia; reflexivity.
Qed.

(** One pass of the body adds to [detections] what [normalize_row] keeps
    and keeps the counter equal to the length of the list. *)
Lemma loop_body_detections names sa env frame st row st' exn :
  loop_body names sa env frame st row = (st', exn) ->
  detections st'
  = detections st
    ++ from_option (fun d => [d]) []
         (normalize_row names (confidence_threshold (svc st)) row)
  /\ (frame_detection_count st = length (detections st) ->
      frame_detection_count st' = length (detections st')).
Proof.
  intros Hbody.
  destruct (Nat.lt_ge_cases (length row) 6) as [Hlt|Hge].
  { rewrite loop_body_short in Hbody by exact Hlt. injection Hbody as <- <-.
    rewrite normalize_row_short by exact Hlt. cbn. rewrite app_nil_r. auto. }
  destruct (Nat.lt_ge_cases 6 (length row)) as [Hgt|Hle].
  { rewrite loop_body_long in Hbody by exact Hgt. injection Hbody as <- <-.
    rewrite normalize_row_long by exact Hgt. cbn. rewrite app_nil_r. auto. }
  destruct row as [|x1 [|y1 [|x2 [|y2 [|conf [|cls [|extra row]]]]]]];
    cbn in Hge, Hle; try lia.
  cbn [normalize_row].
  destruct (names !! py_int cls) as [cn|] eqn:Hn; cycle 1.
  { rewrite loop_body_unknown_class in Hbody by exact Hn. injection Hbody as <- <-.
    cbn. rewrite app_nil_r. auto. }
  destruct (Qgeb conf (confidence_threshold (svc st))) eqn:Hq; cycle 1.
  { rewrite loop_body_below in Hbody by exact Hq. injection Hbody as <- <-.
    cbn. rewrite app_nil_r. auto. }
  destruct (loop_body_kept names sa env frame st x1 y1 x2 y2 conf cls cn Hn Hq)
    as (st2 & exn2 & Hst2 & Hdets & Hcount & _).
  rewrite Hst2 in Hbody. injection Hbody as <- <-. cbn [from_option].
  split; [exact Hdets|]. intros Heq. rewrite Hcount, Hdets, length_app, Heq. cbn. lia.
Qed.

(** The loop, when it ends without an exception, has added what
    [normalize_row] keeps, in row order. *)
Lemma loop_detections names sa env frame rows : forall st st',
  loop names sa env frame st rows = (st', None) ->
  detections st'
  = detections st ++ omap (normalize_row names (confidence_threshold (svc st))) rows
  /\ (frame_detection_count st = length (detections st) ->
      frame_detection_count st' = length (detections st')).
Proof.
  induction rows as [|row rows IH]; intros st st' Hloop; cbn in Hloop.
  - injection Hloop as <-. cbn. rewrite app_nil_r. auto.
  - destruct (loop_body names sa env frame st row) as [st1 [e|]] eqn:Hbody; [discriminate|].
    destruct (loop_body_step _ _ _ _ _ _ _ _ Hbody) as ((_ & Hthr & _) & _).
    destruct (IH st1 st' Hloop) as [Hd Hc]. rewrite Hthr in Hd.
    destruct (loop_body_detections _ _ _ _ _ _ _ _ Hbody) as [Hd1 Hc1]. split.
    + rewrite Hd, Hd1, <- app_assoc. f_equal.
      set (keep := normalize_row names (confidence_threshold (svc st))).
      change (omap keep (row :: rows))
        with (match keep row with Some d => d :: omap keep rows | None => omap keep rows end).
      destruct (keep row); reflexivity.
    + intros Heq. auto.
Qed.

End EnhancedNormaliser.

(** The stand-in for OpenCV reports labels of 100 by 12 pixels. *)
Lemma example_labels_are_modest : modest_labels (H := example_cv2).
Proof. intros t. cbn. lia. Qed.

(** X1.  When the enhanced [process_detections] returns, it returns exactly
    the rows that have six fields, a class index known to [model.names] and
    a confidence at or above the display threshold, as
    [(class_name, conf, box)] and in the order of the table, whatever
    [send_alerts], the clock, the backend and the cooldown state are.  It
    does return when every row that reaches the loop has at most six fields
    and box corners within a billion pixels of the origin (on at most
    ten million rows, with labels of at most a billion pixels); otherwise a
    drawing call may raise.  Every detection so kept is at or above the
    display threshold.  Table entries are finite floats. *)
Theorem process_detections_returns_kept_rows
    (cv2 : Cv2) s h env results frame names sa :
  let rows := EnhancedProcess.nd_iter
                (EnhancedProcess.validate_pred (EnhancedProcess.raw_pred results)) in
  let kept := omap (normalize_row names (Enhanced.confidence_threshold s)) rows in
  let p := EnhancedProcess.process_detections s h env results frame names sa in
  (forall dets, EnhancedProcess.result p = Returned dets -> dets = kept)
  /\ (modest_labels -> Forall (fun r => drawable_row r = true) rows ->
      (Z.of_nat (length rows) <= 10000000)%Z ->
      EnhancedProcess.result p = Returned kept)
  /\ Forall (fun d => (Enhanced.confidence_threshold s <= d_conf d)%Q) kept.
Proof.
  intros rows kept p.
  assert (Hret : forall dets, EnhancedProcess.result p = Returned dets -> dets = kept).
  { subst p. unfold EnhancedProcess.process_detections. fold rows.
    destruct (EnhancedProcess.loop names sa env frame
                (EnhancedProcess.mkLoop [] 0 h s 0 []) rows) as [st [e|]] eqn:Hloop;
      cbn [EnhancedProcess.result]; intros dets Hres; [discriminate|].
    injection Hres as <-.
    destruct (loop_detections _ _ _ _ _ _ _ Hloop) as [Hd _]. exact Hd. }
  split; [exact Hret|]. split.
  - intros Hlab Hdraw Hmany.
    assert (Hres : exists dets, EnhancedProcess.result p = Returned dets).
    { subst p. unfold EnhancedProcess.process_detections. fold rows.
      pose proof (loop_fits names sa env frame rows (EnhancedProcess.mkLoop [] 0 h s 0 [])
                    Hlab Hdraw Hmany) as Hfits.
      destruct (EnhancedProcess.loop names sa env frame
                  (EnhancedProcess.mkLoop [] 0 h s 0 []) rows) as [st exn].
      cbn [snd] in Hfits. subst exn. cbn [EnhancedProcess.result]. eauto. }
    destruct Hres as [dets Hres]. rewrite Hres. f_equal. exact (Hret dets Hres).
  - apply Forall_forall. intros d Hd.
    apply list_elem_of_omap in Hd as (row & _ & Hrow).
    destruct row as [|x1 [|y1 [|x2 [|y2 [|conf [|cls [|extra row]]]]]]];
      try discriminate.
    cbn in Hrow. destruct (names !! py_int cls); [|discriminate].
    destruct (Qgeb conf (Enhanced.confidence_threshold s)) eqn:Hq; [|discriminate].
    injection Hrow as <-. cbn. apply Qgeb_true. exact Hq.
Qed.

(** X1 on the table of four rows. *)
Lemma process_detections_returns_kept_rows_witness :
  Forall (fun r => drawable_row r = true)
    (EnhancedProcess.nd_iter
       (EnhancedProcess.validate_pred (EnhancedProcess.raw_pred (hub_result mixed_table))))
  /\ EnhancedProcess.result
       (EnhancedProcess.process_detections (H := example_cv2) example_service example_heap
          (accepting_at 100) (hub_result mixed_table) 1%positive example_names true)
     = Returned
         (omap (normalize_row example_names (Enhanced.confidence_threshold example_service))
            (EnhancedProcess.nd_iter
               (EnhancedProcess.validate_pred
                  (EnhancedProcess.raw_pred (hub_result mixed_table))))).
Proof.
  assert (Hall : Forall (fun r => drawable_row r = true)
                   (EnhancedProcess.nd_iter
                      (EnhancedProcess.validate_pred
                         (EnhancedProcess.raw_pred (hub_result mixed_table)))))
    by (repeat constructor).
  split; [exact Hall|].
  apply (proj1 (proj2 (process_detections_returns_kept_rows example_cv2 example_service
                         example_heap (accepting_at 100) (hub_result mixed_table) 1%positive
                         example_names true))
           example_labels_are_modest Hall).
  vm_compute. discriminate.
Defined.

Section EnhancedEdges.
Import Enhanced EnhancedProcess.
Context `{Cv2}.

Lemma validate_pred_rows_at_most_six pred :
  nd_wf pred -> too_wide pred = false ->
  Forall (fun r => (length r <= 6)%nat) (nd_iter (validate_pred pred)).
Proof.
  intros Hwf Hwide. unfold validate_pred.
  destruct pred as [l|ncols rows].
  - destruct (0 <? nd_size (Array1 l))%nat; constructor.
  - destruct (0 <? nd_size (Array2 ncols rows))%nat.
    + destruct (Nat.ltb_spec ncols 6); [constructor|].
      cbn [nd_iter]. cbn in Hwf. destruct rows as [|r rows]; [constructor|].
      cbn [too_wide] in Hwide. apply Nat.ltb_ge in Hwide.
      eapply Forall_impl; [exact Hwf|]. cbn. intros r' ->. exact Hwide.
    + cbn [nd_iter]. cbn in Hwf. destruct rows as [|r rows]; [constructor|].
      cbn [too_wide] in Hwide. apply Nat.ltb_ge in Hwide.
      eapply Forall_impl; [exact Hwf|]. cbn. intros r' ->. exact Hwide.
Qed.

Lemma too_wide_raises s h env results frame names sa :
  nd_wf (raw_pred results) -> too_wide (raw_pred results) = true ->
  process_detections s h env results frame names sa
  = mkProcessed (Raised ValueError) h s [].
Proof.
  intros Hwf Hwide. unfold process_detections.
  destruct (raw_pred results) as [l|ncols [|r rows]]; try discriminate.
  cbn [too_wide] in Hwide. apply Nat.ltb_lt in Hwide.
  cbn in Hwf. inversion Hwf as [|? ? Hr _]; subst.
  unfold validate_pred. cbn [nd_size length].
  destruct (Nat.ltb_spec 0 (S (length rows) * length r)) as [_|Hz]; [|lia].
  destruct (Nat.ltb_spec (length r) 6); [lia|].
  cbn [nd_iter loop]. rewrite loop_body_long by exact Hwide. reflexivity.
Qed.

(** A first row that is kept and whose box starts beyond the C [int] range
    makes the call raise [cv2.error]; by then [send_alert] has run for the
    row, if the row is at the alert level and [send_alerts] is set. *)
Lemma far_first_row_raises s h env results frame names sa x1 y1 x2 y2 conf cls cn rest :
  nd_iter (validate_pred (raw_pred results)) = [x1; y1; x2; y2; conf; cls] :: rest ->
  names !! py_int cls = Some cn ->
  Qgeb conf (confidence_threshold s) = true ->
  c_int (py_int x1) = false ->
  let p := process_detections s h env results frame names sa in
  let d := mkDetection cn conf [x1; y1; x2; y2] in
  let r := send_alert s (alert_type d) conf (h !!! frame) (fst (env 0%nat)) (snd (env 0%nat)) in
  result p = Raised Cv2Error
  /\ (if alert_level s d && sa
      then service_after p = service r /\ posts p = posted r
      else service_after p = s /\ posts p = []).
Proof.
  intros Hrows Hn Hq Hx. cbn zeta. unfold process_detections. rewrite Hrows.
  cbn [loop].
  destruct (loop_body_kept names sa env frame (mkLoop [] 0 h s 0 [])
              x1 y1 x2 y2 conf cls cn Hn Hq)
    as (st1 & exn1 & Hst1 & _ & _ & _ & Hsend & _ & _ & Hfar).
  rewrite Hst1, (Hfar Hx). cbn [result service_after posts].
  split; [reflexivity|].
  cbn [svc heap alert_calls outbox app] in Hsend.
  change (any_in weapon_classes cn && Qgeb conf (alert_threshold s))
    with (alert_level s (mkDetection cn conf [x1; y1; x2; y2])) in Hsend.
  change (if any_in gun_types cn then "gun"%string else "knife"%string)
    with (alert_type (mkDetection cn conf [x1; y1; x2; y2])) in Hsend.
  destruct (alert_level s (mkDetection cn conf [x1; y1; x2; y2]) && sa).
  - cbn zeta in Hsend. destruct Hsend as (Hsvc & _ & Hout). auto.
  - destruct Hsend as (Hsvc & _ & Hout). auto.
Qed.

(** With no row to visit the call returns the empty list and draws the
    summary line for zero detections. *)
Lemma no_rows_nothing_detected s h env results frame names sa :
  nd_iter (validate_pred (raw_pred results)) = [] ->
  process_detections s h env results frame names sa
  = mkProcessed (Returned []) (alter (draw_summary 0 (confidence_threshold s)) frame h) s [].
Proof. intros Hrows. unfold process_detections. rewrite Hrows. reflexivity. Qed.

(** When the call returns, the store is what the loop left, plus the
    summary line for as many detections as are returned. *)
Lemma process_detections_summary s h env results frame names sa dets :
  let p := process_detections s h env results frame names sa in
  result p = Returned dets ->
  exists ops hl,
    drawn_with frame ops h hl
    /\ heap_after p = alter (draw_summary (length dets) (confidence_threshold s)) frame hl.
Proof.
  unfold process_detections.
  destruct (loop names sa env frame (mkLoop [] 0 h s 0 [])
              (nd_iter (validate_pred (raw_pred results)))) as [st exn] eqn:Hloop.
  destruct (loop_inv _ _ _ _ _ _ _ _ Hloop) as ((_ & Hthr & _) & _ & _ & (ops & Hd) & _).
  cbn [svc heap] in Hthr, Hd.
  destruct exn as [e|]; cbn [result heap_after]; [discriminate|].
  intros [= <-].
  destruct (loop_detections _ _ _ _ _ _ _ Hloop) as [_ Hc]. cbn in Hc.
  rewrite (Hc eq_refl), Hthr. eauto.
Qed.

Lemma draw_summary_after_ops n thr ops f :
  draw_summary n thr (draw_ops ops f)
  = draw_ops (ops ++ [PutText (SummaryText n thr) (10, f_height f - 40)%Z (1 # 2)%Q
                        (255, 255, 255)%Z 2%Z]) f.
Proof. unfold draw_summary, draw, draw_ops. cbn. rewrite <- app_assoc. reflexivity. Qed.

Lemma returned_frame_ends_with_summary s h env results frame names sa dets f :
  result (process_detections s h env results frame names sa) = Returned dets ->
  h !! frame = Some f ->
  exists ops,
    heap_after (process_detections s h env results frame names sa) !! frame
    = Some (draw_summary (length dets) (confidence_threshold s) (draw_ops ops f)).
Proof.
  intros Hres Hf.
  destruct (process_detections_summary s h env results frame names sa dets Hres)
    as (ops & hl & Hd & Hheap).
  exists ops. rewrite Hheap, lookup_alter_eq.
  rewrite (drawn_with_frame _ _ _ _ _ Hd Hf). reflexivity.
Qed.

End EnhancedEdges.

(** X2.  The exceptions of the enhanced [process_detections] on a
    well-formed table of finite floats.  If the table has a row and more
    than six columns, the call raises [ValueError] at the first row, before
    anything was drawn, posted or changed in the service.  On every other table the
    unpacking cannot fail: all the call can raise is [cv2.error], from a
    drawing call whose position does not fit a C [int], and it raises
    nothing when the box corners are within a billion pixels of the origin
    (on at most ten million rows, with labels of at most a billion
    pixels).  The call is not all or nothing: when the first row is kept
    and its box starts beyond the C [int] range, the call raises
    [cv2.error] after [send_alert] has run for the row, so that the service
    and the requests made are those of that [send_alert] call. *)
Theorem process_detections_exceptions (cv2 : Cv2) s h env results frame names sa :
  nd_wf (EnhancedProcess.raw_pred results) ->
  let rows := EnhancedProcess.nd_iter
                (EnhancedProcess.validate_pred (EnhancedProcess.raw_pred results)) in
  let p := EnhancedProcess.process_detections s h env results frame names sa in
  (if too_wide (EnhancedProcess.raw_pred results)
   then EnhancedProcess.result p = Raised ValueError
        /\ EnhancedProcess.heap_after p = h
        /\ EnhancedProcess.service_after p = s
        /\ EnhancedProcess.posts p = []
   else (forall e, EnhancedProcess.result p = Raised e -> e = Cv2Error)
        /\ (modest_labels -> Forall (fun r => drawable_row r = true) rows ->
            (Z.of_nat (length rows) <= 10000000)%Z ->
            exists dets, EnhancedProcess.result p = Returned dets))
  /\ (forall x1 y1 x2 y2 conf cls cn rest,
        rows = [x1; y1; x2; y2; conf; cls] :: rest ->
        names !! py_int cls = Some cn ->
        Qgeb conf (Enhanced.confidence_threshold s) = true ->
        c_int (py_int x1) = false ->
        let d := mkDetection cn conf [x1; y1; x2; y2] in
        let r := Enhanced.send_alert s (alert_type d) conf (h !!! frame)
                   (fst (env 0%nat)) (snd (env 0%nat)) in
        EnhancedProcess.result p = Raised Cv2Error
        /\ (if alert_level s d && sa
            then EnhancedProcess.service_after p = Enhanced.service r
                 /\ EnhancedProcess.posts p = Enhanced.posted r
            else EnhancedProcess.service_after p = s /\ EnhancedProcess.posts p = [])).
Proof.
  intros Hwf rows p. split.
  - destruct (too_wide (EnhancedProcess.raw_pred results)) eqn:Hwide.
    + unfold p. rewrite too_wide_raises by assumption. cbn. auto.
    + destruct (normalize_up_to_six_fields s h env results frame names sa
                  (validate_pred_rows_at_most_six _ Hwf Hwide)) as (Hexn & Hret & _).
      split; [exact Hexn | exact Hret].
  - intros x1 y1 x2 y2 conf cls cn rest Hrows Hn Hq Hx.
    apply (far_first_row_raises s h env results frame names sa x1 y1 x2 y2 conf cls cn rest
             Hrows Hn Hq Hx).
Qed.

(** X2 on the table whose box starts three billion pixels to the right: the
    call raises [cv2.error], and by then the alert for the row has been
    posted and counted. *)
Lemma process_detections_exceptions_witness :
  nd_wf (EnhancedProcess.raw_pred (hub_result far_gun_table))
  /\ (let p := EnhancedProcess.process_detections (H := example_cv2) example_service
                 example_heap (accepting_at 100) (hub_result far_gun_table) 1%positive
                 example_names true in
      EnhancedProcess.result p = Raised Cv2Error
      /\ EnhancedProcess.posts p
         = [mkAlertData "webcam-01" (9 # 10) "gun" (Some example_frame)]
      /\ Enhanced.detection_count (EnhancedProcess.service_after p) = 1%nat
      /\ Enhanced.detection_count example_service = 0%nat).
Proof.
  assert (Hwf : nd_wf (EnhancedProcess.raw_pred (hub_result far_gun_table)))
    by (repeat constructor).
  split; [exact Hwf|]. split.
  - apply (proj2 (process_detections_exceptions example_cv2 example_service example_heap
                    (accepting_at 100) (hub_result far_gun_table) 1%positive example_names
                    true Hwf)
             3000000000%Q 20%Q 110%Q 220%Q (9 # 10)%Q 0%Q "gun"%string []
             eq_refl eq_refl eq_refl eq_refl).
  - vm_compute. auto.
Defined.

(** X3.  A raw result without rows (an empty list, a list whose first
    element has no [boxes], [boxes] set to [None] or empty, an object with
    neither [boxes] nor [xyxy], an empty table, a one-dimensional array, a
    table of fewer than six columns) gives the empty list, makes no request
    and leaves the service alone; the frame still gets one drawing call, the
    summary line for zero detections. *)
Theorem nothing_detected_draws_summary_only (cv2 : Cv2) s h env frame names sa results f :
  (results = RawList []
   \/ (exists o rest, results = RawList (o :: rest)
                      /\ (attr_boxes o = None \/ attr_boxes o = Some None
                          \/ attr_boxes o = Some (Some [])))
   \/ results = RawObject (mkPyObject None None)
   \/ (exists ncols, results = hub_result (Array2 ncols []))
   \/ (exists l, results = hub_result (Array1 l))
   \/ (exists ncols rows, results = hub_result (Array2 ncols rows) /\ (0 < ncols < 6)%nat)) ->
  h !! frame = Some f ->
  let p := EnhancedProcess.process_detections s h env results frame names sa in
  EnhancedProcess.result p = Returned []
  /\ EnhancedProcess.posts p = []
  /\ EnhancedProcess.service_after p = s
  /\ EnhancedProcess.heap_after p !! frame
     = Some (draw_ops [PutText (SummaryText 0 (Enhanced.confidence_threshold s))
                         (10, f_height f - 40)%Z (1 # 2)%Q (255, 255, 255)%Z 2%Z] f).
Proof.
  intros Hshape Hf p.
  assert (Hrows : EnhancedProcess.nd_iter
                    (EnhancedProcess.validate_pred (EnhancedProcess.raw_pred results)) = []).
  { destruct Hshape as [-> | [(o & rest & -> & Hb) | [-> | [(ncols & ->) | [(l & ->) |
      (ncols & rows & -> & Hpos & Hlt)]]]]].
    - reflexivity.
    - unfold EnhancedProcess.raw_pred, EnhancedProcess.boxes_pred.
      destruct Hb as [-> | [-> | ->]]; reflexivity.
    - reflexivity.
    - unfold hub_result, EnhancedProcess.raw_pred, EnhancedProcess.boxes_pred,
        EnhancedProcess.validate_pred. cbn. reflexivity.
    - unfold hub_result, EnhancedProcess.raw_pred, EnhancedProcess.boxes_pred,
        EnhancedProcess.validate_pred. cbn [attr_boxes attr_xyxy].
      destruct (0 <? nd_size (Array1 l))%nat; reflexivity.
    - unfold hub_result, EnhancedProcess.raw_pred, EnhancedProcess.boxes_pred,
        EnhancedProcess.validate_pred. cbn [attr_boxes attr_xyxy nd_size].
      destruct (Nat.ltb_spec 0 (length rows * ncols)) as [_|Hz].
      + destruct (Nat.ltb_spec ncols 6); [reflexivity | lia].
      + destruct rows; [reflexivity | cbn in Hz; lia]. }
  unfold p. rewrite (no_rows_nothing_detected s h env results frame names sa Hrows).
  cbn [EnhancedProcess.result EnhancedProcess.posts EnhancedProcess.service_after
         EnhancedProcess.heap_after].
  split; [reflexivity|]. split; [reflexivity|]. split; [reflexivity|].
  rewrite lookup_alter_eq, Hf. reflexivity.
Qed.

(** X3 on the empty list. *)
Lemma nothing_detected_draws_summary_only_witness :
  example_heap !! 1%positive = Some example_frame
  /\ EnhancedProcess.result
       (EnhancedProcess.process_detections (H := example_cv2) example_service example_heap
          (accepting_at 100) (RawList []) 1%positive example_names true)
     = Returned [].
Proof.
  assert (Hf : example_heap !! 1%positive = Some example_frame) by reflexivity.
  split; [exact Hf|].
  apply (nothing_detected_draws_summary_only example_cv2 example_service example_heap
           (accepting_at 100) 1%positive example_names true (RawList []) example_frame
           (or_introl eq_refl) Hf).
Defined.

(** X4.  When the enhanced [process_detections] returns, the last thing
    drawn on the frame is the summary line, and the count it shows is the
    number of detections returned. *)
Theorem summary_line_counts_returned_detections
    (cv2 : Cv2) s h env results frame names sa dets f :
  let p := EnhancedProcess.process_detections s h env results frame names sa in
  EnhancedProcess.result p = Returned dets -> h !! frame = Some f ->
  exists ops,
    EnhancedProcess.heap_after p !! frame
    = Some (draw_ops
              (ops ++ [PutText (SummaryText (length dets) (Enhanced.confidence_threshold s))
                         (10, f_height f - 40)%Z (1 # 2)%Q (255, 255, 255)%Z 2%Z]) f).
Proof.
  intros p Hres Hf.
  destruct (process_detections_summary s h env results frame names sa dets Hres)
    as (ops & hl & Hd & Hheap).
  exists ops. unfold p. rewrite Hheap, lookup_alter_eq.
  rewrite (drawn_with_frame _ _ _ _ _ Hd Hf). cbn [fmap option_fmap option_map].
  rewrite draw_summary_after_ops. reflexivity.
Qed.

(** X4 on the frame with a gun and a knife: the summary shows 2. *)
Lemma summary_line_counts_returned_detections_witness :
  EnhancedProcess.result
    (EnhancedProcess.process_detections (H := example_cv2) example_service example_heap
       (accepting_at 100) (hub_result gun_and_knife) 1%positive example_names false)
  = Returned [mkDetection "gun" (9 # 10) [10; 20; 110; 220]%Q;
              mkDetection "knife" (9 # 10) [30; 40; 130; 240]%Q]
  /\ example_heap !! 1%positive = Some example_frame
  /\ exists ops,
      EnhancedProcess.heap_after
        (EnhancedProcess.process_detections (H := example_cv2) example_service example_heap
           (accepting_at 100) (hub_result gun_and_knife) 1%positive example_names false)
      !! 1%positive
      = Some (draw_ops
                (ops ++ [PutText (SummaryText 2 (1 # 2)) (10, 480 - 40)%Z (1 # 2)%Q
                           (255, 255, 255)%Z 2%Z]) example_frame).
Proof.
  assert (Hres : EnhancedProcess.result
                   (EnhancedProcess.process_detections (H := example_cv2) example_service
                      example_heap (accepting_at 100) (hub_result gun_and_knife) 1%positive
                      example_names false)
                 = Returned [mkDetection "gun" (9 # 10) [10; 20; 110; 220]%Q;
                             mkDetection "knife" (9 # 10) [30; 40; 130; 240]%Q])
    by (vm_compute; reflexivity).
  assert (Hf : example_heap !! 1%positive = Some example_frame) by reflexivity.
  split; [exact Hres|]. split; [exact Hf|].
  apply (summary_line_counts_returned_detections example_cv2 example_service example_heap
           (accepting_at 100) (hub_result gun_and_knife) 1%positive example_names false
           _ example_frame Hres Hf).
Defined.

(** X5.  [validate_model] answers [True] exactly when a model is loaded and
    its result on the test image is a non-empty list whose first element
    has [boxes] other than [None].  A result of that shape gives rows of
    six fields (finite floats), so on it the unpacking in
    [process_detections] cannot fail: all the call can raise is [cv2.error]
    from a drawing call, and it returns when the box corners are within a billion pixels of the origin
    (on at most ten million boxes, with labels of at most a billion
    pixels).  A torch.hub style result, which [process_detections] would
    accept, does not pass. *)
Theorem validate_model_accepts_lists_with_boxes :
  (forall m,
      validate_model m = true <->
      exists o rest boxes,
        m = Some (Returned (RawList (o :: rest))) /\ attr_boxes o = Some (Some boxes))
  /\ (forall (cv2 : Cv2) results s h env frame names sa,
      validate_model (Some (Returned results)) = true ->
      let rows := EnhancedProcess.nd_iter
                    (EnhancedProcess.validate_pred (EnhancedProcess.raw_pred results)) in
      let p := EnhancedProcess.process_detections s h env results frame names sa in
      Forall (fun r => length r = 6%nat) rows
      /\ (forall e, EnhancedProcess.result p = Raised e -> e = Cv2Error)
      /\ (modest_labels -> Forall (fun r => drawable_row r = true) rows ->
          (Z.of_nat (length rows) <= 10000000)%Z ->
          exists dets, EnhancedProcess.result p = Returned dets))
  /\ (forall table, validate_model (Some (Returned (hub_result table))) = false).
Proof.
  assert (Hchar : forall m,
             validate_model m = true <->
             exists o rest boxes,
               m = Some (Returned (RawList (o :: rest)))
               /\ attr_boxes o = Some (Some boxes)).
  { intros m. split.
    - unfold validate_model. intros Hv.
      destruct m as [[[[|o rest]|o]|e]|]; try discriminate.
      destruct (attr_boxes o) as [[boxes|]|] eqn:Hb; try discriminate. eauto.
    - intros (o & rest & boxes & -> & Hb). cbn. rewrite Hb. reflexivity. }
  split; [exact Hchar|]. split; [|reflexivity].
  intros cv2 results s h env frame names sa Hv rows p.
  apply Hchar in Hv as (o & rest & boxes & [= ->] & Hb).
  assert (Hsix : Forall (fun r => length r = 6%nat) rows).
  { subst rows. cbn [EnhancedProcess.raw_pred]. unfold EnhancedProcess.boxes_pred.
    rewrite Hb. destruct (0 <? length boxes)%nat; [|constructor].
    unfold hstack, EnhancedProcess.validate_pred.
    destruct (0 <? nd_size _)%nat; cbn; apply Forall_forall; intros r Hr;
      apply list_elem_of_fmap in Hr as (b & -> & _); reflexivity. }
  split; [exact Hsix|].
  destruct (normalize_up_to_six_fields s h env (RawList (o :: rest)) frame names sa)
    as (Hexn & Hret & _); [|split; [exact Hexn | exact Hret]].
  eapply Forall_impl; [exact Hsix|]. cbn. intros r ->. lia.
Qed.

(** X5 on a list with one result whose boxes hold a gun. *)
Lemma validate_model_accepts_lists_with_boxes_witness :
  validate_model
    (Some (Returned (RawList [mkPyObject (Some (Some [mkBoxRow 10 20 110 220 (9 # 10) 0])) None])))
  = true
  /\ exists dets,
      EnhancedProcess.result
        (EnhancedProcess.process_detections (H := example_cv2) example_service example_heap
           (accepting_at 100)
           (RawList [mkPyObject (Some (Some [mkBoxRow 10 20 110 220 (9 # 10) 0])) None])
           1%positive example_names true)
      = Returned dets.
Proof.
  assert (Hv : validate_model
                 (Some (Returned (RawList [mkPyObject
                                             (Some (Some [mkBoxRow 10 20 110 220 (9 # 10) 0]))
                                             None])))
               = true) by reflexivity.
  split; [exact Hv|].
  apply (proj2 (proj2 (proj1 (proj2 validate_model_accepts_lists_with_boxes) example_cv2 _
                         example_service example_heap (accepting_at 100) 1%positive
                         example_names true Hv))
           example_labels_are_modest).
  - repeat constructor.
  - vm_compute. discriminate.
Defined.

(** ** The gun detection service: runs of alerts *)

Section GunRuns.
Import GunService.

Lemma gun_send_alert_returned s ty conf f t net :
  returned (send_alert s ty conf f t net) = true <->
  (inject_Z (cooldown_seconds s) <= t - last_alert_time s)%Q /\ net = Response 200.
Proof.
  unfold send_alert. destruct (Qltb _ _) eqn:E.
  - apply Qltb_true in E. cbn. split; [discriminate|]. intros [L _]. lra.
  - apply Qltb_false in E.
    destruct net as [c| |]; cbn; try (split; [discriminate | intros [_ ?]; discriminate]).
    destruct (Z.eqb_spec c 200); cbn.
    + subst. tauto.
    + split; [discriminate|]. intros [_ Hc]. congruence.
Qed.

Lemma gun_send_alert_after s ty conf f t net :
  let s' := service (send_alert s ty conf f t net) in
  cooldown_seconds s' = cooldown_seconds s
  /\ (last_alert_time s' = last_alert_time s \/ last_alert_time s' = t)
  /\ detection_count s' = (detection_count s + if returned (send_alert s ty conf f t net)
                                               then 1 else 0)%nat.
Proof.
  unfold send_alert. destruct (Qltb _ _); [cbn; auto with lia|].
  destruct net as [c| |]; cbn; auto with lia.
  destruct (c =? 200)%Z; cbn; auto with lia.
Qed.

Lemma gun_run_alerts_cons s a l :
  gun_run_alerts s (a :: l) =
  (fst (gun_run_alerts (service (gun_attempt s a)) l),
   returned (gun_attempt s a) :: snd (gun_run_alerts (service (gun_attempt s a)) l)).
Proof. cbn. destruct (gun_run_alerts _ l). reflexivity. Qed.

Lemma gun_run_alerts_after l : forall s lo j b,
  Forall (fun a => (lo <= ga_time a)%Q) l ->
  (lo <= last_alert_time s)%Q ->
  l !! j = Some b ->
  snd (gun_run_alerts s l) !! j = Some true ->
  (inject_Z (cooldown_seconds s) <= ga_time b - lo)%Q.
Proof.
  induction l as [|a l IH]; intros s lo j b Hall Hclk Hj Hret; [discriminate|].
  rewrite gun_run_alerts_cons in Hret. inversion Hall as [|? ? Ha Hl]; subst.
  destruct j as [|j]; cbn in Hj, Hret.
  - injection Hj as ->. injection Hret as Hret.
    apply gun_send_alert_returned in Hret. destruct Hret as [Hge _]. lra.
  - pose proof (gun_send_alert_after s (ga_type a) (ga_confidence a) (ga_frame a)
                  (ga_time a) (ga_net a)) as (Hcd & Hc & _).
    cbn zeta in Hcd, Hc. rewrite <- Hcd.
    eapply (IH (service (gun_attempt s a)) lo j b); eauto.
    unfold gun_attempt. destruct Hc as [-> | ->]; lra.
Qed.

End GunRuns.

(** X6.  In the gun detection service, with clock readings that never go
    back, any two calls of [send_alert] that both return [True] are at least
    [cooldown_seconds] apart, whatever their detection types: one alert per
    window for the camera as a whole. *)
Theorem gun_service_one_alert_per_window l : forall s i j a b,
  gun_nondecreasing l ->
  (i < j)%nat -> l !! i = Some a -> l !! j = Some b ->
  snd (gun_run_alerts s l) !! i = Some true ->
  snd (gun_run_alerts s l) !! j = Some true ->
  (inject_Z (GunService.cooldown_seconds s) <= ga_time b - ga_time a)%Q.
Proof.
  induction l as [|x l IH]; intros s i j a b Hmono Hij Hi Hj Hri Hrj; [discriminate|].
  rewrite gun_run_alerts_cons in Hri, Hrj.
  destruct j as [|j]; [lia|]. cbn in Hj, Hrj.
  assert (Htail : gun_nondecreasing l).
  { intros i' j' a' b' Hle Hi' Hj'. apply (Hmono (S i') (S j') a' b'); [lia|exact Hi'|exact Hj']. }
  pose proof (gun_send_alert_after s (ga_type x) (ga_confidence x) (ga_frame x)
                (ga_time x) (ga_net x)) as (Hcd & _ & _).
  cbn zeta in Hcd. fold (gun_attempt s x) in Hcd. rewrite <- Hcd.
  destruct i as [|i]; cbn in Hi, Hri.
  - injection Hi as ->. injection Hri as Hri.
    destruct (gun_send_alert_true s (ga_type a) (ga_confidence a) (ga_frame a) (ga_time a)
                (ga_net a) Hri) as [Hclk _]. fold (gun_attempt s a) in Hclk.
    apply (gun_run_alerts_after l (GunService.service (gun_attempt s a)) (ga_time a) j b); auto.
    + apply Forall_forall. intros c Hc.
      apply list_elem_of_lookup in Hc as [k Hk].
      apply (Hmono 0%nat (S k) a c); [lia|reflexivity|exact Hk].
    + rewrite Hclk. lra.
  - apply (IH (GunService.service (gun_attempt s x)) i j a b); auto. lia.
Qed.

(** X6 on a gun alert at 100 and knife alerts at 105 and 111: the first and
    the third are sent. *)
Lemma gun_service_one_alert_per_window_witness :
  gun_nondecreasing gun_then_knives
  /\ snd (gun_run_alerts example_gun_service gun_then_knives) = [true; false; true]
  /\ (inject_Z (GunService.cooldown_seconds example_gun_service) <= 111 - 100)%Q.
Proof.
  assert (Hmono : gun_nondecreasing gun_then_knives).
  { intros i j a b Hle Hi Hj.
    destruct i as [|[|[|i]]]; destruct j as [|[|[|j]]]; try lia; try discriminate;
      cbn in Hi, Hj; injection Hi as <-; injection Hj as <-; cbn;
      unfold Qle; cbn; lia. }
  split; [exact Hmono|]. split; [vm_compute; reflexivity|].
  apply (gun_service_one_alert_per_window gun_then_knives example_gun_service 0%nat 2%nat
           (mkGunAttempt "gun" (9 # 10) (Some example_frame) 100 (Response 200))
           (mkGunAttempt "knife" (9 # 10) (Some example_frame) 111 (Response 200))
           Hmono); [lia | reflexivity | reflexivity | vm_compute; reflexivity
                    | vm_compute; reflexivity].
Defined.

(** X7.  In the gun detection service [detection_count] goes up by one in
    exactly the calls of [send_alert] that return [True], which are the
    calls made outside the cooldown window and answered with 200; from the
    constructor's 0 it equals the number of such calls. *)
Theorem gun_detection_count_counts_sent_alerts :
  (forall s ty conf f t net,
      GunService.returned (GunService.send_alert s ty conf f t net) = true <->
      (inject_Z (GunService.cooldown_seconds s) <= t - GunService.last_alert_time s)%Q
      /\ net = Response 200)
  /\ (forall l s,
      GunService.detection_count (fst (gun_run_alerts s l))
      = (GunService.detection_count s
         + length (filter (fun b => b = true) (snd (gun_run_alerts s l))))%nat)
  /\ (forall model url cam threshold cooldown snapshots l,
      GunService.detection_count
        (fst (gun_run_alerts (GunService.init model url cam threshold cooldown snapshots) l))
      = length (filter (fun b => b = true)
                  (snd (gun_run_alerts
                          (GunService.init model url cam threshold cooldown snapshots) l)))).
Proof.
  assert (Hrun : forall l s,
             GunService.detection_count (fst (gun_run_alerts s l))
             = (GunService.detection_count s
                + length (filter (fun b => b = true) (snd (gun_run_alerts s l))))%nat).
  { induction l as [|a l IH]; intros s; [cbn; lia|].
    rewrite gun_run_alerts_cons. cbn [fst snd]. rewrite IH.
    pose proof (gun_send_alert_after s (ga_type a) (ga_confidence a) (ga_frame a)
                  (ga_time a) (ga_net a)) as (_ & _ & Hcnt).
    cbn zeta in Hcnt. fold (gun_attempt s a) in Hcnt. rewrite Hcnt.
    destruct (GunService.returned (gun_attempt s a)) eqn:E.
    - rewrite filter_cons_True by reflexivity. cbn [length]. lia.
    - rewrite filter_cons_False by discriminate. lia. }
  split; [apply gun_send_alert_returned|]. split; [exact Hrun|].
  intros model url cam threshold cooldown snapshots l. rewrite Hrun. reflexivity.
Qed.

(** ** The gun detection service: [process_detections] *)

Section GunRows.
Import GunService GunProcess.

(** One pass of the body that ends without an exception: what it adds is
    what [gun_keep] keeps, and a kept row costs two drawing calls. *)
Lemma gun_loop_body_keeps s names frame st row st' :
  loop_body s names frame st row = (st', None) ->
  detections st'
  = detections st ++ from_option (fun d => [d]) [] (gun_keep names (confidence_threshold s) row)
  /\ exists ops,
      drawn_with frame ops (heap st) (heap st')
      /\ length ops
         = (2 * length (from_option (fun d => [d]) []
                          (gun_keep names (confidence_threshold s) row)))%nat.
Proof.
  unfold loop_body, gun_keep. intros Hbody.
  destruct (rev row) as [|cls [|conf rbox]]; try discriminate.
  destruct (Qgeb conf (confidence_threshold s)); cycle 1.
  { injection Hbody as <-. cbn. rewrite app_nil_r. split; [reflexivity|].
    exists []. split; [apply drawn_with_refl | reflexivity]. }
  destruct (names !! py_int cls) as [cn|]; [|discriminate].
  destruct (String.eqb cn "gun" || String.eqb cn "knife"); cycle 1.
  { injection Hbody as <-. cbn. rewrite app_nil_r. split; [reflexivity|].
    exists []. split; [apply drawn_with_refl | reflexivity]. }
  destruct (rev rbox) as [|x1 [|y1 [|x2 [|y2 [|extra box]]]]]; try discriminate.
  cbv beta iota zeta in Hbody.
  match type of Hbody with
  | context [draw_all ?f ?o ?h0] => destruct (draw_all f o h0) as [h' exn'] eqn:Hd
  end.
  injection Hbody as <- ->. cbn [detections heap from_option length].
  split; [reflexivity|].
  destruct (draw_all_spec _ _ _ _ _ Hd) as (done & Hdr & Hall & _).
  exists done. split; [exact Hdr|]. rewrite (Hall eq_refl). reflexivity.
Qed.

Lemma gun_loop_keeps s names frame rows : forall st st',
  loop s names frame st rows = (st', None) ->
  detections st' = detections st ++ omap (gun_keep names (confidence_threshold s)) rows
  /\ exists ops,
      drawn_with frame ops (heap st) (heap st')
      /\ length ops
         = (2 * length (omap (gun_keep names (confidence_threshold s)) rows))%nat.
Proof.
  induction rows as [|row rows IH]; intros st st' Hloop; cbn in Hloop.
  - injection Hloop as <-. cbn. rewrite app_nil_r. split; [reflexivity|].
    exists []. split; [apply drawn_with_refl | reflexivity].
  - destruct (loop_body s names frame st row) as [st1 [e|]] eqn:Hbody; [discriminate|].
    destruct (gun_loop_body_keeps _ _ _ _ _ _ Hbody) as (Hd1 & ops1 & Hh1 & Hl1).
    destruct (IH _ _ Hloop) as (Hd2 & ops2 & Hh2 & Hl2).
    set (keep := gun_keep names (confidence_threshold s)) in *.
    change (omap keep (row :: rows))
      with (match keep row with Some d => d :: omap keep rows | None => omap keep rows end).
    split.
    + rewrite Hd2, Hd1, <- app_assoc. f_equal. destruct (keep row); reflexivity.
    + exists (ops1 ++ ops2). split; [eapply drawn_with_trans; eauto|].
      rewrite length_app, Hl1, Hl2. destruct (keep row); cbn; lia.
Qed.

(** A row below the threshold is passed over, whatever else it holds. *)
Lemma gun_loop_body_below s names frame st row :
  below_threshold (confidence_threshold s) row ->
  loop_body s names frame st row = (st, None).
Proof.
  intros (cls & conf & rbox & Hrev & Hq). unfold loop_body. rewrite Hrev, Hq. reflexivity.
Qed.

(** A row at or above the threshold with an unknown class raises. *)
Lemma gun_loop_body_unknown s names frame st row :
  unknown_class_row names (confidence_threshold s) row ->
  loop_body s names frame st row = (st, Some KeyError).
Proof.
  intros (cls & conf & rbox & Hrev & Hq & Hn). unfold loop_body.
  rewrite Hrev, Hq, Hn. reflexivity.
Qed.

Lemma gun_loop_below s names frame rows : forall st,
  Forall (below_threshold (confidence_threshold s)) rows ->
  loop s names frame st rows = (st, None).
Proof.
  induction rows as [|row rows IH]; intros st Hall; [reflexivity|].
  inversion Hall; subst. cbn. rewrite gun_loop_body_below by assumption. auto.
Qed.

Lemma gun_loop_unknown s names frame rows : forall st,
  Exists (unknown_class_row names (confidence_threshold s)) rows ->
  exists st' e, loop s names frame st rows = (st', Some e).
Proof.
  induction rows as [|row rows IH]; intros st Hex; [inversion Hex|].
  cbn. destruct (loop_body s names frame st row) as [st1 [e|]] eqn:Hbody.
  - eauto.
  - inversion Hex as [? ? Hhere | ? ? Hlater]; subst.
    + rewrite gun_loop_body_unknown in Hbody by exact Hhere. discriminate.
    + apply IH. exact Hlater.
Qed.

End GunRows.

(** X8.  The gun detection service's [process_detections] looks at a row's
    class and box only when its confidence reaches the threshold: a table
    whose rows are all below the threshold gives the empty list and an
    untouched frame, whatever class indexes and however many box fields the
    rows hold.  A row at or above the threshold whose class index is not a
    key of [model.names] is not skipped: the call raises, and the main loop
    then sends no alert for that frame, not even for weapons found in
    earlier rows, and leaves the service unchanged. *)
Theorem gun_process_detections_threshold_first s h frame names :
  (forall ncols rows,
      Forall (below_threshold (GunService.confidence_threshold s)) rows ->
      GunProcess.process_detections s h (Array2 ncols rows) frame names
      = GunProcess.mkProcessed (Returned []) h)
  /\ (forall ncols rows env,
      Exists (unknown_class_row names (GunService.confidence_threshold s)) rows ->
      (exists e, GunProcess.result
                   (GunProcess.process_detections s h (Array2 ncols rows) frame names)
                 = Raised e)
      /\ GunProcess.cy_posts (GunProcess.run_cycle s h env (Array2 ncols rows) frame names) = []
      /\ GunProcess.cy_service (GunProcess.run_cycle s h env (Array2 ncols rows) frame names)
         = s).
Proof.
  split.
  - intros ncols rows Hall. unfold GunProcess.process_detections.
    rewrite gun_loop_below by exact Hall. reflexivity.
  - intros ncols rows env Hex.
    destruct (gun_loop_unknown s names frame rows (GunProcess.mkLoop [] h) Hex)
      as (st' & e & Hloop).
    assert (Hres : GunProcess.result
                     (GunProcess.process_detections s h (Array2 ncols rows) frame names)
                   = Raised e).
    { unfold GunProcess.process_detections. rewrite Hloop. reflexivity. }
    split; [eauto|]. unfold GunProcess.run_cycle. rewrite Hres. auto.
Qed.

(** X8 on a table of faint rows and on a frame with a gun followed by an
    unknown class. *)
Lemma gun_process_detections_threshold_first_witness :
  (Forall (below_threshold (GunService.confidence_threshold example_gun_service))
     [[10; 4 # 10; 7]; [20; 1 # 10; 9]]%Q
   /\ GunProcess.process_detections example_gun_service example_heap faint_table 1%positive
        example_names
      = GunProcess.mkProcessed (Returned []) example_heap)
  /\ (Exists (unknown_class_row example_names
                (GunService.confidence_threshold example_gun_service))
        [[10; 20; 110; 220; 9 # 10; 0]; [10; 20; 110; 220; 9 # 10; 7]]%Q
      /\ GunProcess.cy_posts
           (GunProcess.run_cycle example_gun_service example_heap (accepting_at 100)
              gun_then_unknown 1%positive example_names) = []).
Proof.
  assert (Hall : Forall (below_threshold (GunService.confidence_threshold example_gun_service))
                   [[10; 4 # 10; 7]; [20; 1 # 10; 9]]%Q).
  { repeat constructor.
    - exists 7%Q, (4 # 10)%Q, [10%Q]. split; reflexivity.
    - exists 9%Q, (1 # 10)%Q, [20%Q]. split; reflexivity. }
  assert (Hex : Exists (unknown_class_row example_names
                          (GunService.confidence_threshold example_gun_service))
                  [[10; 20; 110; 220; 9 # 10; 0]; [10; 20; 110; 220; 9 # 10; 7]]%Q).
  { apply Exists_cons_tl. apply Exists_cons_hd.
    exists 7%Q, (9 # 10)%Q, [220; 110; 20; 10]%Q. split; [reflexivity|].
    split; reflexivity. }
  split; (split; [assumption|]).
  - apply (proj1 (gun_process_detections_threshold_first example_gun_service example_heap
                    1%positive example_names) 3%nat _ Hall).
  - apply (proj2 (gun_process_detections_threshold_first example_gun_service example_heap
                    1%positive example_names) 6%nat _ (accepting_at 100) Hex).
Defined.

(** X9.  When the gun detection service's [process_detections] returns, it
    returns, in table order, exactly the rows whose confidence reaches the
    threshold and whose class is ['gun'] or ['knife'], as
    [(class_name, conf)]; every other class is left out without a trace, and
    each returned detection has cost two drawing calls on the frame (its box
    and its label). *)
Theorem gun_process_detections_returns_weapons s h ncols rows frame names dets :
  GunProcess.result (GunProcess.process_detections s h (Array2 ncols rows) frame names)
  = Returned dets ->
  dets = omap (gun_keep names (GunService.confidence_threshold s)) rows
  /\ Forall (fun d => (fst d = "gun"%string \/ fst d = "knife"%string)
                      /\ (GunService.confidence_threshold s <= snd d)%Q) dets
  /\ exists ops,
      drawn_with frame ops h
        (GunProcess.heap_after
           (GunProcess.process_detections s h (Array2 ncols rows) frame names))
      /\ length ops = (2 * length dets)%nat.
Proof.
  unfold GunProcess.process_detections.
  destruct (GunProcess.loop s names frame (GunProcess.mkLoop [] h) rows) as [st exn] eqn:Hloop.
  destruct exn as [e|]; cbn [GunProcess.result GunProcess.heap_after]; [discriminate|].
  intros [= <-].
  destruct (gun_loop_keeps _ _ _ _ _ _ Hloop) as (Hd & ops & Hh & Hl).
  cbn in Hd, Hh. rewrite Hd. split; [reflexivity|]. split; [|eauto].
  apply Forall_forall. intros [cn conf] Hin.
  apply list_elem_of_omap in Hin as (row & _ & Hrow).
  unfold gun_keep in Hrow. destruct (rev row) as [|cls [|conf' rbox]]; try discriminate.
  destruct (Qgeb conf' (GunService.confidence_threshold s)) eqn:Hq; [|discriminate].
  destruct (names !! py_int cls) as [cn'|]; [|discriminate].
  destruct (String.eqb cn' "gun" || String.eqb cn' "knife") eqn:Hw; [|discriminate].
  injection Hrow as <- <-. cbn. split; [|apply Qgeb_true; exact Hq].
  apply orb_prop in Hw as [Hw|Hw]; apply String.eqb_eq in Hw; auto.
Qed.

(** X9 on the frame with a gun and a knife. *)
Lemma gun_process_detections_returns_weapons_witness :
  GunProcess.result
    (GunProcess.process_detections example_gun_service example_heap gun_and_knife 1%positive
       example_names)
  = Returned [("gun"%string, (9 # 10)%Q); ("knife"%string, (9 # 10)%Q)]
  /\ [("gun"%string, (9 # 10)%Q); ("knife"%string, (9 # 10)%Q)]
     = omap (gun_keep example_names (GunService.confidence_threshold example_gun_service))
         [[10; 20; 110; 220; 9 # 10; 0]; [30; 40; 130; 240; 9 # 10; 1]]%Q.
Proof.
  assert (Hres : GunProcess.result
                   (GunProcess.process_detections example_gun_service example_heap
                      gun_and_knife 1%positive example_names)
                 = Returned [("gun"%string, (9 # 10)%Q); ("knife"%string, (9 # 10)%Q)])
    by (vm_compute; reflexivity).
  split; [exact Hres|].
  apply (gun_process_detections_returns_weapons example_gun_service example_heap 6%nat _
           1%positive example_names _ Hres).
Defined.

(** ** working_video_stream.py: camera handling *)

Section CameraState.
Import VideoStream.

Lemma try_fallbacks_ok_is_open dev idxs : forall s acc,
  is_open s = false ->
  ok (try_fallbacks dev s idxs acc) = is_open (streamer (try_fallbacks dev s idxs acc)).
Proof.
  induction idxs as [|idx idxs IH]; intros s acc Hclosed; cbn [try_fallbacks].
  - cbn. symmetry. exact Hclosed.
  - destruct (idx =? camera_index s)%Z; [apply IH; exact Hclosed|].
    destruct (dev idx); [reflexivity | apply IH; reflexivity | apply IH; exact Hclosed].
Qed.

Lemma initialize_camera_ok_is_open dev s alt :
  ok (initialize_camera dev s alt) = is_open (streamer (initialize_camera dev s alt)).
Proof.
  unfold initialize_camera. destruct (is_open s) eqn:Hopen; [cbn; auto|].
  destruct (dev (camera_index s)); [reflexivity| |].
  - destruct alt; [apply try_fallbacks_ok_is_open; reflexivity | reflexivity].
  - destruct alt; [apply try_fallbacks_ok_is_open; exact Hopen | cbn; auto].
Qed.

Lemma capture_pass_globals dev read timestamp s g :
  let g' := snd (fst (capture_pass dev read timestamp s g)) in
  (camera_active g = true -> camera_active g' = true)
  /\ (is_Some (current_frame g) -> is_Some (current_frame g'))
  /\ (frame_count g <= frame_count g')%nat
  /\ ((camera_active g = true <-> is_Some (current_frame g)) ->
      (camera_active g' = true <-> is_Some (current_frame g')))
  /\ ((camera_active g = true <-> (0 < frame_count g)%nat) ->
      (camera_active g' = true <-> (0 < frame_count g')%nat)).
Proof.
  unfold capture_pass.
  destruct (negb (ok (if negb (is_open s) then initialize_camera dev s true
                      else mkInitialized s true []))); cbn [fst snd].
  - auto with lia.
  - destruct read as [frame|]; cbn [fst snd]; [|auto with lia].
    cbn [camera_active current_frame frame_count].
    repeat split; eauto with lia.
Qed.

End CameraState.

(** X10.  [initialize_camera] tells the truth about the capture: it returns
    [True] exactly when the streamer holds an opened capture afterwards.
    After a call that returned [True], a further call touches no device and
    changes nothing.  With [try_alternatives=False] at most the preferred
    index is tried and [camera_index] is not changed. *)
Theorem initialize_camera_reports_open_capture :
  (forall dev s alt,
      VideoStream.ok (VideoStream.initialize_camera dev s alt)
      = VideoStream.is_open (VideoStream.streamer (VideoStream.initialize_camera dev s alt)))
  /\ (forall dev s alt dev' alt',
      VideoStream.ok (VideoStream.initialize_camera dev s alt) = true ->
      VideoStream.initialize_camera dev'
        (VideoStream.streamer (VideoStream.initialize_camera dev s alt)) alt'
      = VideoStream.mkInitialized
          (VideoStream.streamer (VideoStream.initialize_camera dev s alt)) true [])
  /\ (forall dev s,
      let r := VideoStream.initialize_camera dev s false in
      (VideoStream.tried r = [] \/ VideoStream.tried r = [VideoStream.camera_index s])
      /\ VideoStream.camera_index (VideoStream.streamer r) = VideoStream.camera_index s).
Proof.
  split; [exact initialize_camera_ok_is_open|]. split.
  - intros dev s alt dev' alt' Hok. rewrite initialize_camera_ok_is_open in Hok.
    unfold VideoStream.initialize_camera at 1. rewrite Hok. reflexivity.
  - intros dev s r. unfold r, VideoStream.initialize_camera.
    destruct (VideoStream.is_open s); [cbn; auto|].
    destruct (dev (VideoStream.camera_index s)); cbn; auto.
Qed.

(** X10 on a fresh streamer when only index 2 opens. *)
Lemma initialize_camera_reports_open_capture_witness :
  VideoStream.ok (VideoStream.initialize_camera only_index_2 VideoStream.init true) = true
  /\ VideoStream.tried
       (VideoStream.initialize_camera no_camera
          (VideoStream.streamer
             (VideoStream.initialize_camera only_index_2 VideoStream.init true)) true)
     = [].
Proof.
  assert (Hok : VideoStream.ok
                  (VideoStream.initialize_camera only_index_2 VideoStream.init true) = true)
    by reflexivity.
  split; [exact Hok|].
  rewrite (proj1 (proj2 initialize_camera_reports_open_capture) only_index_2 VideoStream.init
             true no_camera true Hok).
  reflexivity.
Defined.

(** X11.  The globals of [working_video_stream.py] only ever move forward:
    over any sequence of capture passes and lost connections,
    [frame_count] never decreases, and once a frame has been published
    [camera_active] stays [True] and [current_frame] stays set.  So from
    then on [/api/health] answers 200 and the stream serves a captured
    frame, never the placeholder, also while the camera is gone.  From the
    initial globals, [camera_active] is [True] exactly when a frame has been
    published, which is exactly when [frame_count] is positive. *)
Theorem shared_globals_only_move_forward events : forall s g,
  let g' := snd (VideoApi.capture_run s g events) in
  (VideoStream.frame_count g <= VideoStream.frame_count g')%nat
  /\ (VideoStream.camera_active g = true ->
      VideoStream.camera_active g' = true /\ VideoApi.health g' = 200%Z)
  /\ (is_Some (VideoStream.current_frame g) -> is_Some (VideoStream.current_frame g'))
  /\ ((VideoStream.camera_active g = true <-> is_Some (VideoStream.current_frame g)) ->
      (VideoStream.camera_active g' = true <-> is_Some (VideoStream.current_frame g')))
  /\ ((VideoStream.camera_active g = true <-> (0 < VideoStream.frame_count g)%nat) ->
      (VideoStream.camera_active g' = true <-> (0 < VideoStream.frame_count g')%nat)).
Proof.
  induction events as [|[dev read timestamp|] events IH]; intros s g; cbn zeta.
  - cbn [VideoApi.capture_run snd]. unfold VideoApi.health.
    split; [lia|]. split; [intros ->; auto|]. auto.
  - cbn [VideoApi.capture_run].
    pose proof (capture_pass_globals dev read timestamp s g) as Hp. cbn zeta in Hp.
    destruct (VideoStream.capture_pass dev read timestamp s g) as [[s1 g1] tr].
    cbn [fst snd] in Hp. destruct Hp as (H1 & H2 & H3 & H4 & H5).
    specialize (IH s1 g1). cbn zeta in IH. destruct IH as (I3 & I1 & I2 & I4 & I5).
    split; [lia|]. split; [auto|]. split; [auto|]. split; auto.
  - cbn [VideoApi.capture_run]. apply IH.
Qed.

(** X11 on a camera that works for one pass and then goes away: the health
    route still answers 200 after two failed reconnects. *)
Lemma shared_globals_only_move_forward_witness :
  let first := VideoApi.capture_run VideoStream.init VideoStream.shared_init
                 [VideoApi.Pass (fun _ => VideoStream.Opens) (Some example_frame)
                    "2025-01-01 00:00:00"] in
  VideoStream.camera_active (snd first) = true
  /\ VideoApi.health
       (snd (VideoApi.capture_run (fst first) (snd first)
               [VideoApi.Lost; VideoApi.Pass no_camera None "2025-01-01 00:00:05";
                VideoApi.Pass no_camera None "2025-01-01 00:00:10"]))
     = 200%Z
  /\ VideoStream.is_open
       (fst (VideoApi.capture_run VideoStream.init VideoStream.shared_init
               camera_then_nothing)) = false.
Proof.
  cbn zeta.
  assert (Hactive : VideoStream.camera_active
                      (snd (VideoApi.capture_run VideoStream.init VideoStream.shared_init
                              [VideoApi.Pass (fun _ => VideoStream.Opens) (Some example_frame)
                                 "2025-01-01 00:00:00"])) = true) by reflexivity.
  split; [exact Hactive|]. split; [|reflexivity].
  apply (proj1 (proj2 (shared_globals_only_move_forward
                         [VideoApi.Lost; VideoApi.Pass no_camera None "2025-01-01 00:00:05";
                          VideoApi.Pass no_camera None "2025-01-01 00:00:10"]
                         _ _)) Hactive).
Defined.

(** ** working_video_stream.py: the stream, the status route, start and stop *)

Section Streams.
Context `{Cv2}.


End Streams.



Lemma string_length_app (a b : string) :
  String.length (a +:+ b) = (String.length a + String.length b)%nat.
Proof.
  induction a as [|c a IH]; [reflexivity|].
  change (S (String.length (a +:+ b)) = S (String.length a + String.length b)).
  rewrite IH. reflexivity.
Qed.

Lemma format_02d_two_digits n :
  (0 <= n < 100)%Z -> String.length (VideoApi.format_02d n) = 2%nat.
Proof.
  intros Hn.
  assert (Hall : forallb (fun k => Nat.eqb (String.length (VideoApi.format_02d (Z.of_nat k))) 2)
                   (seq 0 100) = true) by (vm_compute; reflexivity).
  rewrite forallb_forall in Hall.
  specialize (Hall (Z.to_nat n)). rewrite Z2Nat.id in Hall by lia.
  apply Nat.eqb_eq, Hall. apply in_seq. lia.
Qed.

(** X13.  The uptime of [/api/status] is split without loss: hours, minutes
    and seconds recombine to the whole seconds since start, minutes and
    seconds lie in 0..59 (also when the clock was set back and the uptime is
    negative), and hours are non-negative exactly when the uptime is.  The
    minutes and seconds fields are always two characters long, and for an
    uptime between 0 and 100 hours the string is exactly eight characters,
    [HH:MM:SS]. *)
Theorem status_uptime_recombines g now start :
  let uptime := py_int (now - start) in
  let '(hours, minutes, seconds) := VideoApi.uptime_parts uptime in
  (hours * 3600 + minutes * 60 + seconds = uptime)%Z
  /\ (0 <= minutes < 60)%Z /\ (0 <= seconds < 60)%Z
  /\ ((0 <= hours)%Z <-> (0 <= uptime)%Z)
  /\ VideoApi.st_uptime (VideoApi.status g now start)
     = (VideoApi.format_02d hours +:+ ":" +:+ VideoApi.format_02d minutes +:+ ":"
        +:+ VideoApi.format_02d seconds)%string
  /\ String.length (VideoApi.format_02d minutes) = 2%nat
  /\ String.length (VideoApi.format_02d seconds) = 2%nat
  /\ ((0 <= uptime < 360000)%Z ->
      String.length (VideoApi.st_uptime (VideoApi.status g now start)) = 8%nat).
Proof.
  cbn zeta. unfold VideoApi.status, VideoApi.uptime_parts. cbn zeta.
  set (uptime := py_int (now - start)).
  pose proof (Z.div_mod uptime 3600 ltac:(lia)) as Hdm.
  pose proof (Z.mod_pos_bound uptime 3600 ltac:(lia)) as Hrem.
  pose proof (Z.div_mod (uptime mod 3600) 60 ltac:(lia)) as Hdm2.
  pose proof (Z.mod_pos_bound (uptime mod 3600) 60 ltac:(lia)) as Hsec.
  assert (Hmin : (0 <= uptime mod 3600 / 60 < 60)%Z).
  { split; [apply Z.div_pos; lia | apply Z.div_lt_upper_bound; lia]. }
  split; [lia|]. split; [exact Hmin|]. split; [exact Hsec|].
  split.
  { split; intros Hh.
    - nia.
    - apply Z.div_pos; lia. }
  split; [reflexivity|].
  split; [apply format_02d_two_digits; lia|].
  split; [apply format_02d_two_digits; lia|].
  intros Hup. cbn [VideoApi.st_uptime].
  assert (Hh : (0 <= uptime / 3600 < 100)%Z).
  { split; [apply Z.div_pos; lia | apply Z.div_lt_upper_bound; lia]. }
  rewrite !string_length_app, !format_02d_two_digits by lia. reflexivity.
Qed.

(** X13 one hour, one minute and one second after start. *)
Lemma status_uptime_recombines_witness :
  (0 <= py_int (3661 - 0) < 360000)%Z
  /\ VideoApi.st_uptime (VideoApi.status VideoStream.shared_init 3661 0) = "01:01:01"%string
  /\ String.length (VideoApi.st_uptime (VideoApi.status VideoStream.shared_init 3661 0))
     = 8%nat.
Proof.
  assert (Hup : (0 <= py_int (3661 - 0) < 360000)%Z) by (vm_compute; split; [discriminate | reflexivity]).
  split; [exact Hup|]. split; [vm_compute; reflexivity|].
  pose proof (status_uptime_recombines VideoStream.shared_init 3661 0) as Hs.
  cbn zeta in Hs.
  destruct (VideoApi.uptime_parts (py_int (3661 - 0))) as [[hours minutes] seconds].
  exact (proj2 (proj2 (proj2 (proj2 (proj2 (proj2 (proj2 Hs)))))) Hup).
Defined.

Lemma try_fallbacks_running dev idxs : forall s acc,
  VideoStream.running (VideoStream.streamer (VideoStream.try_fallbacks dev s idxs acc))
  = VideoStream.running s.
Proof.
  induction idxs as [|idx idxs IH]; intros s acc; cbn; [reflexivity|].
  destruct (idx =? VideoStream.camera_index s)%Z; [apply IH|].
  destruct (dev idx); [reflexivity | rewrite IH; reflexivity | apply IH].
Qed.

Lemma initialize_camera_running dev s alt :
  VideoStream.running (VideoStream.streamer (VideoStream.initialize_camera dev s alt))
  = VideoStream.running s.
Proof.
  unfold VideoStream.initialize_camera.
  destruct (VideoStream.is_open s); [reflexivity|].
  destruct (dev (VideoStream.camera_index s)), alt; cbn;
    try reflexivity; rewrite try_fallbacks_running; reflexivity.
Qed.

(** X14.  [start_capture] sets [running] exactly when it returns [True],
    which is exactly when the capture is open; [stop_capture] drops the
    capture and keeps the remembered index, so the next [start_capture]
    tries that index first and, if it opens, no other. *)
Theorem capture_restart_uses_remembered_index :
  (forall dev s,
      VideoStream.running s = false ->
      let r := VideoApi.start_capture dev s in
      VideoStream.running (fst (fst r)) = snd (fst r)
      /\ VideoStream.is_open (fst (fst r)) = snd (fst r))
  /\ (forall s,
      VideoStream.is_open (VideoApi.stop_capture s) = false
      /\ VideoStream.running (VideoApi.stop_capture s) = false
      /\ VideoStream.camera_index (VideoApi.stop_capture s) = VideoStream.camera_index s)
  /\ (forall dev s dev',
      let s1 := fst (fst (VideoApi.start_capture dev s)) in
      let r := VideoApi.start_capture dev' (VideoApi.stop_capture s1) in
      head (snd r) = Some (VideoStream.camera_index s1)
      /\ (dev' (VideoStream.camera_index s1) = VideoStream.Opens ->
          snd (fst r) = true /\ snd r = [VideoStream.camera_index s1]
          /\ VideoStream.camera_index (fst (fst r)) = VideoStream.camera_index s1)).
Proof.
  split; [|split].
  - intros dev s Hrun r. unfold r, VideoApi.start_capture.
    pose proof (initialize_camera_ok_is_open dev s true) as Hok.
    pose proof (initialize_camera_running dev s true) as Hr.
    set (i := VideoStream.initialize_camera dev s true) in *.
    destruct (VideoStream.ok i) eqn:E; cbn [negb fst snd].
    + split; [reflexivity|]. symmetry. exact Hok.
    + split; [rewrite Hr; exact Hrun | symmetry; exact Hok].
  - intros s. repeat split.
  - intros dev s dev' s1 r. unfold r, VideoApi.start_capture.
    destruct (initialize_camera_spec dev' (VideoApi.stop_capture s1) eq_refl)
      as (Ht & _ & Hm).
    assert (Htried : forall b st,
               snd (if negb (VideoStream.ok
                               (VideoStream.initialize_camera dev' (VideoApi.stop_capture s1)
                                  true))
                    then (VideoStream.streamer
                            (VideoStream.initialize_camera dev' (VideoApi.stop_capture s1) true),
                          false,
                          VideoStream.tried
                            (VideoStream.initialize_camera dev' (VideoApi.stop_capture s1) true))
                    else (st, b,
                          VideoStream.tried
                            (VideoStream.initialize_camera dev' (VideoApi.stop_capture s1) true)))
               = VideoStream.tried
                   (VideoStream.initialize_camera dev' (VideoApi.stop_capture s1) true)).
    { intros b st. destruct (negb _); reflexivity. }
    rewrite Htried, Ht. split; [reflexivity|].
    intros Hopen. unfold candidates in Hm, Ht |- *.
    cbn [upto_first_open first_open VideoApi.stop_capture VideoStream.camera_index] in Hm |- *.
    unfold opens in Hm |- *. cbn [VideoStream.camera_index VideoApi.stop_capture] in Hm |- *.
    rewrite Hopen in Hm |- *. destruct Hm as (Hok & Hidx & _).
    rewrite Hok. cbn. auto.
Qed.

(** X14 on a fresh streamer when only index 2 opens, stopped and started
    again. *)
Lemma capture_restart_uses_remembered_index_witness :
  only_index_2
    (VideoStream.camera_index (fst (fst (VideoApi.start_capture only_index_2 VideoStream.init))))
  = VideoStream.Opens
  /\ snd (VideoApi.start_capture only_index_2
            (VideoApi.stop_capture
               (fst (fst (VideoApi.start_capture only_index_2 VideoStream.init)))))
     = [2%Z].
Proof.
  assert (Hopen : only_index_2
                    (VideoStream.camera_index
                       (fst (fst (VideoApi.start_capture only_index_2 VideoStream.init))))
                  = VideoStream.Opens) by reflexivity.
  split; [exact Hopen|].
  apply (proj2 (proj2 (proj2 capture_restart_uses_remembered_index) only_index_2
                  VideoStream.init only_index_2) Hopen).
Defined.

(** ** Strings *)

Lemma rstrip_slash_cons c t :
  rstrip_slash (String c t)
  = match rstrip_slash t with
    | EmptyString => if Ascii.eqb c "/" then EmptyString else String c EmptyString
    | String d r => String c (String d r)
    end.
Proof. cbn. destruct (rstrip_slash t); reflexivity. Qed.

Lemma rstrip_slash_split url : exists n, url = (rstrip_slash url +:+ slashes n)%string.
Proof.
  induction url as [|c t [n IH]]; [exists 0%nat; reflexivity|].
  rewrite rstrip_slash_cons. destruct (rstrip_slash t) as [|d r].
  - change (t = slashes n) in IH. destruct (Ascii.eqb_spec c "/") as [->|Hne].
    + exists (S n). change (String "/" t = String "/" (slashes n)). congruence.
    + exists n. change (String c t = String c (slashes n)). congruence.
  - exists n. change (String c t = String c (String d r +:+ slashes n)). congruence.
Qed.

Lemma rstrip_slash_no_trailing url t : rstrip_slash url <> (t +:+ "/")%string.
Proof.
  revert t. induction url as [|c u IH]; intros t.
  - cbn. destruct t; discriminate.
  - rewrite rstrip_slash_cons. destruct (rstrip_slash u) as [|d r] eqn:Hr.
    + destruct (Ascii.eqb_spec c "/") as [->|Hne].
      * destruct t; discriminate.
      * destruct t as [|e t]; [intros [= ->]; congruence|].
        intros [= -> Ht]. destruct t; discriminate.
    + destruct t as [|e t]; [discriminate|].
      intros [= -> Ht]. apply (IH t). exact Ht.
Qed.

Lemma rstrip_slash_idempotent url : rstrip_slash (rstrip_slash url) = rstrip_slash url.
Proof.
  induction url as [|c u IH]; [reflexivity|].
  rewrite rstrip_slash_cons. destruct (rstrip_slash u) as [|d r] eqn:Hr.
  - destruct (Ascii.eqb_spec c "/") as [->|Hne]; [reflexivity|].
    cbn. destruct (Ascii.eqb_spec c "/"); [congruence | reflexivity].
  - rewrite rstrip_slash_cons, IH. reflexivity.
Qed.

Lemma rstrip_slash_slashes url n :
  rstrip_slash (url +:+ slashes n) = rstrip_slash url.
Proof.
  induction url as [|c u IH].
  - change (rstrip_slash (slashes n) = EmptyString).
    induction n as [|n IHn]; [reflexivity|].
    cbn [slashes]. rewrite rstrip_slash_cons, IHn. reflexivity.
  - change (rstrip_slash (String c (u +:+ slashes n)) = rstrip_slash (String c u)).
    rewrite !rstrip_slash_cons, IH. reflexivity.
Qed.

(** X15.  Both constructors store the backend address without its trailing
    slashes: the stored [backend_url] never ends in a slash, the argument is
    the stored address followed by slashes only, stripping again changes
    nothing, and two arguments that differ only in trailing slashes
    configure the same address. *)
Theorem backend_url_has_no_trailing_slash threshold cam cooldown model snapshots url :
  let stored := Enhanced.backend_url (Enhanced.init threshold url cam cooldown) in
  GunService.backend_url (GunService.init model url cam threshold cooldown snapshots) = stored
  /\ (forall t, stored <> (t +:+ "/")%string)
  /\ (exists n, url = (stored +:+ slashes n)%string)
  /\ rstrip_slash stored = stored
  /\ (forall n,
         Enhanced.backend_url
           (Enhanced.init threshold (url +:+ slashes n) cam cooldown) = stored).
Proof.
  cbn. split; [reflexivity|]. split; [apply rstrip_slash_no_trailing|].
  split; [apply rstrip_slash_split|]. split; [apply rstrip_slash_idempotent|].
  intros n. apply rstrip_slash_slashes.
Qed.

Lemma starts_with_spec p : forall s,
  starts_with p s = true <-> exists post, s = (p +:+ post)%string.
Proof.
  induction p as [|a p IH]; intros s.
  - cbn. split; [intros _; exists s; reflexivity | auto].
  - destruct s as [|b s]; cbn.
    + split; [discriminate | intros [post Hp]; discriminate].
    + destruct (Ascii.eqb_spec a b) as [->|Hne].
      * rewrite IH. split; intros [post Hp]; exists post.
        -- rewrite Hp. reflexivity.
        -- injection Hp as Hp. exact Hp.
      * split; [discriminate|]. intros [post Hp]. injection Hp as Hab _. congruence.
Qed.

Lemma str_in_spec needle : forall hay,
  str_in needle hay = true <-> exists pre post, hay = (pre +:+ needle +:+ post)%string.
Proof.
  induction hay as [|c hay IH].
  - cbn. destruct (starts_with needle "") eqn:E.
    + split; [intros _|reflexivity].
      apply starts_with_spec in E as [post Hp]. exists EmptyString, post. exact Hp.
    + split; [discriminate|]. intros (pre & post & Hp).
      destruct pre; [|discriminate]. 
      assert (starts_with needle "" = true) by (apply starts_with_spec; eauto).
      congruence.
  - cbn [str_in]. destruct (starts_with needle (String c hay)) eqn:E.
    + split; [intros _|reflexivity].
      apply starts_with_spec in E as [post Hp]. exists EmptyString, post. exact Hp.
    + rewrite IH. split.
      * intros (pre & post & ->). exists (String c pre), post. reflexivity.
      * intros (pre & post & Hp). destruct pre as [|d pre].
        -- assert (starts_with needle (String c hay) = true)
             by (apply starts_with_spec; eauto).
           congruence.
        -- injection Hp as _ Hp. eauto.
Qed.

(** X16.  The enhanced service treats a class as a weapon exactly when its
    lower-cased name contains ['gun'], ['knife'] or ['knives'], and as a gun
    exactly when it contains ['gun']; the ['guns'] entries of both lists
    add nothing.  So every weapon class whose name contains ['gun'] is
    alerted as a gun, and every other weapon class as a knife. *)
Theorem weapon_classes_by_substring class_name :
  (EnhancedProcess.any_in EnhancedProcess.weapon_classes class_name = true <->
   names_a "gun" class_name \/ names_a "knife" class_name \/ names_a "knives" class_name)
  /\ (EnhancedProcess.any_in EnhancedProcess.gun_types class_name = true <->
      names_a "gun" class_name).
Proof.
  assert (Hguns : names_a "guns" class_name -> names_a "gun" class_name).
  { intros (pre & post & Hp). exists pre, ("s" +:+ post)%string. rewrite Hp. reflexivity. }
  unfold EnhancedProcess.any_in, EnhancedProcess.weapon_classes, EnhancedProcess.gun_types.
  cbn [existsb]. rewrite !orb_false_r, !orb_true_iff, !str_in_spec.
  fold (names_a "gun" class_name). fold (names_a "knife" class_name).
  fold (names_a "guns" class_name). fold (names_a "knives" class_name).
  split; tauto.
Qed.

(** ** The alerts of one frame *)

Section FrameAlerts.
Import Enhanced EnhancedProcess.
Context `{Cv2}.

(** The frame handed to [send_alert] reaches the request body only. *)
Lemma send_alert_frame_irrelevant s ty conf f f' t net :
  service (send_alert s ty conf f t net) = service (send_alert s ty conf f' t net)
  /\ returned (send_alert s ty conf f t net) = returned (send_alert s ty conf f' t net)
  /\ length (posted (send_alert s ty conf f t net))
     = length (posted (send_alert s ty conf f' t net)).
Proof.
  unfold send_alert. destruct (Qltb _ _); [auto|].
  destruct net as [c| |]; auto. destruct (c =? 200)%Z; auto.
Qed.

Lemma alert_level_settings s s' d :
  same_settings s s' -> alert_level s' d = alert_level s d.
Proof. intros (_ & _ & Ha & _). unfold alert_level. rewrite Ha. reflexivity. Qed.

Lemma filter_alert_level_settings s s' (l : list Detection) :
  same_settings s s' ->
  filter (fun d => alert_level s' d = true) l = filter (fun d => alert_level s d = true) l.
Proof.
  intros Hs. induction l as [|d l IH]; [reflexivity|].
  rewrite !filter_cons, IH.
  pose proof (alert_level_settings s s' d Hs) as Hd.
  destruct (decide (alert_level s' d = true)), (decide (alert_level s d = true));
    congruence.
Qed.

(** One pass of the body with [send_alerts=True]: a kept detection at the
    alert level costs one call of [send_alert], anything else none. *)
Lemma loop_body_alerts names env frame st row st' exn fr :
  loop_body names true env frame st row = (st', exn) ->
  let kept := from_option (fun d => [d]) []
                (normalize_row names (confidence_threshold (svc st)) row) in
  let alerts := filter (fun d => alert_level (svc st) d = true) kept in
  svc st' = fst (run_alerts (svc st) (attempts_from fr env (alert_calls st) alerts))
  /\ alert_calls st' = (alert_calls st + length alerts)%nat
  /\ (length (outbox st') <= length (outbox st) + length alerts)%nat.
Proof.
  intros Hbody.
  destruct (Nat.lt_ge_cases (length row) 6) as [Hlt|Hge].
  { rewrite loop_body_short in Hbody by exact Hlt. injection Hbody as <- <-.
    rewrite normalize_row_short by exact Hlt. cbn. auto with lia. }
  destruct (Nat.lt_ge_cases 6 (length row)) as [Hgt|Hle].
  { rewrite loop_body_long in Hbody by exact Hgt. injection Hbody as <- <-.
    rewrite normalize_row_long by exact Hgt. cbn. auto with lia. }
  destruct row as [|x1 [|y1 [|x2 [|y2 [|conf [|cls [|extra row]]]]]]];
    cbn in Hge, Hle; try lia.
  cbn [normalize_row].
  destruct (names !! py_int cls) as [cn|] eqn:Hn; cycle 1.
  { rewrite loop_body_unknown_class in Hbody by exact Hn. injection Hbody as <- <-.
    cbn. auto with lia. }
  destruct (Qgeb conf (confidence_threshold (svc st))) eqn:Hq; cycle 1.
  { rewrite loop_body_below in Hbody by exact Hq. injection Hbody as <- <-.
    cbn. auto with lia. }
  destruct (loop_body_kept names true env frame st x1 y1 x2 y2 conf cls cn Hn Hq)
    as (st2 & exn2 & Hst2 & _ & _ & _ & Hsend & _).
  rewrite Hst2 in Hbody. injection Hbody as <- <-. cbn [from_option].
  rewrite andb_true_r in Hsend.
  change (any_in weapon_classes cn && Qgeb conf (alert_threshold (svc st)))
    with (alert_level (svc st) (mkDetection cn conf [x1; y1; x2; y2])) in Hsend.
  cbn zeta.
  destruct (alert_level (svc st) (mkDetection cn conf [x1; y1; x2; y2])) eqn:Hal.
  - rewrite filter_cons_True by exact Hal. rewrite filter_nil.
    cbn zeta in Hsend. destruct Hsend as (Hsvc & Hcalls & Hout).
    cbn [attempts_from length]. rewrite run_alerts_cons. cbn [fst run_alerts].
    unfold attempt. cbn [a_type a_confidence a_frame a_time a_net alert_type d_class_name d_conf].
    split.
    + rewrite Hsvc.
      apply (send_alert_frame_irrelevant (svc st) _ conf (heap st !!! frame)
               (fr (alert_calls st))).
    + split; [lia|]. rewrite Hout, length_app.
      destruct (send_alert_posted_shape (svc st)
                  (if any_in gun_types cn then "gun" else "knife") conf (heap st !!! frame)
                  (fst (env (alert_calls st))) (snd (env (alert_calls st)))) as [-> | ->];
        cbn; lia.
  - rewrite filter_cons_False by (rewrite Hal; discriminate). rewrite filter_nil.
    destruct Hsend as (Hsvc & Hcalls & Hout). cbn. rewrite Hsvc, Hcalls, Hout. auto with lia.
Qed.

Lemma run_alerts_app l1 : forall s l2,
  fst (run_alerts s (l1 ++ l2)) = fst (run_alerts (fst (run_alerts s l1)) l2).
Proof.
  induction l1 as [|a l1 IH]; intros s l2; [reflexivity|].
  rewrite <- app_comm_cons, !run_alerts_cons. cbn [fst]. apply IH.
Qed.

Lemma attempts_from_app fr env ds1 : forall n ds2,
  attempts_from fr env n (ds1 ++ ds2)
  = attempts_from fr env n ds1 ++ attempts_from fr env (n + length ds1) ds2.
Proof.
  induction ds1 as [|d ds1 IH]; intros n ds2.
  - cbn. rewrite Nat.add_0_r. reflexivity.
  - cbn [app attempts_from length]. rewrite IH.
    replace (n + S (length ds1))%nat with (S n + length ds1)%nat by lia. reflexivity.
Qed.

Lemma loop_alerts names env frame fr rows : forall st st',
  loop names true env frame st rows = (st', None) ->
  let alerts := filter (fun d => alert_level (svc st) d = true)
                  (omap (normalize_row names (confidence_threshold (svc st))) rows) in
  svc st' = fst (run_alerts (svc st) (attempts_from fr env (alert_calls st) alerts))
  /\ alert_calls st' = (alert_calls st + length alerts)%nat
  /\ (length (outbox st') <= length (outbox st) + length alerts)%nat.
Proof.
  induction rows as [|row rows IH]; intros st st' Hloop; cbn in Hloop.
  - injection Hloop as <-. cbn. auto with lia.
  - destruct (loop_body names true env frame st row) as [st1 [e|]] eqn:Hbody; [discriminate|].
    destruct (loop_body_step _ _ _ _ _ _ _ _ Hbody) as (Hset & _).
    destruct (loop_body_alerts _ _ _ _ _ _ _ fr Hbody) as (Hs1 & Hc1 & Ho1).
    destruct (IH st1 st' Hloop) as (Hs2 & Hc2 & Ho2).
    cbn zeta in *.
    assert (Hthr : confidence_threshold (svc st1) = confidence_threshold (svc st))
      by apply Hset.
    rewrite Hthr in Hs2, Hc2, Ho2.
    rewrite (filter_alert_level_settings _ _ _ Hset) in Hs2, Hc2, Ho2.
    set (keep := normalize_row names (confidence_threshold (svc st))) in *.
    assert (Hsplit : omap keep (row :: rows)
                     = from_option (fun d => [d]) [] (keep row) ++ omap keep rows).
    { change (omap keep (row :: rows))
        with (match keep row with Some d => d :: omap keep rows | None => omap keep rows end).
      destruct (keep row); reflexivity. }
    rewrite Hsplit, filter_app, attempts_from_app, run_alerts_app, length_app.
    rewrite <- Hs1, <- Hc1. split; [exact Hs2|]. split; lia.
Qed.

End FrameAlerts.

(** X17.  With [send_alerts=True] the enhanced [process_detections] treats
    the service exactly as the sequence of [send_alert] calls for the
    returned detections that are weapons at or above the alert threshold:
    one call each, in the order of the table, each with its own clock
    reading; no other detection causes a call, and at most one request is
    made per such detection. *)
Theorem process_detections_is_a_run_of_alerts
    (cv2 : Cv2) s h env results frame names dets (fr : nat -> Frame) :
  let p := EnhancedProcess.process_detections s h env results frame names true in
  EnhancedProcess.result p = Returned dets ->
  let alerts := filter (fun d => alert_level s d = true) dets in
  EnhancedProcess.service_after p
  = fst (Enhanced.run_alerts s (attempts_from fr env 0 alerts))
  /\ (length (EnhancedProcess.posts p) <= length alerts)%nat
  /\ Enhanced.detection_count (EnhancedProcess.service_after p)
     = (Enhanced.detection_count s
        + length (filter (fun b => b = true)
                    (snd (Enhanced.run_alerts s (attempts_from fr env 0 alerts)))))%nat.
Proof.
  cbn zeta. unfold EnhancedProcess.process_detections.
  destruct (EnhancedProcess.loop names true env frame
              (EnhancedProcess.mkLoop [] 0 h s 0 [])
              (EnhancedProcess.nd_iter
                 (EnhancedProcess.validate_pred (EnhancedProcess.raw_pred results))))
    as [st exn] eqn:Hloop.
  destruct exn as [e|]; cbn [EnhancedProcess.result EnhancedProcess.service_after
                               EnhancedProcess.posts]; [discriminate|].
  intros [= <-].
  destruct (loop_detections _ _ _ _ _ _ _ Hloop) as [Hd _].
  destruct (loop_alerts _ _ _ fr _ _ _ Hloop) as (Hs & _ & Ho).
  cbn in Hd, Hs, Ho. rewrite Hd.
  split; [exact Hs|]. split; [exact Ho|].
  rewrite Hs.
  set (l := attempts_from fr env 0 _). clearbody l. clear.
  revert s. induction l as [|a l IH]; intros s; [cbn; lia|].
  rewrite run_alerts_cons. cbn [fst snd]. rewrite IH.
  assert (Hstep : Enhanced.detection_count (Enhanced.service (Enhanced.attempt s a))
                  = (Enhanced.detection_count s
                     + if Enhanced.returned (Enhanced.attempt s a) then 1 else 0)%nat).
  { unfold Enhanced.attempt, Enhanced.send_alert.
    destruct (Qltb _ _); [cbn; lia|].
    destruct (Enhanced.a_net a) as [c| |]; cbn; try lia.
    destruct (c =? 200)%Z; cbn; [|lia].
    destruct (String.eqb (Enhanced.a_type a) "gun"); cbn; lia. }
  rewrite Hstep. destruct (Enhanced.returned (Enhanced.attempt s a)).
  - rewrite filter_cons_True by reflexivity. cbn [length]. lia.
  - rewrite filter_cons_False by discriminate. lia.
Qed.

(** X17 on the frame with a gun and a knife at clock reading 100: the
    service ends as after a gun attempt and a knife attempt. *)
Lemma process_detections_is_a_run_of_alerts_witness :
  EnhancedProcess.result
    (EnhancedProcess.process_detections (H := example_cv2) example_service example_heap
       (accepting_at 100) (hub_result gun_and_knife) 1%positive example_names true)
  = Returned [mkDetection "gun" (9 # 10) [10; 20; 110; 220]%Q;
              mkDetection "knife" (9 # 10) [30; 40; 130; 240]%Q]
  /\ EnhancedProcess.service_after
       (EnhancedProcess.process_detections (H := example_cv2) example_service example_heap
          (accepting_at 100) (hub_result gun_and_knife) 1%positive example_names true)
     = fst (Enhanced.run_alerts example_service
              (attempts_from (fun _ => example_frame) (accepting_at 100) 0
                 (filter (fun d => alert_level example_service d = true)
                    [mkDetection "gun" (9 # 10) [10; 20; 110; 220]%Q;
                     mkDetection "knife" (9 # 10) [30; 40; 130; 240]%Q]))).
Proof.
  assert (Hres : EnhancedProcess.result
                   (EnhancedProcess.process_detections (H := example_cv2) example_service
                      example_heap (accepting_at 100) (hub_result gun_and_knife) 1%positive
                      example_names true)
                 = Returned [mkDetection "gun" (9 # 10) [10; 20; 110; 220]%Q;
                             mkDetection "knife" (9 # 10) [30; 40; 130; 240]%Q])
    by (vm_compute; reflexivity).
  split; [exact Hres|].
  apply (process_detections_is_a_run_of_alerts example_cv2 example_service example_heap
           (accepting_at 100) (hub_result gun_and_knife) 1%positive example_names _
           (fun _ => example_frame) Hres).
Defined.

(** ** The detection loop of the enhanced service *)

Section DetectionLoop.
Import Enhanced EnhancedProcess EnhancedRun.
Context `{Cv2}.

Lemma overlays_fully_annotated n alerts perf fps f ops count threshold :
  fully_annotated
    (overlays (S n) alerts perf fps
       (draw_ops (ops ++ [PutText (SummaryText count threshold) (10, f_height f - 40)%Z
                            (1 # 2)%Q (255, 255, 255)%Z 2%Z]) f)).
Proof.
  unfold fully_annotated, overlays, draw, draw_ops. cbn.
  exists (f_drawn f ++ ops), count, threshold, (status_text (S n) alerts), perf, fps.
  rewrite <- !app_assoc. reflexivity.
Qed.

(** What one pass does to the loop state. *)
Lemma pass_keeps_invariant names r t :
  let r' := fst (fst (pass names r t)) in
  same_settings (r_service r) (r_service r')
  /\ (from_option fully_annotated True (current_frame r) ->
      from_option fully_annotated True (current_frame r'))
  /\ frame_count r'
     = (frame_count r + match t_read t with Some _ => 1 | None => 0 end)%nat
  /\ (snd (fst (pass names r t)) = Break <-> t_read t = None)
  /\ (current_frame r' <> current_frame r ->
      exists frame results dets,
        t_read t = Some frame /\ t_inference t = Returned results
        /\ result (process_detections (r_service r) {[ 1%positive := frame ]} (t_env t)
                     results 1%positive names true) = Returned dets).
Proof.
  unfold pass.
  destruct (t_read t) as [frame|]; cbn [fst snd]; cycle 1.
  { split; [apply same_settings_refl|]. split; [auto|]. split; [lia|].
    split; [tauto|]. congruence. }
  destruct (t_inference t) as [results|e]; cbn [fst snd]; cycle 1.
  { cbn [r_service current_frame frame_count].
    split; [apply same_settings_refl|]. split; [auto|]. split; [lia|].
    split; [split; discriminate|]. congruence. }
  pose proof (process_detections_effects (r_service r) {[ 1%positive := frame ]} (t_env t)
                results 1%positive names true) as (Hset & _).
  cbn zeta in Hset.
  destruct (result (process_detections (r_service r) {[ 1%positive := frame ]} (t_env t)
                      results 1%positive names true)) as [dets|e] eqn:Hres;
    cbn [fst snd r_service current_frame frame_count].
  - split; [exact Hset|]. split.
    + intros _. cbn [from_option].
      destruct (returned_frame_ends_with_summary (r_service r) {[ 1%positive := frame ]}
                  (t_env t) results 1%positive names true dets frame Hres
                  (lookup_singleton_eq _ _)) as [ops Hops].
      rewrite (lookup_total_correct _ _ _ Hops), draw_summary_after_ops.
      apply overlays_fully_annotated.
    + split; [lia|]. split; [split; discriminate|]. intros _.
      exists frame, results, dets. auto.
  - split; [exact Hset|]. split; [auto|]. split; [lia|].
    split; [split; discriminate|]. congruence.
Qed.

End DetectionLoop.

(** X18.  In the detection loop of the enhanced service a frame is
    published only by a pass in which the read, the inference and
    [process_detections] all succeeded: a pass whose inference or processing
    raises leaves [self.current_frame] as it was, and the loop goes on; the
    loop ends exactly at a failed read.  So over any sequence of passes the
    frame the stream serves is either still missing or fully annotated (its
    last four drawing calls are the summary line and the three overlays),
    [frame_count] is the number of frames read before the first failed read,
    and the settings of the service never change. *)
Theorem run_detection_publishes_annotated_frames (cv2 : Cv2) names :
  (forall r t,
      let out := EnhancedRun.pass names r t in
      (snd (fst out) = EnhancedRun.Break <-> EnhancedRun.t_read t = None)
      /\ (EnhancedRun.current_frame (fst (fst out)) <> EnhancedRun.current_frame r ->
          exists frame results dets,
            EnhancedRun.t_read t = Some frame
            /\ EnhancedRun.t_inference t = Returned results
            /\ EnhancedProcess.result
                 (EnhancedProcess.process_detections (EnhancedRun.r_service r)
                    {[ 1%positive := frame ]} (EnhancedRun.t_env t) results 1%positive
                    names true)
               = Returned dets))
  /\ (forall ticks r,
      from_option fully_annotated True (EnhancedRun.current_frame r) ->
      let r' := EnhancedRun.run_detection names r ticks in
      from_option fully_annotated True (EnhancedRun.current_frame r')
      /\ EnhancedRun.frame_count r' = (EnhancedRun.frame_count r + frames_read ticks)%nat
      /\ same_settings (EnhancedRun.r_service r) (EnhancedRun.r_service r')).
Proof.
  split.
  { intros r t out. unfold out.
    pose proof (pass_keeps_invariant names r t) as (_ & _ & _ & Hbreak & Hpub). auto. }
  induction ticks as [|t ticks IH]; intros r Hinv; cbn zeta.
  - cbn. split; [exact Hinv|]. split; [lia | apply same_settings_refl].
  - cbn [EnhancedRun.run_detection frames_read].
    pose proof (pass_keeps_invariant names r t) as (Hset & Hann & Hcount & Hbreak & _).
    cbn zeta in Hset, Hann, Hcount.
    destruct (EnhancedRun.pass names r t) as [[r1 c] out]. cbn [fst snd] in *.
    destruct c.
    + destruct (EnhancedRun.t_read t) as [frame|] eqn:Hread.
      * destruct (IH r1 (Hann Hinv)) as (I1 & I2 & I3). cbn zeta in I1, I2, I3.
        split; [exact I1|]. split; [lia|]. eapply same_settings_trans; eauto.
      * exfalso. destruct Hbreak as [_ Hb]. specialize (Hb eq_refl). discriminate.
    + destruct (EnhancedRun.t_read t) as [frame|] eqn:Hread.
      * exfalso. destruct Hbreak as [Hb _]. specialize (Hb eq_refl). discriminate.
      * split; [auto|]. split; [lia | exact Hset].
Qed.

(** X18 on three passes: a gun at clock reading 100, a frame whose
    processing raises, and a failed read. *)
Lemma run_detection_publishes_annotated_frames_witness :
  from_option fully_annotated True
    (EnhancedRun.current_frame (EnhancedRun.start example_service))
  /\ EnhancedRun.frame_count
       (EnhancedRun.run_detection (H := example_cv2) example_names
          (EnhancedRun.start example_service)
          [gun_tick (9 # 10) 100; bad_tick; failed_read; gun_tick (9 # 10) 200])
     = 2%nat
  /\ from_option fully_annotated True
       (EnhancedRun.current_frame
          (EnhancedRun.run_detection (H := example_cv2) example_names
             (EnhancedRun.start example_service)
             [gun_tick (9 # 10) 100; bad_tick; failed_read; gun_tick (9 # 10) 200])).
Proof.
  assert (Hstart : from_option fully_annotated True
                     (EnhancedRun.current_frame (EnhancedRun.start example_service)))
    by exact I.
  pose proof (proj2 (run_detection_publishes_annotated_frames example_cv2 example_names)
                [gun_tick (9 # 10) 100; bad_tick; failed_read; gun_tick (9 # 10) 200]
                (EnhancedRun.start example_service) Hstart) as (H1 & H2 & _).
  split; [exact Hstart|]. split; [exact H2 | exact H1].
Defined.

(** ** The snapshot sent with an alert *)

Section Snapshots.
Import Enhanced EnhancedProcess.
Context `{Cv2}.

Lemma loop_outbox_grows names sa env frame rows st :
  exists new,
    outbox (fst (loop names sa env frame st rows)) = outbox st ++ new.
Proof.
  destruct (loop names sa env frame st rows) as [st' exn] eqn:Hloop.
  destruct (loop_inv _ _ _ _ _ _ _ _ Hloop) as (_ & (new & Ho & _) & _).
  exists new. exact Ho.
Qed.

End Snapshots.

(** X19.  In the enhanced service the snapshot is taken before the
    detection is drawn: when the first row of the table is a weapon at or
    above both thresholds and the cooldown gate is open, the first request
    of the call carries the frame exactly as it was handed to
    [process_detections], without the box, label or warning of the
    detection it reports. *)
Theorem first_alert_snapshot_is_undrawn
    (cv2 : Cv2) s h env results frame names f x1 y1 x2 y2 conf cls cn rest :
  EnhancedProcess.nd_iter (EnhancedProcess.validate_pred (EnhancedProcess.raw_pred results))
  = [x1; y1; x2; y2; conf; cls] :: rest ->
  names !! py_int cls = Some cn ->
  Qgeb conf (Enhanced.confidence_threshold s) = true ->
  alert_level s (mkDetection cn conf [x1; y1; x2; y2]) = true ->
  (inject_Z (Enhanced.cooldown_seconds s)
   <= fst (env 0%nat)
      - Enhanced.clock_of s (alert_type (mkDetection cn conf [x1; y1; x2; y2])))%Q ->
  h !! frame = Some f ->
  head (EnhancedProcess.posts
          (EnhancedProcess.process_detections s h env results frame names true))
  = Some (mkAlertData (Enhanced.camera_id s) conf
            (alert_type (mkDetection cn conf [x1; y1; x2; y2])) (Some f)).
Proof.
  intros Hrows Hn Hq Hal Hopen Hf.
  unfold EnhancedProcess.process_detections. rewrite Hrows.
  cbn [EnhancedProcess.loop].
  destruct (loop_body_kept names true env frame (EnhancedProcess.mkLoop [] 0 h s 0 [])
              x1 y1 x2 y2 conf cls cn Hn Hq) as (st1 & exn1 & Hst1 & _ & _ & _ & Hsend & _).
  rewrite Hst1.
  cbn [EnhancedProcess.svc EnhancedProcess.heap EnhancedProcess.alert_calls
         EnhancedProcess.outbox] in Hsend.
  rewrite andb_true_r in Hsend.
  change (EnhancedProcess.any_in EnhancedProcess.weapon_classes cn
          && Qgeb conf (Enhanced.alert_threshold s))
    with (alert_level s (mkDetection cn conf [x1; y1; x2; y2])) in Hsend.
  rewrite Hal in Hsend. cbn zeta in Hsend. destruct Hsend as (_ & _ & Hout).
  change (if EnhancedProcess.any_in EnhancedProcess.gun_types cn then "gun"%string
          else "knife"%string)
    with (alert_type (mkDetection cn conf [x1; y1; x2; y2])) in Hout.
  rewrite (lookup_total_correct _ _ _ Hf) in Hout.
  rewrite (send_alert_posts s _ conf f (fst (env 0%nat)) (snd (env 0%nat)) Hopen) in Hout.
  destruct exn1 as [e|]; [cbn [EnhancedProcess.posts]; rewrite Hout; reflexivity|].
  destruct (loop_outbox_grows names true env frame rest st1) as [new Hnew].
  destruct (EnhancedProcess.loop names true env frame st1 rest) as [st' exn].
  cbn [fst] in Hnew.
  assert (Hposts : EnhancedProcess.outbox st'
                   = mkAlertData (Enhanced.camera_id s) conf
                       (alert_type (mkDetection cn conf [x1; y1; x2; y2])) (Some f) :: new).
  { rewrite Hnew, Hout. reflexivity. }
  destruct exn; cbn [EnhancedProcess.posts]; rewrite Hposts; reflexivity.
Qed.

(** X19 on a frame with one gun at 0.9, the clock at 100. *)
Lemma first_alert_snapshot_is_undrawn_witness :
  head (EnhancedProcess.posts
          (EnhancedProcess.process_detections (H := example_cv2) example_service example_heap
             (accepting_at 100) (hub_result (gun_table (9 # 10))) 1%positive example_names
             true))
  = Some (mkAlertData "webcam-01" (9 # 10) "gun" (Some example_frame)).
Proof.
  apply (first_alert_snapshot_is_undrawn example_cv2 example_service example_heap
           (accepting_at 100) (hub_result (gun_table (9 # 10))) 1%positive example_names
           example_frame 10 20 110 220 (9 # 10) 0 "gun"%string []);
    try reflexivity.
  vm_compute. discriminate.
Defined.

Section GunSnapshots.
Import GunService GunProcess.

Lemma gun_send_alerts_images env frame dets : forall s n,
  let out := send_alerts s env n frame dets in
  Forall (fun a => ad_image a = (if capture_snapshots s then Some frame else None)
                   /\ ad_camera_id a = camera_id s) (snd out)
  /\ (length (snd out) <= length dets)%nat
  /\ length (snd (fst out)) = length dets.
Proof.
  induction dets as [|[ty conf] dets IH]; intros s n; cbn zeta.
  - cbn. split; [constructor|]. split; [lia | reflexivity].
  - cbn [send_alerts]. destruct (env n) as [now net].
    specialize (IH (service (send_alert s ty conf (Some frame) now net)) (S n)).
    cbn zeta in IH.
    destruct (send_alerts (service (send_alert s ty conf (Some frame) now net)) env (S n)
                frame dets) as [[s' rets] out].
    cbn [fst snd] in *. destruct IH as (Himg & Hlen & Hrets).
    assert (Hkeep : capture_snapshots (service (send_alert s ty conf (Some frame) now net))
                    = capture_snapshots s
                    /\ camera_id (service (send_alert s ty conf (Some frame) now net))
                       = camera_id s
                    /\ Forall (fun a => ad_image a
                                        = (if capture_snapshots s then Some frame else None)
                                        /\ ad_camera_id a = camera_id s)
                         (posted (send_alert s ty conf (Some frame) now net))
                    /\ (length (posted (send_alert s ty conf (Some frame) now net)) <= 1)%nat).
    { unfold send_alert. destruct (Qltb _ _); [cbn; auto|].
      destruct net as [c| |]; cbn; [destruct (c =? 200)%Z; cbn|..];
        repeat split; auto. }
    destruct Hkeep as (Hc & Hid & Hp & Hl). rewrite Hc, Hid in Himg.
    split; [apply Forall_app; auto|]. rewrite length_app. cbn [length]. split; lia.
Qed.

End GunSnapshots.

(** X20.  In the gun detection service every request of a frame carries
    the camera id and, when [capture_snapshots] is set, the frame as it is
    after [process_detections] has drawn all boxes and labels; when it is not
    set, no request carries an image.  [send_alert] is called once per
    returned detection and makes at most one request per call. *)
Theorem gun_cycle_snapshots_show_all_boxes s h env table frame names :
  let c := GunProcess.run_cycle s h env table frame names in
  let p := GunProcess.process_detections s h table frame names in
  Forall (fun a => ad_image a
                   = (if GunService.capture_snapshots s
                      then Some (GunProcess.heap_after p !!! frame) else None)
                   /\ ad_camera_id a = GunService.camera_id s)
    (GunProcess.cy_posts c)
  /\ GunProcess.cy_heap c = GunProcess.heap_after p
  /\ (forall dets, GunProcess.result p = Returned dets ->
                   length (GunProcess.cy_returns c) = length dets
                   /\ (length (GunProcess.cy_posts c) <= length dets)%nat).
Proof.
  cbn zeta. unfold GunProcess.run_cycle.
  destruct (GunProcess.result (GunProcess.process_detections s h table frame names))
    as [dets|e] eqn:Hres.
  - pose proof (gun_send_alerts_images env
                  (GunProcess.heap_after
                     (GunProcess.process_detections s h table frame names) !!! frame)
                  dets s 0%nat) as Hs.
    cbn zeta in Hs.
    destruct (GunProcess.send_alerts s env 0
                (GunProcess.heap_after
                   (GunProcess.process_detections s h table frame names) !!! frame) dets)
      as [[s' rets] out].
    cbn [fst snd GunProcess.cy_posts GunProcess.cy_heap GunProcess.cy_returns] in *.
    destruct Hs as (Himg & Hlen & Hrets).
    split; [exact Himg|]. split; [reflexivity|].
    intros dets' [= <-]. auto.
  - cbn. split; [constructor|]. split; [reflexivity|]. discriminate.
Qed.

(** X20 on the frame with a gun and a knife: two calls, one request. *)
Lemma gun_cycle_snapshots_show_all_boxes_witness :
  GunProcess.result
    (GunProcess.process_detections example_gun_service example_heap gun_and_knife 1%positive
       example_names)
  = Returned [("gun"%string, (9 # 10)%Q); ("knife"%string, (9 # 10)%Q)]
  /\ length (GunProcess.cy_returns
               (GunProcess.run_cycle example_gun_service example_heap (accepting_at 100)
                  gun_and_knife 1%positive example_names))
     = 2%nat.
Proof.
  assert (Hres : GunProcess.result
                   (GunProcess.process_detections example_gun_service example_heap
                      gun_and_knife 1%positive example_names)
                 = Returned [("gun"%string, (9 # 10)%Q); ("knife"%string, (9 # 10)%Q)])
    by (vm_compute; reflexivity).
  split; [exact Hres|].
  apply (proj2 (proj2 (gun_cycle_snapshots_show_all_boxes example_gun_service example_heap
                         (accepting_at 100) gun_and_knife 1%positive example_names))
           _ Hres).
Defined.
